(** * Seat-view preview: coordinate import, seat layout and model loading

    A shallow embedding of the JavaScript sources
    ([utils/seatCoordinateParser.js], [utils/coordinateLoader.js],
    [utils/modelLoader.js], [utils/ModelContext.js],
    [components/StadiumMap.js], [components/CoordinateImporter.js],
    [components/ModelUploader.js], [App.js]) and the properties of the
    specification proved or refuted about them.

    JavaScript numbers are IEEE 754 binary64 values.  They are modelled by the
    Standard Library's [spec_float] at precision 53 and maximal exponent 1024,
    whose operations are the round-to-nearest-even operations of the standard,
    so [NaN], the infinities, signed zeros, rounding and overflow behave as
    they do in the engine.  [Math.cos] and [Math.sin], which the language
    leaves to the implementation, are parameters.  Strings are lists of code
    units below 256.  Asynchronous code is modelled by the settlement of its
    promises, given as data, and by the events of the component it belongs
    to. *)

From Stdlib Require Import ZArith List Bool Ascii String DecimalString Lia.
From Stdlib.Strings Require Import Byte.
From Stdlib Require Import SpecFloat FloatOps PrimFloat.
Import ListNotations.

Set Warnings "-inexact-float,-register-all".

(** ** JavaScript numbers *)

Module JS.

Definition number : Set := spec_float.

Definition NaN : number := S754_nan.
Definition Infinity : number := S754_infinity false.

(** A numeric literal of the source text. *)
Definition lit (f : float) : number := Prim2SF f.

Definition add : number -> number -> number := SFadd prec emax.
Definition sub : number -> number -> number := SFsub prec emax.
Definition mul : number -> number -> number := SFmul prec emax.
Definition div : number -> number -> number := SFdiv prec emax.
Definition neg : number -> number := SFopp.

(** [a < b], [a > b], [a <= b] and [a === b] on numbers; every comparison
    with [NaN] is false. *)
Definition lt (a b : number) : bool := SFltb a b.
Definition gt (a b : number) : bool := SFltb b a.
Definition le (a b : number) : bool := SFleb a b.
Definition strict_eq (a b : number) : bool := SFeqb a b.

(** The values of the format: mantissas of at most 53 bits at the exponent
    the format prescribes.  Every number of a program is one. *)
Definition wellFormed (a : number) : bool := valid_binary prec emax a.

Definition isNaN (a : number) : bool :=
  match a with S754_nan => true | _ => false end.

(** [Number.isFinite]. *)
Definition isFinite (a : number) : bool :=
  match a with S754_zero _ | S754_finite _ _ _ => true | _ => false end.

Definition sign_bit (a : number) : bool :=
  match a with
  | S754_zero s | S754_infinity s | S754_finite s _ _ => s
  | S754_nan => false
  end.

Definition is_zero (a : number) : bool :=
  match a with S754_zero _ => true | _ => false end.

(** The integer [z] as a number (exact for [|z| <= 2^53]). *)
Definition of_Z (z : Z) : number := binary_normalize prec emax z 0 false.

Module Math.

Definition abs : number -> number := SFabs.
Definition sqrt : number -> number := SFsqrt prec emax.

(** [Math.min(a, b)]: [NaN] if either argument is; [-0] is below [+0]. *)
Definition min (a b : number) : number :=
  if isNaN a || isNaN b then NaN
  else if lt a b then a
  else if lt b a then b
  else if is_zero a && is_zero b then (if sign_bit a then a else b)
  else a.

(** [Math.max(a, b)]: [NaN] if either argument is; [+0] is above [-0]. *)
Definition max (a b : number) : number :=
  if isNaN a || isNaN b then NaN
  else if lt b a then a
  else if lt a b then b
  else if is_zero a && is_zero b then (if sign_bit a then b else a)
  else a.

(** [Math.floor]: the largest integer not above the argument; zeros,
    infinities and [NaN] are returned unchanged. *)
Definition floor (x : number) : number :=
  match x with
  | S754_finite s m e =>
      if (0 <=? e)%Z then x
      else
        let q := Z.shiftr (Zpos m) (- e) in
        let exact := (Z.shiftl q (- e) =? Zpos m)%Z in
        if s then of_Z (- (if exact then q else q + 1))
        else of_Z q
  | _ => x
  end.

(** [Math.pow(x, 2)], which the engines compute as [x * x]. *)
Definition pow2 (x : number) : number := mul x x.

Definition PI : number := Eval vm_compute in lit 3.141592653589793%float.

End Math.

(** [n % d]: the remainder of the truncating division, exact, with the sign
    of the dividend. *)
Definition rem (n d : number) : number :=
  match n, d with
  | S754_nan, _ | _, S754_nan => NaN
  | S754_infinity _, _ => NaN
  | _, S754_zero _ => NaN
  | _, S754_infinity _ => n
  | S754_zero _, _ => n
  | S754_finite sn mn en, S754_finite _ md ed =>
      let ez := Z.min en ed in
      let N := Z.shiftl (Zpos mn) (en - ez) in
      let D := Z.shiftl (Zpos md) (ed - ez) in
      binary_normalize prec emax (cond_Zopp sn (Z.rem N D)) ez sn
  end.

(** A value that may be [undefined]: an absent property, or the result of
    [Array.prototype.find] without a hit.  [to_number] is the conversion
    applied by the arithmetic operators. *)
Inductive value (A : Type) : Type :=
| Undefined : value A
| Defined : A -> value A.
Arguments Undefined {A}.
Arguments Defined {A} _.

Definition to_number (v : value number) : number :=
  match v with Undefined => NaN | Defined n => n end.

(** [ToBoolean] on a number: the zeros and [NaN] are falsy. *)
Definition truthy (a : number) : bool := negb (is_zero a || isNaN a).

(** [a || d] on numbers. *)
Definition orElse (a d : number) : number := if truthy a then a else d.

End JS.

Declare Scope js_scope.
Delimit Scope js_scope with js.
Bind Scope js_scope with JS.number.
Notation "a + b" := (JS.add a b) : js_scope.
Notation "a - b" := (JS.sub a b) : js_scope.
Notation "a * b" := (JS.mul a b) : js_scope.
Notation "a / b" := (JS.div a b) : js_scope.
Notation "- a" := (JS.neg a) : js_scope.
Notation "a 'mod' b" := (JS.rem a b) : js_scope.
Notation "a <? b" := (JS.lt a b) : js_scope.
Notation "a >? b" := (JS.gt a b) : js_scope.
Notation "a <=? b" := (JS.le a b) : js_scope.

(** The literals of the sources. *)
Module Lit.
Definition n0 : JS.number := Eval vm_compute in JS.lit 0%float.
Definition n1 : JS.number := Eval vm_compute in JS.lit 1%float.
Definition n2 : JS.number := Eval vm_compute in JS.lit 2%float.
Definition n10 : JS.number := Eval vm_compute in JS.lit 10%float.
Definition n20 : JS.number := Eval vm_compute in JS.lit 20%float.
Definition n50 : JS.number := Eval vm_compute in JS.lit 50%float.
Definition n100 : JS.number := Eval vm_compute in JS.lit 100%float.
Definition n120 : JS.number := Eval vm_compute in JS.lit 120%float.
Definition n150 : JS.number := Eval vm_compute in JS.lit 150%float.
Definition n180 : JS.number := Eval vm_compute in JS.lit 180%float.
Definition n200 : JS.number := Eval vm_compute in JS.lit 200%float.
Definition n250 : JS.number := Eval vm_compute in JS.lit 250%float.
Definition n0_2 : JS.number := Eval vm_compute in JS.lit 0.2%float.
Definition n0_4 : JS.number := Eval vm_compute in JS.lit 0.4%float.
Definition n0_6 : JS.number := Eval vm_compute in JS.lit 0.6%float.
Definition n0_8 : JS.number := Eval vm_compute in JS.lit 0.8%float.
Definition n0_95 : JS.number := Eval vm_compute in JS.lit 0.95%float.
End Lit.



(** ** JavaScript strings *)

Module Str.

(** A string is the list of its code units. *)
Definition t : Set := list ascii.

Definition str (s : string) : t := list_ascii_of_string s.

Definition code (c : ascii) : N := N_of_ascii c.

(** White space and line terminators below 256: tab, line feed, vertical tab,
    form feed, carriage return, space and no-break space.  This is the set
    [trim] strips and the class [\s] matches. *)
Definition is_space (c : ascii) : bool :=
  let n := code c in
  ((9 <=? n) && (n <=? 13) || (n =? 32) || (n =? 160))%N.

(** The class [\d]. *)
Definition is_digit (c : ascii) : bool :=
  let n := code c in ((48 <=? n) && (n <=? 57))%N.

Definition newline : ascii := "010"%char.

Fixpoint trimStart (s : t) : t :=
  match s with
  | c :: s' => if is_space c then trimStart s' else s
  | [] => []
  end.

Definition trimEnd (s : t) : t := rev (trimStart (rev s)).

(** [s.trim()]. *)
Definition trim (s : t) : t := trimEnd (trimStart s).

(** [s.startsWith(prefix)], returning the rest of [s] behind the prefix. *)
Fixpoint stripPrefix (prefix s : t) : option t :=
  match prefix, s with
  | [], _ => Some s
  | p :: prefix', c :: s' => if Ascii.eqb p c then stripPrefix prefix' s' else None
  | _ :: _, [] => None
  end.

(** [s.includes(needle)]. *)
Fixpoint includes (needle s : t) : bool :=
  match stripPrefix needle s with
  | Some _ => true
  | None => match s with
            | [] => false
            | _ :: s' => includes needle s'
            end
  end.

(** [s.split(sep)] for a separator of one code unit: never empty, and the
    empty string splits into one empty piece. *)
Fixpoint split (sep : ascii) (s : t) : list t :=
  match s with
  | [] => [[]]
  | c :: s' =>
      if Ascii.eqb c sep then [] :: split sep s'
      else match split sep s' with
           | piece :: pieces => (c :: piece) :: pieces
           | [] => [[c]]
           end
  end.

(** [a === b] on strings. *)
Fixpoint eqb (a b : t) : bool :=
  match a, b with
  | [], [] => true
  | x :: a', y :: b' => Ascii.eqb x y && eqb a' b'
  | _, _ => false
  end.

(** The decimal rendering of a natural number inside a template literal. *)
Definition ofN (n : N) : t :=
  list_ascii_of_string (NilZero.string_of_uint (N.to_uint n)).

(** [s.toLowerCase()]: below 256 the upper-case letters are A to Z and the
    code units 192 to 222 without the multiplication sign 215. *)
Definition toLowerCase (s : t) : t :=
  map (fun c => let n := code c in
                if ((65 <=? n) && (n <=? 90)
                    || (192 <=? n) && (n <=? 222) && negb (n =? 215))%N
                then ascii_of_N (n + 32) else c) s.

End Str.

(** ** Regular expressions

    The fragment the sources use: literal characters, a greedy starred
    character class, and one capturing group holding a greedy character class
    repeated at least once.  Matching backtracks as the engine does. *)

Module RegExp.

Inductive item : Set :=
| Chr (c : ascii)
| Star (p : ascii -> bool)
| GroupPlus (p : ascii -> bool).

Definition pattern : Set := list item.

(** [p*] followed by the continuation [k]: the longest run first, then
    shorter ones. *)
Fixpoint star {A : Type} (p : ascii -> bool) (k : Str.t -> option A) (s : Str.t)
  : option A :=
  match s with
  | c :: s' =>
      if p c then
        match star p k s' with
        | Some r => Some r
        | None => k s
        end
      else k s
  | [] => k s
  end.

(** [(p* )] captured, followed by [k]; the result is the captured run. *)
Fixpoint starCapture (p : ascii -> bool) (k : Str.t -> bool) (s : Str.t)
  : option Str.t :=
  match s with
  | c :: s' =>
      if p c then
        match starCapture p k s' with
        | Some run => Some (c :: run)
        | None => if k s then Some [] else None
        end
      else if k s then Some [] else None
  | [] => if k s then Some [] else None
  end.

Definition isSome {A : Type} (o : option A) : bool :=
  match o with Some _ => true | None => false end.

(** A match of the whole pattern at the start of [s]; the result is what
    group 1 captured (empty when the pattern has no group). *)
Fixpoint matchHere (pat : pattern) (s : Str.t) {struct pat} : option Str.t :=
  match pat with
  | [] => Some []
  | Chr c :: pat' =>
      match s with
      | x :: s' => if Ascii.eqb x c then matchHere pat' s' else None
      | [] => None
      end
  | Star p :: pat' => star p (matchHere pat') s
  | GroupPlus p :: pat' =>
      match s with
      | x :: s' =>
          if p x then
            option_map (cons x)
              (starCapture p (fun rest => isSome (matchHere pat' rest)) s')
          else None
      | [] => None
      end
  end.

(** [s.match(re)] for a pattern without the global flag: the leftmost
    position at which the pattern matches; [None] is [null]. *)
Fixpoint search (pat : pattern) (s : Str.t) : option Str.t :=
  match matchHere pat s with
  | Some group => Some group
  | None => match s with
            | [] => None
            | _ :: s' => search pat s'
            end
  end.

Definition literal (s : string) : pattern := map Chr (Str.str s).

End RegExp.

(** ** [parseFloat] *)

Module ParseFloat.

Definition digitValue (c : ascii) : N := (Str.code c - 48)%N.

(** The longest prefix of digits and what follows it. *)
Fixpoint digits (s : Str.t) : Str.t * Str.t :=
  match s with
  | c :: s' =>
      if Str.is_digit c then let '(ds, rest) := digits s' in (c :: ds, rest)
      else ([], s)
  | [] => ([], [])
  end.

(** The value of a digit string read in base ten. *)
Definition decimal (ds : Str.t) : N :=
  fold_left (fun n c => (10 * n + digitValue c)%N) ds 0%N.

(** The number nearest to [(-1)^neg * n * 10^k], ties to even. *)
Definition decimalValue (neg : bool) (n : N) (k : Z) : JS.number :=
  match n with
  | N0 => S754_zero neg
  | Npos m =>
      match k with
      | Zneg d =>
          SFdiv prec emax (S754_finite neg m 0) (S754_finite false (10 ^ d) 0)
      | _ => binary_normalize prec emax (cond_Zopp neg (Zpos m * 10 ^ k)) 0 neg
      end
  end.

(** An exponent part [e], [e+] or [e-] followed by digits, if there is one. *)
Definition exponent (s : Str.t) : Z :=
  match s with
  | c :: s' =>
      if Ascii.eqb c "e" || Ascii.eqb c "E" then
        match s' with
        | sg :: s'' =>
            if Ascii.eqb sg "-" then
              match digits s'' with
              | ([], _) => 0%Z
              | (ds, _) => (- Z.of_N (decimal ds))%Z
              end
            else if Ascii.eqb sg "+" then Z.of_N (decimal (fst (digits s'')))
            else Z.of_N (decimal (fst (digits s')))
        | [] => 0%Z
        end
      else 0%Z
  | [] => 0%Z
  end.

(** The digits and the decimal exponent of an unsigned literal without
    [Infinity]: digits with an optional fraction, or a fraction starting with
    the point; [None] when [s] starts with neither. *)
Definition mantissa (s : Str.t) : option (Str.t * Z) :=
  let '(int, rest) := digits s in
  match rest with
  | c :: rest' =>
      if Ascii.eqb c "." then
        let '(frac, rest'') := digits rest' in
        match (int ++ frac)%list with
        | [] => None
        | ds => Some (ds, (exponent rest'' - Z.of_nat (List.length frac))%Z)
        end
      else
        match int with
        | [] => None
        | _ => Some (int, exponent rest)
        end
  | [] =>
      match int with
      | [] => None
      | _ => Some (int, 0%Z)
      end
  end.

(** The unsigned part of a decimal literal. *)
Definition unsignedLiteral (neg : bool) (s : Str.t) : JS.number :=
  match Str.stripPrefix (Str.str "Infinity") s with
  | Some _ => S754_infinity neg
  | None =>
      match mantissa s with
      | Some (ds, k) => decimalValue neg (decimal ds) k
      | None => JS.NaN
      end
  end.

(** [parseFloat(s)]: leading white space is skipped, the longest prefix that
    is a decimal literal is converted, and [NaN] is returned when there is
    none. *)
Definition parseFloat (s : Str.t) : JS.number :=
  match Str.trimStart s with
  | c :: s' =>
      if Ascii.eqb c "-" then unsignedLiteral true s'
      else if Ascii.eqb c "+" then unsignedLiteral false s'
      else unsignedLiteral false (c :: s')
  | [] => JS.NaN
  end.

End ParseFloat.

(** ** Data model *)

(** The coordinate objects [{x, y, z}]. *)
Record Point3 : Set := mkPoint3 { px : JS.number; py : JS.number; pz : JS.number }.

(** The seat objects.  [section] is [undefined] when the section table is
    indexed out of range; [originalIndex] is set by the file loader only.  The
    [id] property, a string rendering of section, row and number, is not part
    of the model. *)
Record Seat : Set := mkSeat {
  section : JS.value string;
  row : JS.number;
  number : JS.number;
  price : JS.number;
  coordinates : Point3;
  originalIndex : JS.value nat
}.

(** ** utils/seatCoordinateParser.js *)

Module SeatCoordinateParser.

Local Open Scope js_scope.

(** The class [[-\d\.\s,]]. *)
Definition inClass (c : ascii) : bool :=
  Ascii.eqb c "-" || Str.is_digit c || Ascii.eqb c "." || Str.is_space c
  || Ascii.eqb c ",".

(** The pattern [/<Vector\s*\(([-\d\.\s,]+)\)>/]. *)
Definition vectorPattern : RegExp.pattern :=
  (RegExp.literal "<Vector"
   ++ [RegExp.Star Str.is_space; RegExp.Chr "("; RegExp.GroupPlus inClass;
       RegExp.Chr ")"; RegExp.Chr ">"])%list.

(** The callback of [lines.forEach]: [Some] is the object pushed, [None] an
    early [return]. *)
Definition lineCoordinates (line : Str.t) : option Point3 :=
  let line := Str.trim line in
  match line with
  | [] => None
  | _ =>
      if negb (Str.includes (Str.str "<Vector") line) then None
      else
        match RegExp.search vectorPattern line with
        | None => None
        | Some [] => None
        | Some group =>
            let parts :=
              map (fun part => ParseFloat.parseFloat (Str.trim part))
                  (Str.split "," group) in
            match parts with
            | [p0; p1; p2] => Some {| px := p0; py := p1; pz := p2 |}
            | _ => None
            end
        end
  end.

Definition parseVectorCoordinates (text : Str.t) : list Point3 :=
  match text with
  | [] => []
  | _ =>
      fold_left
        (fun coordinates line =>
           match lineCoordinates line with
           | Some coord => (coordinates ++ [coord])%list
           | None => coordinates
           end)
        (Str.split Str.newline text) []
  end.

Definition convertToThreeCoordinates (coordinates : list Point3) : list Point3 :=
  map (fun coord => {| px := px coord; py := pz coord; pz := py coord |})
      coordinates.

(** The callback of [coordinates.map] in [generateSeatsFromCoordinates]. *)
Definition generateSeat (coord : Point3) : Seat :=
  let section := if px coord >? Lit.n0 then "B"%string else "A"%string in
  let row := JS.Math.floor (JS.Math.abs (py coord) * Lit.n10) mod Lit.n10 + Lit.n1 in
  let number := JS.Math.floor (JS.Math.abs (px coord) * Lit.n10) mod Lit.n10 + Lit.n1 in
  let height := JS.Math.abs (pz coord) in
  let price := JS.Math.floor (Lit.n100 + height * Lit.n50) in
  {| section := JS.Defined section;
     row := row;
     number := number;
     price := price;
     coordinates := coord;
     originalIndex := JS.Undefined |}.

Definition generateSeatsFromCoordinates (coordinates : list Point3) : list Seat :=
  map generateSeat coordinates.

Definition parseAndGenerateSeats (text : Str.t) : list Seat :=
  let parsedCoordinates := parseVectorCoordinates text in
  let threeCoordinates := convertToThreeCoordinates parsedCoordinates in
  generateSeatsFromCoordinates threeCoordinates.

End SeatCoordinateParser.

(** ** What the regular expression of the parser accepts

    The pattern accepts an opening tag, a parenthesised run of the
    characters that signed decimal numbers, commas and white space are made
    of, and a closing tag; it does not ask that the run be made of numbers.
    The definitions below say where a string holds such a run, without
    reference to the matcher. *)

Module VectorSyntax.

(** A record at the very start of [s]: [<Vector], white space, the opening
    parenthesis, the non-empty [group], the closing parenthesis and [>]. *)
Definition recordAt (s group : Str.t) : Prop :=
  exists ws rest,
    s = (Str.str "<Vector" ++ ws
         ++ "("%char :: group ++ ")"%char :: ">"%char :: rest)%list
    /\ forallb Str.is_space ws = true
    /\ group <> []
    /\ forallb SeatCoordinateParser.inClass group = true.

(** The leftmost record of [s]. *)
Definition firstRecord (s group : Str.t) : Prop :=
  exists before after,
    s = (before ++ after)%list
    /\ recordAt after group
    /\ forall before' after' group',
        s = (before' ++ after')%list ->
        (List.length before' < List.length before)%nat ->
        ~ recordAt after' group'.

(** [s] holds no record at any position. *)
Definition noRecord (s : Str.t) : Prop :=
  forall before after group, s = (before ++ after)%list -> ~ recordAt after group.

(** The three fields of a group, converted. *)
Definition fieldsOf (group : Str.t) : list JS.number :=
  map (fun part => ParseFloat.parseFloat (Str.trim part)) (Str.split "," group).

(** An unsigned decimal numeral at the start of [u]: [Infinity], a digit, or
    a point with a digit behind it. *)
Definition unsignedNumeral (u : Str.t) : bool :=
  RegExp.isSome (Str.stripPrefix (Str.str "Infinity") u)
  || match u with
     | c :: u' =>
         Str.is_digit c
         || (Ascii.eqb c "."
             && match u' with d :: _ => Str.is_digit d | [] => false end)
     | [] => false
     end.

(** A decimal numeral, with or without sign, at the start of [s] behind
    leading white space. *)
Definition startsWithNumeral (s : Str.t) : bool :=
  match Str.trimStart s with
  | c :: s' =>
      if Ascii.eqb c "-" || Ascii.eqb c "+" then unsignedNumeral s'
      else unsignedNumeral (c :: s')
  | [] => false
  end.

(** What a line contributes to the result of the parser. *)
Definition contribution (line : Str.t) : list Point3 :=
  match SeatCoordinateParser.lineCoordinates line with
  | Some coord => [coord]
  | None => []
  end.

(** The text of the import scenario of section 8. *)
Definition scenario : Str.t :=
  (Str.str "<Vector (-0.4, -0.5, -0.3)>"
   ++ Str.newline :: Str.str "bad line"
   ++ Str.newline :: Str.str "<Vector (0.2, 0.1, 0.4)>")%list.

End VectorSyntax.

(** ** The records the specification speaks of

    A line matches [<Vector (x, y, z)>] when it holds, somewhere, the opening
    tag, a parenthesis, three signed decimal numbers separated by commas, the
    closing parenthesis and [>].  White space may stand between the tag and
    the parenthesis and around each number. *)

Module RecordSpec.

(** A signed decimal number: an optional sign, then digits with at most one
    point among them, and at least one digit. *)
Definition signedDecimal (s : Str.t) : bool :=
  let unsigned :=
    match s with
    | c :: s' => if Ascii.eqb c "-" || Ascii.eqb c "+" then s' else s
    | [] => s
    end in
  forallb (fun c => Str.is_digit c || Ascii.eqb c ".") unsigned
  && existsb Str.is_digit unsigned
  && (List.length (filter (Ascii.eqb ".") unsigned) <=? 1)%nat.

(** A number with white space around it. *)
Definition field (f : Str.t) : bool := signedDecimal (Str.trim f).

Definition holdsNumericRecord (line : Str.t) : Prop :=
  exists before ws x y z rest,
    line = (before ++ Str.str "<Vector" ++ ws
            ++ "("%char :: x ++ ","%char :: y ++ ","%char :: z
            ++ ")"%char :: ">"%char :: rest)%list
    /\ forallb Str.is_space ws = true
    /\ field x = true /\ field y = true /\ field z = true.

End RecordSpec.

(** ** utils/coordinateLoader.js *)

Module CoordinateLoader.

Local Open Scope js_scope.

Inductive Quadrant : Set := topLeft | topRight | bottomLeft | bottomRight.

Definition sectionMap (q : Quadrant) : list string :=
  match q with
  | topLeft => ["A"; "B"; "C"]
  | topRight => ["D"; "E"; "F"]
  | bottomLeft => ["G"; "H"; "J"]
  | bottomRight => ["K"; "L"; "M"]
  end%string.

Record Tier : Set := mkTier { maxDistance : JS.number; tierPrice : JS.number }.

Definition priceTiers : list Tier :=
  [ {| maxDistance := Lit.n0_2; tierPrice := Lit.n250 |};
    {| maxDistance := Lit.n0_4; tierPrice := Lit.n200 |};
    {| maxDistance := Lit.n0_6; tierPrice := Lit.n150 |};
    {| maxDistance := Lit.n0_8; tierPrice := Lit.n120 |};
    {| maxDistance := JS.Infinity; tierPrice := Lit.n100 |} ].

(** [array.find(test)]. *)
Definition find {A : Type} (test : A -> bool) (array : list A) : JS.value A :=
  match List.find test array with
  | Some a => JS.Defined a
  | None => JS.Undefined
  end.

(** [array[i]] for a number [i]: the element when [i] is an index of the
    array, [undefined] otherwise. *)
Definition index {A : Type} (array : list A) (i : JS.number) : JS.value A :=
  match i with
  | S754_zero _ =>
      match array with a :: _ => JS.Defined a | [] => JS.Undefined end
  | S754_finite false m e =>
      if JS.strict_eq (JS.Math.floor i) i then
        match nth_error array (Z.to_nat (Z.shiftl (Zpos m) e)) with
        | Some a => JS.Defined a
        | None => JS.Undefined
        end
      else JS.Undefined
  | _ => JS.Undefined
  end.

(** The distance from the centre that [enhanceSeats] computes. *)
Definition distance (c : Point3) : JS.number :=
  JS.Math.sqrt (JS.Math.pow2 (px c) + JS.Math.pow2 (py c)).

(** The price of a distance: the first tier that admits it, 100 without. *)
Definition priceFor (distance : JS.number) : JS.number :=
  match find (fun tier => distance <=? maxDistance tier) priceTiers with
  | JS.Defined priceTier => tierPrice priceTier
  | JS.Undefined => Lit.n100
  end.

(** The callback of [basicSeats.map] in [enhanceSeats]. *)
Definition enhanceSeat (seat : Seat) (index_ : nat) : Seat :=
  let c := coordinates seat in
  let quadrant :=
    if px c <? Lit.n0
    then (if py c <? Lit.n0 then bottomLeft else topLeft)
    else (if py c <? Lit.n0 then bottomRight else topRight) in
  let distance := distance c in
  let price := priceFor distance in
  let sectionList := sectionMap quadrant in
  let length := JS.of_Z (Z.of_nat (List.length sectionList)) in
  let sectionIndex :=
    JS.Math.min (JS.Math.floor (distance * length)) (length - Lit.n1) in
  let section := index sectionList sectionIndex in
  let row := JS.Math.floor (JS.Math.abs (py c) * Lit.n10) + Lit.n1 in
  let number := JS.Math.floor (JS.Math.abs (px c) * Lit.n10) + Lit.n1 in
  {| section := section;
     row := row;
     number := number;
     price := price;
     coordinates := c;
     originalIndex := JS.Defined index_ |}.

(** [array.map((element, index) => ...)]. *)
Fixpoint mapIndexed {A B : Type} (f : A -> nat -> B) (i : nat) (l : list A) : list B :=
  match l with
  | [] => []
  | a :: l' => f a i :: mapIndexed f (S i) l'
  end.

Definition enhanceSeats (basicSeats : list Seat) : list Seat :=
  mapIndexed enhanceSeat 0 basicSeats.

(** What [fetch('/coordinates.txt')] and [response.text()] deliver: a
    rejection, or a response with its [ok] flag and its body, whose reading
    may be rejected too. *)
Inductive FetchResult : Set :=
| FetchRejected
| Response (ok : bool) (text : option Str.t).

(** The settlement of a promise. *)
Inductive Promise (A : Type) : Type :=
| Resolved (a : A)
| Rejected.
Arguments Resolved {A} a.
Arguments Rejected {A}.

(** The [try] block of [loadSeatsFromFile]: [None] is a raised exception. *)
Definition loadSeatsFromFile_try (fetched : FetchResult) : option (list Seat) :=
  match fetched with
  | FetchRejected => None
  | Response ok text =>
      if negb ok then None
      else
        match text with
        | None => None
        | Some text =>
            let seats := SeatCoordinateParser.parseAndGenerateSeats text in
            let enhancedSeats := enhanceSeats seats in
            Some enhancedSeats
        end
  end.

Definition loadSeatsFromFile (fetched : FetchResult) : Promise (list Seat) :=
  match loadSeatsFromFile_try fetched with
  | Some enhancedSeats => Resolved enhancedSeats
  | None => Resolved []
  end.

End CoordinateLoader.

(** ** components/CoordinateImporter.js *)

Module CoordinateImporter.

(** [handleImport] on the text of the input area: [Some seats] when
    [onSeatsGenerated(seats)] is called, [None] when it is not. *)
Definition handleImport (coordinates : Str.t) : option (list Seat) :=
  match Str.trim coordinates with
  | [] => None
  | _ =>
      let seats := SeatCoordinateParser.parseAndGenerateSeats coordinates in
      match seats with
      | [] => None
      | _ => Some seats
      end
  end.

End CoordinateImporter.

(** ** components/StadiumMap.js *)

Module StadiumMap.
Local Open Scope js_scope.

(** The [{x, z}] objects handed to [calcScalingFactors]. *)
Record Coord2 : Set := mkCoord2 { cx : JS.number; cz : JS.number }.

(** The object returned by [calcScalingFactors]: the early return carries
    [xScale] and [zScale] and no [scale]; the main return carries [scale]
    only.  A property that is absent reads as [undefined]. *)
Record Factors : Set := mkFactors {
  f_scale : JS.value JS.number;
  f_xScale : JS.value JS.number;
  f_zScale : JS.value JS.number;
  f_xOffset : JS.number;
  f_zOffset : JS.number
}.

(** The four accumulators of the [forEach] loop. *)
Record Bounds : Set := mkBounds {
  minX : JS.number; maxX : JS.number; minZ : JS.number; maxZ : JS.number
}.

Definition bounds_init : Bounds :=
  {| minX := JS.Infinity; maxX := - JS.Infinity; minZ := JS.Infinity; maxZ := - JS.Infinity |}.

Definition bounds_step (b : Bounds) (coord : Coord2) : Bounds :=
  {| minX := JS.Math.min (minX b) (cx coord);
     maxX := JS.Math.max (maxX b) (cx coord);
     minZ := JS.Math.min (minZ b) (cz coord);
     maxZ := JS.Math.max (maxZ b) (cz coord) |}.

Definition bounds (coordinates : list Coord2) : Bounds :=
  fold_left bounds_step coordinates bounds_init.

Definition width (b : Bounds) : JS.number := maxX b - minX b.
Definition height (b : Bounds) : JS.number := maxZ b - minZ b.

Definition calcScalingFactors (coordinates : list Coord2) : Factors :=
  match coordinates with
  | [] =>
      {| f_scale := JS.Undefined;
         f_xScale := JS.Defined Lit.n1; f_zScale := JS.Defined Lit.n1;
         f_xOffset := Lit.n0; f_zOffset := Lit.n0 |}
  | _ =>
      let b := bounds coordinates in
      let xScale := if width b >? Lit.n0 then Lit.n20 / width b else Lit.n1 in
      let zScale := if height b >? Lit.n0 then Lit.n20 / height b else Lit.n1 in
      let scale := JS.Math.min xScale zScale * Lit.n0_95 in
      let centerX := (minX b + maxX b) / Lit.n2 in
      let centerZ := (minZ b + maxZ b) / Lit.n2 in
      {| f_scale := JS.Defined scale;
         f_xScale := JS.Undefined; f_zScale := JS.Undefined;
         f_xOffset := - centerX; f_zOffset := - centerZ |}
  end.

Record Offset : Set := mkOffset { ox : JS.number; oz : JS.number }.

(** The [transformations] state of the component. *)
Record Transformations : Set := mkTransformations {
  scale : JS.number;
  rotation : JS.number;
  translateX : JS.number;
  translateY : JS.number;
  baseScale : JS.value JS.number;
  baseOffset : Offset
}.

(** The state the component starts from when nothing is stored. *)
Definition defaultTransformations : Transformations :=
  {| scale := Lit.n1; rotation := Lit.n0;
     translateX := Lit.n0; translateY := Lit.n0;
     baseScale := JS.Defined Lit.n1;
     baseOffset := {| ox := Lit.n0; oz := Lit.n0 |} |}.

(** The effect on [seats]: the state update
    [prev => ({...prev, baseScale: factors.scale, baseOffset: {...}})]. *)
Definition updateBase (seats : list Seat) (prev : Transformations)
  : Transformations :=
  let coordinates :=
    map (fun seat => {| cx := px (coordinates seat); cz := pz (coordinates seat) |})
        seats in
  let factors := calcScalingFactors coordinates in
  {| scale := scale prev;
     rotation := rotation prev;
     translateX := translateX prev;
     translateY := translateY prev;
     baseScale := f_scale factors;
     baseOffset := {| ox := f_xOffset factors; oz := f_zOffset factors |} |}.

(** The property key [seat.section] stands for: [undefined] is converted to
    the string of its name. *)
Definition propertyKey (section : JS.value string) : string :=
  match section with
  | JS.Undefined => "undefined"%string
  | JS.Defined s => s
  end.

(** The property names of [Object.prototype], which the object [counts],
    made by [{}], inherits: [__proto__] is an accessor, the others are
    functions. *)
Definition objectPrototype : list string :=
  [ "constructor"; "__defineGetter__"; "__defineSetter__"; "hasOwnProperty";
    "__lookupGetter__"; "__lookupSetter__"; "isPrototypeOf";
    "propertyIsEnumerable"; "toString"; "valueOf"; "__proto__";
    "toLocaleString" ]%string.

(** What [counts[key]] can give and [counts[key] = ...] can store: nothing, a
    number, an inherited member of [Object.prototype] (a function, or for
    [__proto__] the prototype itself), or the text that [+ 1] makes of such
    a member: the member's own text followed by [ones] digits [1]. *)
Inductive CountValue : Set :=
| Absent
| Number (n : JS.number)
| Member (name : string)
| Text (member : string) (ones : nat).

(** The object [counts] of the effect that counts seats by section: its own
    properties with their values.  The one use of the object is the number
    of its keys, so the order of the properties is left as the order of
    insertion. *)
Definition Counts : Set := list (string * CountValue).

Fixpoint getOwn (key : string) (counts : Counts) : option CountValue :=
  match counts with
  | [] => None
  | (k, v) :: counts' => if String.eqb k key then Some v else getOwn key counts'
  end.

(** [counts[key]]: the own property, or else what the prototype has. *)
Definition getCount (key : string) (counts : Counts) : CountValue :=
  match getOwn key counts with
  | Some v => v
  | None => if existsb (String.eqb key) objectPrototype then Member key else Absent
  end.

(** [(value || 0) + 1]: a number is added to; an object or a text, which
    are truthy, is joined as text with [1]. *)
Definition plusOne (value : CountValue) : CountValue :=
  match value with
  | Absent => Number (Lit.n0 + Lit.n1)
  | Number n => Number (JS.orElse n Lit.n0 + Lit.n1)
  | Member name => Text name 1
  | Text member ones => Text member (S ones)
  end.

Fixpoint setOwn (key : string) (value : CountValue) (counts : Counts) : Counts :=
  match counts with
  | [] => [(key, value)]
  | (k, v) :: counts' =>
      if String.eqb k key then (k, value) :: counts'
      else (k, v) :: setOwn key value counts'
  end.

(** [counts[key] = value] for a number or a text: the inherited setter of
    [__proto__] ignores both and no own property is made; every other key
    becomes or stays an own property. *)
Definition setCount (key : string) (value : CountValue) (counts : Counts) : Counts :=
  if String.eqb key "__proto__" then counts else setOwn key value counts.

(** The callback of [seats.forEach]:
    [counts[seat.section] = (counts[seat.section] || 0) + 1]. *)
Definition countSeat (counts : Counts) (seat : Seat) : Counts :=
  let key := propertyKey (section seat) in
  setCount key (plusOne (getCount key counts)) counts.

Definition sectionCounts (seats : list Seat) : Counts :=
  fold_left countSeat seats [].

(** [Object.keys(counts)]. *)
Definition keys (counts : Counts) : list string := map fst counts.

(** Three-element arrays [[x, y, z]]. *)
Definition Vec3 : Set := (JS.number * JS.number * JS.number)%type.

Section Pipeline.

(** [JS.Math.cos] and [JS.Math.sin], whose results the language leaves to the
    implementation. *)
Variables cos sin : JS.number -> JS.number.

(** The position computed in the body of the [Seat] component. *)
Definition Seat_transformedPosition (position : Vec3) (transformations : Transformations)
  : Vec3 :=
  let '(p0, _, p2) := position in
  let angle := rotation transformations * (JS.Math.PI / Lit.n180) in
  let basePosition : Vec3 :=
    ((p0 + ox (baseOffset transformations)) * JS.to_number (baseScale transformations),
     Lit.n1,
     (p2 + oz (baseOffset transformations)) * JS.to_number (baseScale transformations)) in
  let '(b0, b1, b2) := basePosition in
  let flippedX := b0 in
  let flippedZ := - b2 in
  let rotatedX := flippedX * cos angle - flippedZ * sin angle in
  let rotatedZ := flippedX * sin angle + flippedZ * cos angle in
  (rotatedX * scale transformations + translateX transformations,
   b1,
   rotatedZ * scale transformations + translateY transformations).

(** The position [handleSeatSelect] derives again for the camera target. *)
Definition handleSeatSelect_transformedPosition (seat : Seat)
  (transformations : Transformations) : Vec3 :=
  let basePosition : Vec3 :=
    ((px (coordinates seat) + ox (baseOffset transformations))
       * JS.to_number (baseScale transformations),
     Lit.n1,
     (pz (coordinates seat) + oz (baseOffset transformations))
       * JS.to_number (baseScale transformations)) in
  let '(b0, b1, b2) := basePosition in
  let flippedX := b0 in
  let flippedZ := - b2 in
  let angle := rotation transformations * (JS.Math.PI / Lit.n180) in
  let rotatedX := flippedX * cos angle - flippedZ * sin angle in
  let rotatedZ := flippedX * sin angle + flippedZ * cos angle in
  (rotatedX * scale transformations + translateX transformations,
   b1,
   rotatedZ * scale transformations + translateY transformations).

(** The [position] property the map passes to each [Seat]. *)
Definition seat_position (seat : Seat) : Vec3 :=
  (px (coordinates seat), py (coordinates seat), pz (coordinates seat)).

End Pipeline.

End StadiumMap.


(** ** utils/modelLoader.js *)

Module ModelLoader.

Definition STADIUM_MODEL_PATH : Str.t := Str.str "/models/stadium.glb".

Definition SUPPORTED_FORMATS : list Str.t :=
  map Str.str [".glb"; ".gltf"; ".fbx"; ".obj"; ".stl"; ".dae"]%string.

(** A [File]: its name, and the bytes [file.arrayBuffer()] resolves to
    ([None] when that promise is rejected). *)
Record File : Set := mkFile { name : Str.t; arrayBuffer : option (list byte) }.

Definition byteAt (buffer : list byte) (i : nat) : Z :=
  match nth_error buffer i with
  | Some b => Z.of_N (Byte.to_N b)
  | None => 0
  end.

(** [view.getUint32(offset, littleEndian)]; [None] is the [RangeError] of a
    read that does not fit in the buffer. *)
Definition getUint32 (buffer : list byte) (offset : nat) (littleEndian : bool)
  : option Z :=
  if (offset + 4 <=? List.length buffer)%nat then
    let b0 := byteAt buffer offset in
    let b1 := byteAt buffer (offset + 1) in
    let b2 := byteAt buffer (offset + 2) in
    let b3 := byteAt buffer (offset + 3) in
    Some (if littleEndian
          then Z.lor b0 (Z.lor (Z.shiftl b1 8)
                 (Z.lor (Z.shiftl b2 16) (Z.shiftl b3 24)))
          else Z.lor b3 (Z.lor (Z.shiftl b2 8)
                 (Z.lor (Z.shiftl b1 16) (Z.shiftl b0 24))))
  else None.

(** The messages of [validateGlbFile], with the values their templates
    interpolate. *)
Inductive Message : Set :=
| NotSupported (fileExtension : Str.t)
| MissingMagic
| UnsupportedVersion (version : Z)
| LengthExceedsSize (fileLength : Z) (byteLength : nat)
| MissingJsonChunk
| AppearsValid
| FormatDetected (fileExtension : Str.t)
| ErrorValidating.

Record Validation : Set := mkValidation { valid : bool; message : Message }.

Definition magic_glTF : Z := 0x676C5446.
Definition chunk_JSON : Z := 0x4E4F534A.

(** The checks on the bytes of a [.glb] file; [None] is an exception. *)
Definition validateGlb (file : File) : option Validation :=
  match arrayBuffer file with
  | None => None
  | Some buffer =>
      match getUint32 buffer 0 false with
      | None => None
      | Some magic =>
          if negb (magic =? magic_glTF)%Z then
            Some {| valid := false; message := MissingMagic |}
          else
            match getUint32 buffer 4 true with
            | None => None
            | Some version =>
                if negb (version =? 2)%Z then
                  Some {| valid := false; message := UnsupportedVersion version |}
                else
                  match getUint32 buffer 8 true with
                  | None => None
                  | Some fileLength =>
                      if (fileLength >? Z.of_nat (List.length buffer))%Z then
                        Some {| valid := false;
                                message := LengthExceedsSize fileLength
                                             (List.length buffer) |}
                      else
                        match getUint32 buffer 16 true with
                        | None => None
                        | Some chunkType =>
                            if negb (chunkType =? chunk_JSON)%Z then
                              Some {| valid := false; message := MissingJsonChunk |}
                            else
                              Some {| valid := true; message := AppearsValid |}
                        end
                  end
            end
      end
  end.

(** [file.name.split('.').pop().toLowerCase()]. *)
Definition extensionOf (name : Str.t) : Str.t :=
  Str.toLowerCase (last (Str.split "." name) []).

Definition validateGlbFile (file : File) : Validation :=
  let fileExtension := extensionOf (name file) in
  let isSupported :=
    existsb (fun ext => Str.includes fileExtension ext) SUPPORTED_FORMATS in
  if negb isSupported then
    {| valid := false; message := NotSupported fileExtension |}
  else if Str.eqb fileExtension (Str.str "glb") then
    match validateGlb file with
    | Some validation => validation
    | None => {| valid := false; message := ErrorValidating |}
    end
  else {| valid := true; message := FormatDetected fileExtension |}.

Definition convertBlenderToThreeCoordinates (blenderCoords : Point3) : Point3 :=
  {| px := px blenderCoords;
     py := pz blenderCoords;
     pz := JS.neg (py blenderCoords) |}.

Definition getStadiumModelPath : Str.t := STADIUM_MODEL_PATH.

(** A camera: its position and the point it was last turned to. *)
Record Camera : Set := mkCamera { position : Point3; lookedAt : option Point3 }.

(** [positionCameraAtSeat(camera, seatCoordinates)]; [None] is a falsy
    argument, and the result is the camera as the call leaves it. *)
Definition positionCameraAtSeat (camera : option Camera)
  (seatCoordinates : option Point3) : option Camera :=
  match camera, seatCoordinates with
  | Some _, Some c =>
      Some {| position :=
                {| px := JS.orElse (px c) Lit.n0;
                   py := JS.orElse (py c) Lit.n2;
                   pz := JS.orElse (pz c) Lit.n10 |};
              lookedAt := Some {| px := Lit.n0; py := Lit.n0; pz := Lit.n0 |} |}
  | _, _ => camera
  end.

End ModelLoader.

(** ** components/ModelUploader.js *)

Module ModelUploader.

(** What [saveModelFile] does with a file: it sets the upload error and
    returns, or goes on to hand the file's blob URL to [onModelUploaded]. *)
Inductive Outcome : Set :=
| Refused (uploadError : ModelLoader.Message)
| Uploaded (file : ModelLoader.File).

Definition saveModelFile (file : ModelLoader.File) : Outcome :=
  let validation := ModelLoader.validateGlbFile file in
  if negb (ModelLoader.valid validation)
  then Refused (ModelLoader.message validation)
  else Uploaded file.

End ModelUploader.

(** ** utils/ModelContext.js *)

Module ModelContext.

(** A node of a decoded scene graph with the properties the provider reads:
    [type], whether [geometry] is set, and [children] when it has any. *)
Inductive Object3D : Set :=
| Node (type : string) (geometry : bool) (children : option (list Object3D)).

Definition type (o : Object3D) : string := let '(Node t _ _) := o in t.
Definition geometry (o : Object3D) : bool := let '(Node _ g _) := o in g.
Definition children (o : Object3D) : option (list Object3D) :=
  let '(Node _ _ c) := o in c.

(** The object a loader resolves to, as it stands when the provider validates
    it: its [scene] and [type] if present, and whether [dae], [kinematics],
    [geometries] and [materials] are set. *)
Record LoadedModel : Set := mkLoadedModel {
  scene : option Object3D;
  dae : bool;
  kinematics : bool;
  geometries : bool;
  materials : bool;
  modelType : option string
}.

Definition isColladaModel (model : option LoadedModel) : bool :=
  match model with
  | None => false
  | Some model =>
      (dae model && kinematics model)
      || (geometries model && materials model && kinematics model)
      || match scene model with
         | Some s => String.eqb (type s) "Scene"
         | None => false
         end
      || match modelType model with
         | Some t => Str.includes (Str.str "Scene") (Str.str t)
         | None => false
         end
  end.

(** The callback of [scene.children.some]. *)
Definition meaningful (child : Object3D) : bool :=
  if String.eqb (type child) "Mesh" && geometry child then true
  else if (String.eqb (type child) "Group" || String.eqb (type child) "Object3D")
          && match children child with
             | Some cs => negb (Nat.eqb (List.length cs) 0)
             | None => false
             end
  then true
  else false.

Definition isValidModel (loadedModel : option LoadedModel) : bool :=
  match loadedModel with
  | None => false
  | Some m =>
      match scene m with
      | None => if isColladaModel loadedModel then true else false
      | Some s =>
          let hasChildren :=
            match children s with
            | Some cs => negb (Nat.eqb (List.length cs) 0)
            | None => false
            end in
          if negb hasChildren then false
          else
            let hasMeaningfulContent :=
              match children s with
              | Some cs => existsb meaningful cs
              | None => false
              end in
            if negb hasMeaningfulContent then false else true
      end
  end.

(** What a promise is rejected with or a [throw] raises: the name of its
    class ([Error] for [new Error(...)], [TypeError] for what [fetch]
    rejects with when the network fails) and its message. *)
Record Error : Set := mkError { errorClass : Str.t; errorMessage : Str.t }.

(** [new Error(message)]. *)
Definition newError (message : Str.t) : Error :=
  {| errorClass := Str.str "Error"; errorMessage := message |}.

(** The settlement of a promise that may be rejected with an error. *)
Inductive Settled (A : Type) : Type :=
| Fulfilled (a : A)
| RejectedWith (e : Error).
Arguments Fulfilled {A} a.
Arguments RejectedWith {A} e.

Record Response : Set := mkResponse { ok : bool; status : N; statusText : Str.t }.

(** What the outside delivers to one run of [loadModel]: the settlement of
    [fetch], of [response.blob()], and of the loader, whose value is the
    binding of [loadedModel] when validation starts ([None] when it is
    falsy). *)
Record Answers : Set := mkAnswers {
  fetched : Settled Response;
  blob : Settled unit;
  decoded : Settled (option LoadedModel)
}.

(** The state updates a run of [loadModel] ends with. *)
Inductive Completion : Set :=
| Ready (loadedModel : LoadedModel)
| Failed (e : Error).

Definition endsWith (suffix s : Str.t) : bool :=
  RegExp.isSome (Str.stripPrefix (rev suffix) (rev s)).

Definition fetchError (isDAE : bool) (r : Response) : Error :=
  newError
    ((if isDAE then Str.str "Failed to fetch DAE model: "
      else Str.str "Failed to fetch model: ")
     ++ Str.ofN (status r) ++ Str.str " " ++ statusText r)%list.

Definition validationError : Error :=
  newError (Str.str "Model validation failed - invalid structure").

Definition noModelError : Error := newError (Str.str "No model was loaded").

(** The [try] block of [loadModel] up to the binding of [loadedModel]; a
    rejection or a [throw] is [RejectedWith]. *)
Definition loadModel_fetchAndDecode (modelPath : Str.t) (a : Answers)
  : Settled (option LoadedModel) :=
  let isDAE := endsWith (Str.str ".dae") (Str.toLowerCase modelPath) in
  match fetched a with
  | RejectedWith e => RejectedWith e
  | Fulfilled response =>
      if negb (ok response) then RejectedWith (fetchError isDAE response)
      else if isDAE then decoded a
      else
        match blob a with
        | RejectedWith e => RejectedWith e
        | Fulfilled _ => decoded a
        end
  end.

(** One run of [loadModel], up to the state updates it asks for. *)
Definition loadModel (modelPath : Str.t) (a : Answers) : Completion :=
  match loadModel_fetchAndDecode modelPath a with
  | RejectedWith error => Failed error
  | Fulfilled loadedModel =>
      match loadedModel with
      | Some m =>
          let isValid := isValidModel loadedModel in
          if isValid then Ready m else Failed validationError
      | None => Failed noModelError
      end
  end.

(** The provider: its three pieces of state, and the [isMounted] variable of
    every run of the loading effect, oldest first. *)
Record Provider : Set := mkProvider {
  model : option LoadedModel;
  isLoading : bool;
  error : option Error;
  isMounted : list bool
}.

Definition initial : Provider :=
  {| model := None; isLoading := true; error := None; isMounted := [] |}.

(** The clean-up function of the latest run: [isMounted = false]. *)
Definition cleanup (p : Provider) : Provider :=
  {| model := model p; isLoading := isLoading p; error := error p;
     isMounted := match rev (isMounted p) with
                  | [] => []
                  | _ :: older => rev (false :: older)
                  end |}.

(** A run of the effect, on mount and on every change of [customModelUrl]:
    the previous run is cleaned up, then the body marks the provider as
    loading and starts [loadModel] with a fresh [isMounted]. *)
Definition runEffect (p : Provider) : Provider :=
  let p := cleanup p in
  {| model := model p; isLoading := true; error := None;
     isMounted := (isMounted p ++ [true])%list |}.

(** The state updates of a completed run, each behind [if (isMounted)]. *)
Definition complete (run : nat) (c : Completion) (p : Provider) : Provider :=
  if nth run (isMounted p) false then
    match c with
    | Ready loadedModel =>
        {| model := Some loadedModel; isLoading := false; error := None;
           isMounted := isMounted p |}
    | Failed e =>
        {| model := model p; isLoading := false; error := Some e;
           isMounted := isMounted p |}
    end
  else p.

Inductive Event : Set :=
| LoadRequested
| Unmounted
| Completed (run : nat) (c : Completion).

Definition step (p : Provider) (ev : Event) : Provider :=
  match ev with
  | LoadRequested => runEffect p
  | Unmounted => cleanup p
  | Completed run c => complete run c p
  end.

Definition run (events : list Event) : Provider := fold_left step events initial.

(** Every run of the effect but the latest has been cleaned up. *)
Definition older_unmounted (flags : list bool) : Prop :=
  forall run, (S run < List.length flags)%nat -> nth run flags false = false.

Definition all_unmounted (flags : list bool) : Prop :=
  forall run, nth run flags false = false.

(** The state consumers of the context see. *)
Definition visible (p : Provider) : option LoadedModel * bool * option Error :=
  (model p, isLoading p, error p).

(** An event of the provider as the code produces it: a completion carries
    what some run of [loadModel] ended with. *)
Definition produced (ev : Event) : Prop :=
  match ev with
  | Completed _ c => exists modelPath a, c = loadModel modelPath a
  | _ => True
  end.

Definition isCompletion (ev : Event) : bool :=
  match ev with Completed _ _ => true | _ => false end.

End ModelContext.

(** ** Renderable primitives, as the glossary of the specification has them

    A renderable primitive is a node of the decoded scene graph that carries
    geometry; the count below walks the whole graph. *)

Module GeometrySpec.

Fixpoint renderablePrimitives (o : ModelContext.Object3D) : nat :=
  match o with
  | ModelContext.Node t g cs =>
      (if String.eqb t "Mesh" && g then 1 else 0)
      + match cs with
        | Some l => list_sum (map renderablePrimitives l)
        | None => 0
        end
  end.

Definition primitivesOf (m : ModelContext.LoadedModel) : nat :=
  match ModelContext.scene m with
  | Some s => renderablePrimitives s
  | None => 0
  end.

End GeometrySpec.

(** ** App.js *)

Module App.

Definition seat (section_ : string) (row_ number_ price_ : JS.number)
  (x y z : JS.number) : Seat :=
  {| section := JS.Defined section_; row := row_; number := number_;
     price := price_; coordinates := {| px := x; py := y; pz := z |};
     originalIndex := JS.Undefined |}.

Definition DEFAULT_SEATS : list Seat :=
  Eval vm_compute in
  [ seat "A" Lit.n1 Lit.n1 Lit.n150 (JS.lit (-5)) Lit.n2 Lit.n10;
    seat "A" Lit.n1 Lit.n2 Lit.n150 (JS.lit (-3)) Lit.n2 Lit.n10;
    seat "B" Lit.n1 Lit.n1 Lit.n180 (JS.lit 5) Lit.n2 Lit.n10;
    seat "B" Lit.n1 Lit.n2 Lit.n180 (JS.lit 3) Lit.n2 Lit.n10;
    seat "C" (JS.lit 5) Lit.n1 Lit.n100 (JS.lit (-7)) (JS.lit 5) (JS.lit 15);
    seat "C" (JS.lit 5) Lit.n2 Lit.n100 (JS.lit 7) (JS.lit 5) (JS.lit 15) ].

(** The state of [App] that the seat imports read and write. *)
Record State : Set := mkState {
  availableSeats : list Seat;
  selectedSeat : option Seat;
  showImporter : bool;
  isLoadingSeats : bool;
  fileSeatsLoaded : bool
}.

Definition initial : State :=
  {| availableSeats := DEFAULT_SEATS; selectedSeat := None;
     showImporter := false; isLoadingSeats := false; fileSeatsLoaded := false |}.

Definition setIsLoadingSeats (b : bool) (st : State) : State :=
  {| availableSeats := availableSeats st; selectedSeat := selectedSeat st;
     showImporter := showImporter st; isLoadingSeats := b;
     fileSeatsLoaded := fileSeatsLoaded st |}.

(** The effect on mount, given what [loadSeatsFromFile()] settles to. *)
Definition loadSeats (settled : CoordinateLoader.Promise (list Seat)) (st : State)
  : State :=
  let st := setIsLoadingSeats true st in
  let st :=
    match settled with
    | CoordinateLoader.Resolved seats =>
        match seats with
        | [] => st
        | _ =>
            {| availableSeats := seats; selectedSeat := selectedSeat st;
               showImporter := showImporter st;
               isLoadingSeats := isLoadingSeats st;
               fileSeatsLoaded := true |}
        end
    | CoordinateLoader.Rejected => st
    end in
  setIsLoadingSeats false st.

Definition handleSeatsImported (seats : list Seat) (st : State) : State :=
  match seats with
  | [] => st
  | _ =>
      {| availableSeats := seats; selectedSeat := None; showImporter := false;
         isLoadingSeats := isLoadingSeats st;
         fileSeatsLoaded := fileSeatsLoaded st |}
  end.

Definition resetToFileSeats (settled : CoordinateLoader.Promise (list Seat))
  (st : State) : State :=
  let st := setIsLoadingSeats true st in
  let st :=
    match settled with
    | CoordinateLoader.Resolved seats =>
        match seats with
        | [] => st
        | _ =>
            {| availableSeats := seats; selectedSeat := None;
               showImporter := showImporter st;
               isLoadingSeats := isLoadingSeats st;
               fileSeatsLoaded := fileSeatsLoaded st |}
        end
    | CoordinateLoader.Rejected => st
    end in
  setIsLoadingSeats false st.

Definition resetToDefaultSeats (st : State) : State :=
  {| availableSeats := DEFAULT_SEATS; selectedSeat := selectedSeat st;
     showImporter := showImporter st; isLoadingSeats := isLoadingSeats st;
     fileSeatsLoaded := fileSeatsLoaded st |}.

(** A click on the import button of the importer, wired to
    [handleSeatsImported]. *)
Definition importCoordinates (text : Str.t) (st : State) : State :=
  match CoordinateImporter.handleImport text with
  | Some seats => handleSeatsImported seats st
  | None => st
  end.

(** The calls that write the seat list: the effect on mount, the importer,
    and the two reset buttons of the settings panel. *)
Inductive Action : Set :=
| LoadSeats (settled : CoordinateLoader.Promise (list Seat))
| SeatsImported (seats : list Seat)
| ImportCoordinates (text : Str.t)
| ResetToFileSeats (settled : CoordinateLoader.Promise (list Seat))
| ResetToDefaultSeats.

Definition dispatch (st : State) (a : Action) : State :=
  match a with
  | LoadSeats settled => loadSeats settled st
  | SeatsImported seats => handleSeatsImported seats st
  | ImportCoordinates text => importCoordinates text st
  | ResetToFileSeats settled => resetToFileSeats settled st
  | ResetToDefaultSeats => resetToDefaultSeats st
  end.

End App.

(** ** components/MiniSeatView.js *)

Module MiniSeatView.

Local Open Scope js_scope.

(** The position [[x || 0, y || 2, z || 10]] the canvas and the controls give
    the camera; [None] is an absent [seatCoordinates]. *)
Definition cameraPosition (seatCoordinates : option Point3) : Point3 :=
  match seatCoordinates with
  | Some c =>
      {| px := JS.orElse (px c) Lit.n0;
         py := JS.orElse (py c) Lit.n2;
         pz := JS.orElse (pz c) Lit.n10 |}
  | None => {| px := Lit.n0; py := Lit.n2; pz := Lit.n10 |}
  end.

(** The refs of [FirstPersonControls]. *)
Record Controls : Set := mkControls {
  isDragging : bool;
  lastMouseX : JS.number;
  lastMouseY : JS.number;
  rotationX : JS.number;
  rotationY : JS.number
}.

Definition initialControls : Controls :=
  {| isDragging := false; lastMouseX := Lit.n0; lastMouseY := Lit.n0;
     rotationX := Lit.n0; rotationY := Lit.n0 |}.

Definition sensitivity : JS.number := Eval vm_compute in JS.lit 0.003%float.

Definition handleMouseDown (clientX clientY : JS.number) (c : Controls) : Controls :=
  {| isDragging := true; lastMouseX := clientX; lastMouseY := clientY;
     rotationX := rotationX c; rotationY := rotationY c |}.

Definition handleMouseUp (c : Controls) : Controls :=
  {| isDragging := false; lastMouseX := lastMouseX c; lastMouseY := lastMouseY c;
     rotationX := rotationX c; rotationY := rotationY c |}.

Definition handleMouseMove (clientX clientY : JS.number) (c : Controls) : Controls :=
  if negb (isDragging c) then c
  else
    let deltaX := clientX - lastMouseX c in
    let deltaY := clientY - lastMouseY c in
    let rotationY' := rotationY c - deltaX * sensitivity in
    let rotationX' := rotationX c - deltaY * sensitivity in
    {| isDragging := isDragging c;
       lastMouseX := clientX;
       lastMouseY := clientY;
       rotationX :=
         JS.Math.max (- JS.Math.PI / Lit.n2)
           (JS.Math.min (JS.Math.PI / Lit.n2) rotationX');
       rotationY := rotationY' |}.

Inductive MouseEvent : Set :=
| MouseDown (clientX clientY : JS.number)
| MouseUp
| MouseMove (clientX clientY : JS.number).

Definition handle (c : Controls) (ev : MouseEvent) : Controls :=
  match ev with
  | MouseDown x y => handleMouseDown x y c
  | MouseUp => handleMouseUp c
  | MouseMove x y => handleMouseMove x y c
  end.

(** An event with the coordinates a pointer has: finite numbers. *)
Definition finiteCoordinates (ev : MouseEvent) : bool :=
  match ev with
  | MouseDown x y | MouseMove x y => JS.isFinite x && JS.isFinite y
  | MouseUp => true
  end.

(** Between a quarter turn down and a quarter turn up. *)
Definition withinQuarterTurn (a : JS.number) : bool :=
  (- JS.Math.PI / Lit.n2 <=? a) && (a <=? JS.Math.PI / Lit.n2).





End MiniSeatView.

(** ** components/TicketForm.js *)

Module TicketForm.

(** [value.replace(/[^\d]/g, '')], which is [value.replace(/\D/g, '')]. *)
Definition digitsOnly (value : Str.t) : Str.t := filter Str.is_digit value.

(** [s.slice(from, to)] for [0 <= from <= to]. *)
Definition slice (s : Str.t) (from to : nat) : Str.t :=
  firstn (to - from) (skipn from s).

Definition formatPhoneNumber (value : Str.t) : Str.t :=
  match value with
  | [] => value
  | _ =>
      let phoneNumber := digitsOnly value in
      if (List.length phoneNumber <? 4)%nat then phoneNumber
      else if (List.length phoneNumber <? 7)%nat then
        (Str.str "(" ++ slice phoneNumber 0 3 ++ Str.str ") "
         ++ skipn 3 phoneNumber)%list
      else
        (Str.str "(" ++ slice phoneNumber 0 3 ++ Str.str ") "
         ++ slice phoneNumber 3 6 ++ Str.str "-" ++ slice phoneNumber 6 10)%list
  end.

Record FormData : Set := mkFormData {
  name : Str.t;
  email : Str.t;
  phone : Str.t;
  paymentMethod : Str.t
}.

Definition initialFormData : FormData :=
  {| name := []; email := []; phone := []; paymentMethod := Str.str "credit" |}.

Inductive Field : Set := NameField | EmailField | PhoneField | PaymentField.

(** The update of [formData] in [handleChange]. *)
Definition handleChange (field : Field) (value : Str.t) (d : FormData) : FormData :=
  match field with
  | PhoneField =>
      {| name := name d; email := email d; phone := formatPhoneNumber value;
         paymentMethod := paymentMethod d |}
  | NameField =>
      {| name := value; email := email d; phone := phone d;
         paymentMethod := paymentMethod d |}
  | EmailField =>
      {| name := name d; email := value; phone := phone d;
         paymentMethod := paymentMethod d |}
  | PaymentField =>
      {| name := name d; email := email d; phone := phone d;
         paymentMethod := value |}
  end.

Definition nonSpace (c : ascii) : bool := negb (Str.is_space c).

(** The pattern [/\S+@\S+\.\S+/]; each [\S+] is written as a group, which
    does not change where the pattern matches. *)
Definition emailPattern : RegExp.pattern :=
  [RegExp.GroupPlus nonSpace; RegExp.Chr "@"; RegExp.GroupPlus nonSpace;
   RegExp.Chr "."; RegExp.GroupPlus nonSpace].

(** [re.test(s)]. *)
Definition test (pat : RegExp.pattern) (s : Str.t) : bool :=
  RegExp.isSome (RegExp.search pat s).

Definition blank (s : Str.t) : bool :=
  match Str.trim s with [] => true | _ => false end.

(** The messages [validateForm] sets. *)
Inductive ErrorText : Set :=
| NameRequired | EmailRequired | EmailInvalid | PhoneRequired | PhoneTenDigits.

Record Errors : Set := mkErrors {
  nameError : option ErrorText;
  emailError : option ErrorText;
  phoneError : option ErrorText
}.

Definition newErrors (d : FormData) : Errors :=
  {| nameError := if blank (name d) then Some NameRequired else None;
     emailError :=
       if blank (email d) then Some EmailRequired
       else if negb (test emailPattern (email d)) then Some EmailInvalid
       else None;
     phoneError :=
       if blank (phone d) then Some PhoneRequired
       else if negb (Nat.eqb (List.length (digitsOnly (phone d))) 10)
            then Some PhoneTenDigits
       else None |}.

(** The value [validateForm] returns: no key was set in [newErrors]. *)
Definition validateForm (d : FormData) : bool :=
  match newErrors d with
  | {| nameError := None; emailError := None; phoneError := None |} => true
  | _ => false
  end.

(** [handleSubmit]: whether [onPurchase] is called. *)
Definition handleSubmit (d : FormData) : bool := validateForm d.

End TicketForm.

(** ** Shapes of text, without reference to the matchers *)

Module TextSpec.

(** [s] holds, somewhere, a non-empty run without white space, an at sign,
    another such run, a point and a third such run. *)
Definition hasAddress (s : Str.t) : Prop :=
  exists before a b c after,
    s = (before ++ a ++ "@"%char :: b ++ "."%char :: c ++ after)%list
    /\ a <> [] /\ b <> [] /\ c <> []
    /\ forallb TicketForm.nonSpace a = true
    /\ forallb TicketForm.nonSpace b = true
    /\ forallb TicketForm.nonSpace c = true.

(** The value a little-endian read of four bytes stands for. *)
Definition littleEndian (b0 b1 b2 b3 : byte) : Z :=
  (Z.of_N (Byte.to_N b0) + 256 * Z.of_N (Byte.to_N b1)
   + 65536 * Z.of_N (Byte.to_N b2) + 16777216 * Z.of_N (Byte.to_N b3))%Z.

End TextSpec.

(** ** The composition of section 4.4 of the specification, phase B

    The five steps as the specification words them, each a function of its
    own, to be compared with the positions the component computes. *)

Module CompositionSpec.

Section Steps.

Variables cos sin : JS.number -> JS.number.

Local Open Scope js_scope.

(** The constant elevation of every seat marker. *)
Definition elevation : JS.number := Lit.n1.

(** Step 1: [base = (coord + baseOffset) * baseScale], at the fixed height. *)
Definition base (offset : StadiumMap.Offset) (baseScale : JS.number)
  (coord : StadiumMap.Vec3) : StadiumMap.Vec3 :=
  let '(x, _, z) := coord in
  ((x + StadiumMap.ox offset) * baseScale, elevation,
   (z + StadiumMap.oz offset) * baseScale).

(** Step 2: negate the depth axis only. *)
Definition mirror (p : StadiumMap.Vec3) : StadiumMap.Vec3 :=
  let '(x, y, z) := p in (x, y, - z).

Definition radians (degrees : JS.number) : JS.number :=
  degrees * (JS.Math.PI / Lit.n180).

(** Step 3: the standard rotation of the pair [(x, z)] by an angle. *)
Definition rotate (degrees : JS.number) (p : StadiumMap.Vec3) : StadiumMap.Vec3 :=
  let '(x, y, z) := p in
  let a := radians degrees in
  (x * cos a - z * sin a, y, x * sin a + z * cos a).

(** Step 4: the uniform user scale of the pair. *)
Definition scaleBy (s : JS.number) (p : StadiumMap.Vec3) : StadiumMap.Vec3 :=
  let '(x, y, z) := p in (x * s, y, z * s).

(** Step 5: the translation of the pair. *)
Definition translate (tx ty : JS.number) (p : StadiumMap.Vec3) : StadiumMap.Vec3 :=
  let '(x, y, z) := p in (x + tx, y, z + ty).

(** The five steps in the order the specification fixes. *)
Definition compose (t : StadiumMap.Transformations) (coord : StadiumMap.Vec3)
  : StadiumMap.Vec3 :=
  translate (StadiumMap.translateX t) (StadiumMap.translateY t)
    (scaleBy (StadiumMap.scale t)
       (rotate (StadiumMap.rotation t)
          (mirror
             (base (StadiumMap.baseOffset t)
                   (JS.to_number (StadiumMap.baseScale t)) coord)))).

End Steps.

End CompositionSpec.

(** * Properties *)

Local Open Scope js_scope.

(** ** Normalisation of small seat sets *)

Lemma min_Infinity_l (x : JS.number) : JS.Math.min JS.Infinity x = x.
Proof. destruct x as [s|s| |s m e]; try destruct s; reflexivity. Qed.

Lemma max_neg_Infinity_l (x : JS.number) : JS.Math.max (- JS.Infinity) x = x.
Proof. destruct x as [s|s| |s m e]; try destruct s; reflexivity. Qed.

(** [x - x] is [+0] or [NaN], never a positive number. *)
Lemma sub_diag_not_positive (x : JS.number) : (x - x >? Lit.n0) = false.
Proof.
  destruct x as [s|s| |s m e]; try (destruct s; reflexivity); try reflexivity.
  unfold JS.sub, SFsub. rewrite Z.sub_diag. reflexivity.
Qed.

Lemma bounds_singleton (c : StadiumMap.Coord2) :
  StadiumMap.bounds [c] =
  {| StadiumMap.minX := StadiumMap.cx c; StadiumMap.maxX := StadiumMap.cx c;
     StadiumMap.minZ := StadiumMap.cz c; StadiumMap.maxZ := StadiumMap.cz c |}.
Proof.
  unfold StadiumMap.bounds, StadiumMap.bounds_step, StadiumMap.bounds_init; simpl.
  now rewrite !min_Infinity_l, !max_neg_Infinity_l.
Qed.


(** *** Doubling and halving in binary64 *)

Lemma fexp_eq (z : Z) : fexp prec emax z = Z.max (z - 53) (-1074).
Proof. reflexivity. Qed.

Lemma bounded_spec (m : positive) (e : Z) :
  bounded prec emax m e = true ->
  Z.max (Z.pos (digits2_pos m) + e - 53) (-1074) = e /\ (e <= 971)%Z.
Proof.
  unfold bounded, canonical_mantissa. rewrite fexp_eq.
  intros H. apply andb_true_iff in H. destruct H as [H1 H2].
  apply Z.eqb_eq in H1. apply Z.leb_le in H2. split; [exact H1|exact H2].
Qed.

Lemma add_self (s : bool) (m : positive) (e : Z) :
  bounded prec emax m e = true ->
  SFadd prec emax (S754_finite s m e) (S754_finite s m e)
  = if (Z.pos (digits2_pos m) =? 53)%Z
    then (if (e + 1 <=? 971)%Z then S754_finite s m (e + 1) else S754_infinity s)
    else S754_finite s (m~0) e.
Proof.
  intros Hb. apply bounded_spec in Hb. destruct Hb as [Hc He].
  unfold SFadd. rewrite Z.min_id.
  unfold shl_align at 1 2. rewrite Z.sub_diag. cbn [fst].
  replace (cond_Zopp s (Z.pos m) + cond_Zopp s (Z.pos m))%Z
    with (cond_Zopp s (Z.pos m~0)) by (destruct s; cbn; lia).
  assert (Hn : binary_normalize prec emax (cond_Zopp s (Z.pos m~0)) e false
               = binary_round prec emax s (m~0) e) by (destruct s; reflexivity).
  rewrite Hn. unfold binary_round.
  rewrite fexp_eq. cbn [digits2_pos]. rewrite Pos2Z.inj_succ.
  set (d := Z.pos (digits2_pos m)) in *.
  destruct (Z.eqb_spec d 53) as [Hd|Hd].
  - assert (Hf : Z.max (Z.succ d + e - 53) (-1074) = (e + 1)%Z) by lia.
    rewrite Hf. unfold shl_align. replace (e + 1 - e)%Z with 1%Z by lia.
    unfold binary_round_aux, shr_fexp. rewrite !fexp_eq.
    cbn [Zdigits2 digits2_pos]. rewrite Pos2Z.inj_succ. fold d.
    rewrite Hf. replace (e + 1 - e)%Z with 1%Z by lia.
    cbn [shr shr_record_of_loc iter_pos shr_1 shr_m loc_of_shr_record orb
         round_nearest_even Zdigits2].
    rewrite fexp_eq. fold d.
    replace (Z.max (d + (e + 1) - 53) (-1074) - (e + 1))%Z with 0%Z by lia.
    cbn [shr shr_m]. reflexivity.
  - assert (Hf : Z.max (Z.succ d + e - 53) (-1074) = e) by lia.
    rewrite Hf. unfold shl_align. rewrite Z.sub_diag.
    unfold binary_round_aux, shr_fexp. rewrite !fexp_eq.
    cbn [Zdigits2 digits2_pos]. rewrite Pos2Z.inj_succ. fold d.
    rewrite Hf, Z.sub_diag.
    cbn [shr shr_record_of_loc shr_m loc_of_shr_record round_nearest_even
         Zdigits2 digits2_pos].
    rewrite fexp_eq, Pos2Z.inj_succ. fold d. rewrite Hf, Z.sub_diag.
    cbn [shr shr_m].
    destruct (Z.leb_spec e (emax - prec)); [reflexivity|]. cbn in *. lia.
Qed.

Lemma round_exact_canonical (s : bool) (m : positive) (e : Z) :
  bounded prec emax m e = true ->
  binary_round_aux prec emax s (Z.pos m) e loc_Exact = S754_finite s m e.
Proof.
  intros Hb. apply bounded_spec in Hb. destruct Hb as [Hc He].
  unfold binary_round_aux, shr_fexp. rewrite !fexp_eq. cbn [Zdigits2].
  rewrite Hc, Z.sub_diag.
  cbn [shr shr_record_of_loc shr_m loc_of_shr_record round_nearest_even Zdigits2].
  rewrite fexp_eq, Hc, Z.sub_diag. cbn [shr shr_m].
  destruct (Z.leb_spec e (emax - prec)); [reflexivity|]. cbn in *. lia.
Qed.

Lemma round_exact_double (s : bool) (m : positive) (e : Z) :
  Z.pos (digits2_pos m) = 53%Z -> (-1075 <= e)%Z -> (e + 1 <= 971)%Z ->
  binary_round_aux prec emax s (Z.pos m~0) e loc_Exact = S754_finite s m (e + 1).
Proof.
  intros Hd Hlo Hhi.
  unfold binary_round_aux, shr_fexp. rewrite !fexp_eq.
  cbn [Zdigits2 digits2_pos]. rewrite Pos2Z.inj_succ, Hd.
  replace (Z.max (Z.succ 53 + e - 53) (-1074) - e)%Z with 1%Z by lia.
  cbn [shr shr_record_of_loc iter_pos shr_1 shr_m loc_of_shr_record orb
       round_nearest_even Zdigits2].
  rewrite fexp_eq, Hd.
  replace (Z.max (53 + (e + 1) - 53) (-1074) - (e + 1))%Z with 0%Z by lia.
  cbn [shr shr_m].
  destruct (Z.leb_spec (e + 1) (emax - prec)); [reflexivity|]. cbn in *. lia.
Qed.

Lemma div_eucl_exact (a b q : Z) :
  (0 < b)%Z -> a = (b * q)%Z -> Z.div_eucl a b = (q, 0%Z).
Proof.
  intros Hb ->.
  rewrite (surjective_pairing (Z.div_eucl (b * q) b)).
  change (fst (Z.div_eucl (b * q) b)) with (b * q / b)%Z.
  change (snd (Z.div_eucl (b * q) b)) with ((b * q) mod b)%Z.
  rewrite Z.mul_comm, Z.div_mul, Z.mod_mul by lia. reflexivity.
Qed.

Lemma div_shiftl_exact (m : positive) (n : Z) (q : Z) :
  (0 <= n)%Z -> (Z.pos m * 2 ^ n = 4503599627370496 * q)%Z ->
  IntDef.Z.div_eucl (IntDef.Z.shiftl (Z.pos m) n) 4503599627370496 = (q, 0%Z).
Proof.
  intros Hn H. change (Z.div_eucl (Z.shiftl (Z.pos m) n) 4503599627370496 = (q, 0%Z)).
  apply div_eucl_exact; [lia|]. now rewrite Z.shiftl_mul_pow2.
Qed.

Lemma half (s : bool) (m : positive) (e : Z) :
  bounded prec emax m e = true ->
  SFdiv prec emax
    (if (Z.pos (digits2_pos m) =? 53)%Z then S754_finite s m (e + 1)
     else S754_finite s (m~0) e) Lit.n2
  = S754_finite s m e.
Proof.
  intros Hb. pose proof (bounded_spec _ _ Hb) as [Hc He].
  set (d := Z.pos (digits2_pos m)) in *.
  destruct (Z.eqb_spec d 53) as [Hd|Hd].
  - unfold SFdiv, Lit.n2, SFdiv_core_binary. rewrite fexp_eq.
    cbn [Zdigits2]. fold d. rewrite Hd. rewrite xorb_false_r.
    change (Z.pos (digits2_pos 4503599627370496)) with 53%Z.
    destruct (Z.eq_dec e (-1074)) as [He0|He0].
    + subst e.
      change (Z.min (Z.max (53 + (-1074 + 1) - (53 + -51) - 53) (-1074)) (-1074 + 1 - -51))
        with (-1074)%Z.
      change (-1074 + 1 - -51 - -1074)%Z with 52%Z.
      cbv iota.
      rewrite (div_shiftl_exact m 52 (Z.pos m))
        by (try lia; change (2 ^ 52)%Z with 4503599627370496%Z; lia).
      change (new_location 4503599627370496 0) with loc_Exact.
      now apply round_exact_canonical.
    + replace (Z.min (Z.max (53 + (e + 1) - (53 + -51) - 53) (-1074)) (e + 1 - -51))
        with (e - 1)%Z by lia.
      replace (e + 1 - -51 - (e - 1))%Z with 53%Z by lia.
      cbv iota.
      rewrite (div_shiftl_exact m 53 (Z.pos m~0))
        by (try lia; change (2 ^ 53)%Z with 9007199254740992%Z; lia).
      change (new_location 4503599627370496 0) with loc_Exact.
      rewrite round_exact_double by (fold d; lia).
      f_equal. lia.
  - assert (He0 : e = (-1074)%Z) by lia. subst e.
    unfold SFdiv, Lit.n2, SFdiv_core_binary. rewrite fexp_eq.
    change (Zdigits2 4503599627370496) with 53%Z.
    cbn [Zdigits2 digits2_pos]. rewrite Pos2Z.inj_succ. fold d. rewrite xorb_false_r.
    replace (Z.min (Z.max (Z.succ d + -1074 - (53 + -51) - 53) (-1074)) (-1074 - -51))
      with (-1074)%Z by lia.
    change (-1074 - -51 - -1074)%Z with 51%Z.
    cbv iota.
    rewrite (div_shiftl_exact (m~0) 51 (Z.pos m))
      by (try lia; change (2 ^ 51)%Z with 2251799813685248%Z; lia).
    change (new_location 4503599627370496 0) with loc_Exact.
    now apply round_exact_canonical.
Qed.

(** Halving the double of a number gives the number back, unless the double
    overflows. *)
Lemma half_of_double (x : JS.number) :
  JS.wellFormed x = true ->
  (JS.isFinite x = true -> JS.isFinite (x + x) = true) ->
  (x + x) / Lit.n2 = x.
Proof.
  intros Hv Hf. unfold JS.add, JS.div in *. destruct x as [s|s| |s m e].
  - destruct s; reflexivity.
  - destruct s; reflexivity.
  - reflexivity.
  - unfold JS.wellFormed in Hv. cbn [valid_binary] in Hv. specialize (Hf eq_refl).
    rewrite add_self in Hf |- * by assumption.
    pose proof (half s m e Hv) as Hh.
    destruct (Z.pos (digits2_pos m) =? 53)%Z; [|exact Hh].
    destruct (e + 1 <=? 971)%Z; [exact Hh|discriminate Hf].
Qed.

(** The first of the default seats, at [(-5, 2, 10)]. *)
Lemma default_seat_A1 :
  nth_error App.DEFAULT_SEATS 0
  = Some (App.seat "A" Lit.n1 Lit.n1 Lit.n150
            (JS.lit (-5)) Lit.n2 Lit.n10).
Proof. vm_compute. reflexivity. Qed.

(** C1, as stated, fails: for the one-seat set made of the first default seat
    the effect stores [baseScale = 0.95], which is not 1; and for the empty
    set it stores [undefined], the early return of [calcScalingFactors]
    having no [scale] property.  The offset is the negated midpoint, which
    for a seat at [x = 1e308] overflows to [-Infinity]. *)
Lemma C1_counterexample :
  let A1 := App.seat "A" Lit.n1 Lit.n1 Lit.n150 (JS.lit (-5)) Lit.n2 Lit.n10 in
  StadiumMap.baseScale (StadiumMap.updateBase [A1] StadiumMap.defaultTransformations)
    = JS.Defined Lit.n0_95
  /\ JS.strict_eq Lit.n0_95 Lit.n1 = false
  /\ StadiumMap.baseScale (StadiumMap.updateBase [] StadiumMap.defaultTransformations)
    = JS.Undefined
  /\ (let far := App.seat "A" Lit.n1 Lit.n1 Lit.n150 (JS.lit 1e308) Lit.n2 Lit.n10 in
      StadiumMap.ox (StadiumMap.baseOffset
                       (StadiumMap.updateBase [far] StadiumMap.defaultTransformations))
      = - JS.Infinity).
Proof. vm_compute. repeat split. Qed.

(** C1, amended: for every seat set of size 1 neither extent is positive, so
    neither division is evaluated and both per-axis factors default to 1;
    [baseScale] is [min(1, 1) * 0.95 = 0.95]; [baseOffset] is the negated
    midpoint [-((x + x) / 2)], [-((z + z) / 2)] of the single point, which is
    the negation of the point unless doubling a finite coordinate overflows;
    and for the empty set [baseOffset] is [{0, 0}]. *)
Theorem C1_normalisation_of_small_sets :
  forall (seat : Seat) (prev : StadiumMap.Transformations),
    let x := px (coordinates seat) in
    let z := pz (coordinates seat) in
    let b := StadiumMap.bounds [StadiumMap.mkCoord2 x z] in
    let t := StadiumMap.updateBase [seat] prev in
    (StadiumMap.width b >? Lit.n0) = false
    /\ (StadiumMap.height b >? Lit.n0) = false
    /\ StadiumMap.baseScale t = JS.Defined Lit.n0_95
    /\ StadiumMap.baseOffset t
       = {| StadiumMap.ox := - ((x + x) / Lit.n2);
            StadiumMap.oz := - ((z + z) / Lit.n2) |}
    /\ (JS.wellFormed x = true -> JS.wellFormed z = true ->
        (JS.isFinite x = true -> JS.isFinite (x + x) = true) ->
        (JS.isFinite z = true -> JS.isFinite (z + z) = true) ->
        StadiumMap.baseOffset t = {| StadiumMap.ox := - x; StadiumMap.oz := - z |})
    /\ StadiumMap.baseOffset (StadiumMap.updateBase [] prev)
       = {| StadiumMap.ox := Lit.n0; StadiumMap.oz := Lit.n0 |}.
Proof.
  intros seat prev x z b t.
  assert (Hb : b = {| StadiumMap.minX := x; StadiumMap.maxX := x;
                      StadiumMap.minZ := z; StadiumMap.maxZ := z |})
    by apply bounds_singleton.
  assert (Hw : (StadiumMap.width b >? Lit.n0) = false)
    by (rewrite Hb; apply sub_diag_not_positive).
  assert (Hh : (StadiumMap.height b >? Lit.n0) = false)
    by (rewrite Hb; apply sub_diag_not_positive).
  assert (Hs : StadiumMap.baseScale t = JS.Defined Lit.n0_95).
  { subst t. unfold StadiumMap.updateBase, StadiumMap.calcScalingFactors.
    cbn [map StadiumMap.baseScale StadiumMap.f_scale].
    fold x z. fold b. rewrite Hw, Hh. reflexivity. }
  assert (Ho : StadiumMap.baseOffset t
               = {| StadiumMap.ox := - ((x + x) / Lit.n2);
                    StadiumMap.oz := - ((z + z) / Lit.n2) |}).
  { subst t. unfold StadiumMap.updateBase, StadiumMap.calcScalingFactors.
    cbn [map StadiumMap.baseOffset StadiumMap.f_xOffset StadiumMap.f_zOffset].
    fold x z. fold b. rewrite Hb. reflexivity. }
  repeat split; try assumption.
  intros Hvx Hvz Hx Hz.
  rewrite Ho, (half_of_double x Hvx Hx), (half_of_double z Hvz Hz). reflexivity.
Qed.

(** The amended C1 at the first default seat, where the offset is the negated
    point [(5, -10)]. *)
Lemma C1_normalisation_witness :
  let A1 := App.seat "A" Lit.n1 Lit.n1 Lit.n150 (JS.lit (-5)) Lit.n2 Lit.n10 in
  StadiumMap.baseOffset (StadiumMap.updateBase [A1] StadiumMap.defaultTransformations)
  = {| StadiumMap.ox := JS.lit 5; StadiumMap.oz := JS.lit (-10) |}.
Proof.
  intro A1.
  refine (eq_trans
    (proj1 (proj2 (proj2 (proj2 (proj2
       (C1_normalisation_of_small_sets A1 StadiumMap.defaultTransformations)))))
       _ _ _ _) _); vm_compute; reflexivity.
Defined.

(** ** The per-seat composition *)

(** C7: for every seat coordinate and every transform configuration, the
    position the [Seat] component renders, and the one [handleSeatSelect]
    derives again, is the composition base, mirror, rotate, scale, translate
    in this order; the elevation is the constant 1 whatever the input [y]. *)
Theorem C7_position_is_ordered_composition :
  forall (cos sin : JS.number -> JS.number)
         (seat : Seat) (t : StadiumMap.Transformations),
    StadiumMap.Seat_transformedPosition cos sin (StadiumMap.seat_position seat) t
      = CompositionSpec.compose cos sin t (StadiumMap.seat_position seat)
    /\ StadiumMap.handleSeatSelect_transformedPosition cos sin seat t
      = CompositionSpec.compose cos sin t (StadiumMap.seat_position seat)
    /\ (forall x y y' z,
          StadiumMap.Seat_transformedPosition cos sin (x, y, z) t
          = StadiumMap.Seat_transformedPosition cos sin (x, y', z) t)
    /\ (forall p, snd (fst (StadiumMap.Seat_transformedPosition cos sin p t))
                  = CompositionSpec.elevation).
Proof.
  intros cos sin seat t. repeat split.
  intros [[x y] z]. reflexivity.
Qed.

(** The order of the composition matters: with the cosine and sine of the
    angle 0, a seat at [x = 1] scaled by 2 and then moved by 1 lands on 3,
    while moving before scaling would put it on 4. *)
Lemma composition_order_matters :
  let cos0 := fun _ : JS.number => Lit.n1 in
  let sin0 := fun _ : JS.number => Lit.n0 in
  let t := StadiumMap.mkTransformations Lit.n2 Lit.n0 Lit.n1 Lit.n0
             (JS.Defined Lit.n1) (StadiumMap.mkOffset Lit.n0 Lit.n0) in
  let p := (Lit.n1, Lit.n0, Lit.n0) in
  fst (fst (StadiumMap.Seat_transformedPosition cos0 sin0 p t)) = JS.lit 3
  /\ fst (fst (CompositionSpec.scaleBy Lit.n2
                 (CompositionSpec.translate Lit.n1 Lit.n0
                    (CompositionSpec.rotate cos0 sin0 Lit.n0
                       (CompositionSpec.mirror
                          (CompositionSpec.base (StadiumMap.mkOffset Lit.n0 Lit.n0)
                             Lit.n1 p))))))
     = JS.lit 4.
Proof. vm_compute. split; reflexivity. Qed.

(** ** Seat attributes *)

Lemma nth_error_mapIndexed {A B : Type} (f : A -> nat -> B) (l : list A) :
  forall (start i : nat),
    nth_error (CoordinateLoader.mapIndexed f start l) i
    = option_map (fun a => f a (start + i)%nat) (nth_error l i).
Proof.
  induction l as [|a l IH]; intros start i.
  - destruct i; reflexivity.
  - destruct i as [|i]; simpl.
    + now rewrite Nat.add_0_r.
    + rewrite IH. now rewrite Nat.add_succ_r.
Qed.

(** The seat the bulk import derives from the [i]-th coordinate. *)
Lemma generated_seat (coords : list Point3) (i : nat) (c : Point3) :
  nth_error coords i = Some c ->
  nth_error (SeatCoordinateParser.generateSeatsFromCoordinates coords) i
  = Some (SeatCoordinateParser.generateSeat c).
Proof.
  intros H. unfold SeatCoordinateParser.generateSeatsFromCoordinates.
  now rewrite nth_error_map, H.
Qed.

(** The seat the file loader derives from the [i]-th coordinate. *)
Lemma enhanced_seat (coords : list Point3) (i : nat) (c : Point3) :
  nth_error coords i = Some c ->
  nth_error (CoordinateLoader.enhanceSeats
               (SeatCoordinateParser.generateSeatsFromCoordinates coords)) i
  = Some (CoordinateLoader.enhanceSeat (SeatCoordinateParser.generateSeat c) i).
Proof.
  intros H. unfold CoordinateLoader.enhanceSeats.
  now rewrite nth_error_mapIndexed, (generated_seat _ _ _ H).
Qed.


(** C5, as stated, fails on the bulk import path: the seat derived from
    [<Vector (0.15, 0, 0)>] lies at distance 0.15 from the origin, the tier of
    which is 250, and is priced 100 by [generateSeatsFromCoordinates]. *)
Lemma C5_counterexample :
  map (fun s => (CoordinateLoader.distance (coordinates s), price s))
      (SeatCoordinateParser.parseAndGenerateSeats (Str.str "<Vector (0.15, 0, 0)>"))
  = [(JS.lit 0.15, Lit.n100)]
  /\ CoordinateLoader.priceFor (JS.lit 0.15) = Lit.n250
  /\ JS.strict_eq Lit.n100 Lit.n250 = false.
Proof. vm_compute. repeat split. Qed.

(** C5, amended: on the file-load path ([enhanceSeats]) the price of every
    seat is the tier of its distance [d = sqrt(x * x + y * y)] from the
    origin, where [d <= 0.2] gives 250, [d <= 0.4] gives 200, [d <= 0.6]
    gives 150, [d <= 0.8] gives 120 and anything else 100; the distances 0.15,
    0.5 and 5 give 250, 150 and 100.  On the bulk import path
    ([generateSeatsFromCoordinates] alone) the price is
    [floor(100 + |z| * 50)]. *)
Theorem C5_price_tiers :
  (forall d : JS.number,
      CoordinateLoader.priceFor d
      = if d <=? Lit.n0_2 then Lit.n250
        else if d <=? Lit.n0_4 then Lit.n200
        else if d <=? Lit.n0_6 then Lit.n150
        else if d <=? Lit.n0_8 then Lit.n120
        else Lit.n100)
  /\ (forall (coords : list Point3) (i : nat) (c : Point3),
         nth_error coords i = Some c ->
         exists s,
           nth_error (CoordinateLoader.enhanceSeats
                        (SeatCoordinateParser.generateSeatsFromCoordinates coords)) i
           = Some s
           /\ coordinates s = c
           /\ price s
              = CoordinateLoader.priceFor
                  (JS.Math.sqrt (px c * px c + py c * py c)))
  /\ (forall (coords : list Point3) (i : nat) (c : Point3),
         nth_error coords i = Some c ->
         exists s,
           nth_error (SeatCoordinateParser.generateSeatsFromCoordinates coords) i
           = Some s
           /\ coordinates s = c
           /\ price s
              = JS.Math.floor (Lit.n100 + JS.Math.abs (pz c) * Lit.n50))
  /\ CoordinateLoader.priceFor (JS.lit 0.15) = Lit.n250
  /\ CoordinateLoader.priceFor (JS.lit 0.5) = Lit.n150
  /\ CoordinateLoader.priceFor (JS.lit 5.0) = Lit.n100.
Proof.
  split; [|split; [|split; [|now vm_compute]]].
  - intro d. unfold CoordinateLoader.priceFor, CoordinateLoader.find,
      CoordinateLoader.priceTiers. cbn [List.find CoordinateLoader.maxDistance].
    destruct (d <=? Lit.n0_2); [reflexivity|].
    destruct (d <=? Lit.n0_4); [reflexivity|].
    destruct (d <=? Lit.n0_6); [reflexivity|].
    destruct (d <=? Lit.n0_8); [reflexivity|].
    destruct (d <=? JS.Infinity); reflexivity.
  - intros coords i c H. eexists. split; [apply (enhanced_seat _ _ _ H)|].
    split; reflexivity.
  - intros coords i c H. eexists. split; [apply (generated_seat _ _ _ H)|].
    split; reflexivity.
Qed.

(** The amended C5 on the file [<Vector (0.3, 0, 0.4)>], whose seat lies at
    distance 0.5 and costs 150. *)
Lemma C5_price_tiers_witness :
  exists s,
    nth_error (CoordinateLoader.enhanceSeats
                 (SeatCoordinateParser.parseAndGenerateSeats
                    (Str.str "<Vector (0.3, 0, 0.4)>"))) 0 = Some s
    /\ CoordinateLoader.distance (coordinates s) = JS.lit 0.5
    /\ price s = Lit.n150.
Proof.
  destruct (proj1 (proj2 C5_price_tiers)
              (SeatCoordinateParser.convertToThreeCoordinates
                 (SeatCoordinateParser.parseVectorCoordinates
                    (Str.str "<Vector (0.3, 0, 0.4)>")))
              0%nat
              {| px := JS.lit 0.3; py := JS.lit 0.4; pz := Lit.n0 |}
              ltac:(vm_compute; reflexivity))
    as [s [Hs [Hc Hp]]].
  exists s. split; [exact Hs|]. split.
  - rewrite Hc. vm_compute. reflexivity.
  - rewrite Hp. vm_compute. reflexivity.
Defined.

(** C6, as stated, fails on the bulk import path: the coordinate
    [(1.5, 1.5, 0)] derived from [<Vector (1.5, 0, 1.5)>] gets row 6 and
    number 6, where the formula gives 16. *)
Lemma C6_counterexample :
  map (fun s => (coordinates s, row s, number s))
      (SeatCoordinateParser.parseAndGenerateSeats (Str.str "<Vector (1.5, 0, 1.5)>"))
  = [({| px := JS.lit 1.5; py := JS.lit 1.5; pz := Lit.n0 |},
      JS.lit 6, JS.lit 6)]
  /\ JS.Math.floor (JS.Math.abs (JS.lit 1.5) * Lit.n10) + Lit.n1 = JS.lit 16
  /\ JS.strict_eq (JS.lit 6) (JS.lit 16) = false.
Proof. vm_compute. repeat split. Qed.

(** C6, amended: on the file-load path ([enhanceSeats]) the row of every seat
    is [floor(|y| * 10) + 1] and its number [floor(|x| * 10) + 1]; on the bulk
    import path ([generateSeatsFromCoordinates] alone) the row is
    [floor(|y| * 10) % 10 + 1] and the number [floor(|x| * 10) % 10 + 1]. *)
Theorem C6_row_and_number :
  forall (coords : list Point3) (i : nat) (c : Point3),
    nth_error coords i = Some c ->
    (exists s,
        nth_error (CoordinateLoader.enhanceSeats
                     (SeatCoordinateParser.generateSeatsFromCoordinates coords)) i
        = Some s
        /\ coordinates s = c
        /\ row s = JS.Math.floor (JS.Math.abs (py c) * Lit.n10) + Lit.n1
        /\ number s = JS.Math.floor (JS.Math.abs (px c) * Lit.n10) + Lit.n1)
    /\ (exists s,
        nth_error (SeatCoordinateParser.generateSeatsFromCoordinates coords) i
        = Some s
        /\ coordinates s = c
        /\ row s = JS.Math.floor (JS.Math.abs (py c) * Lit.n10) mod Lit.n10 + Lit.n1
        /\ number s
           = JS.Math.floor (JS.Math.abs (px c) * Lit.n10) mod Lit.n10 + Lit.n1).
Proof.
  intros coords i c H. split; eexists.
  - split; [apply (enhanced_seat _ _ _ H)|]. repeat split.
  - split; [apply (generated_seat _ _ _ H)|]. repeat split.
Qed.

(** The amended C6 on the text [<Vector (1.5, 0, 1.5)>]: row and number are 16
    when the file is loaded and 6 when the text is imported. *)
Lemma C6_row_and_number_witness :
  let text := Str.str "<Vector (1.5, 0, 1.5)>" in
  (exists s,
      nth_error (CoordinateLoader.enhanceSeats
                   (SeatCoordinateParser.parseAndGenerateSeats text)) 0 = Some s
      /\ row s = JS.lit 16 /\ number s = JS.lit 16)
  /\ (exists s,
      nth_error (SeatCoordinateParser.parseAndGenerateSeats text) 0 = Some s
      /\ row s = JS.lit 6 /\ number s = JS.lit 6).
Proof.
  intro text.
  destruct (C6_row_and_number
              (SeatCoordinateParser.convertToThreeCoordinates
                 (SeatCoordinateParser.parseVectorCoordinates text))
              0%nat
              {| px := JS.lit 1.5; py := JS.lit 1.5; pz := Lit.n0 |}
              ltac:(vm_compute; reflexivity))
    as [[s [Hs [_ [Hr Hn]]]] [s' [Hs' [_ [Hr' Hn']]]]].
  split.
  - exists s. split; [exact Hs|]. rewrite Hr, Hn. vm_compute. split; reflexivity.
  - exists s'. split; [exact Hs'|]. rewrite Hr', Hn'. vm_compute. split; reflexivity.
Defined.

(** ** Imports that produce no seats *)

Lemma enhanceSeats_nil : CoordinateLoader.enhanceSeats [] = [].
Proof. reflexivity. Qed.

Lemma parseAndGenerateSeats_nil (text : Str.t) :
  SeatCoordinateParser.parseVectorCoordinates text = [] ->
  SeatCoordinateParser.parseAndGenerateSeats text = [].
Proof.
  intros H. unfold SeatCoordinateParser.parseAndGenerateSeats. now rewrite H.
Qed.

(** C10: [loadSeatsFromFile] always resolves, and resolves to the empty array
    when the fetch is rejected, the response is not [ok], its body cannot be
    read, or the text holds no record; the mount effect, the reset to the file
    seats, [handleSeatsImported] and the importer leave the available seats as
    they were when the new list is empty or the promise is rejected; and when
    they do replace the seats, the new list is not empty. *)
Theorem C10_empty_import_keeps_seats :
  (forall fetched, exists seats,
      CoordinateLoader.loadSeatsFromFile fetched = CoordinateLoader.Resolved seats)
  /\ CoordinateLoader.loadSeatsFromFile CoordinateLoader.FetchRejected
     = CoordinateLoader.Resolved []
  /\ (forall text,
         CoordinateLoader.loadSeatsFromFile (CoordinateLoader.Response false text)
         = CoordinateLoader.Resolved [])
  /\ CoordinateLoader.loadSeatsFromFile (CoordinateLoader.Response true None)
     = CoordinateLoader.Resolved []
  /\ (forall text,
         SeatCoordinateParser.parseVectorCoordinates text = [] ->
         CoordinateLoader.loadSeatsFromFile
           (CoordinateLoader.Response true (Some text))
         = CoordinateLoader.Resolved [])
  /\ (forall st,
         App.availableSeats (App.loadSeats (CoordinateLoader.Resolved []) st)
         = App.availableSeats st
         /\ App.availableSeats (App.loadSeats CoordinateLoader.Rejected st)
            = App.availableSeats st
         /\ App.availableSeats (App.resetToFileSeats (CoordinateLoader.Resolved []) st)
            = App.availableSeats st
         /\ App.availableSeats (App.resetToFileSeats CoordinateLoader.Rejected st)
            = App.availableSeats st
         /\ App.handleSeatsImported [] st = st)
  /\ (forall st text,
         SeatCoordinateParser.parseAndGenerateSeats text = [] ->
         App.importCoordinates text st = st)
  /\ (forall st settled,
         App.availableSeats (App.loadSeats settled st) = App.availableSeats st
         \/ exists seats,
             settled = CoordinateLoader.Resolved seats /\ seats <> []
             /\ App.availableSeats (App.loadSeats settled st) = seats)
  /\ (forall st settled,
         App.availableSeats (App.resetToFileSeats settled st) = App.availableSeats st
         \/ exists seats,
             settled = CoordinateLoader.Resolved seats /\ seats <> []
             /\ App.availableSeats (App.resetToFileSeats settled st) = seats)
  /\ (forall st seats,
         App.handleSeatsImported seats st = st
         \/ (seats <> []
             /\ App.availableSeats (App.handleSeatsImported seats st) = seats)).
Proof.
  repeat match goal with |- _ /\ _ => split end.
  - intros [|ok [text|]]; unfold CoordinateLoader.loadSeatsFromFile;
      cbn [CoordinateLoader.loadSeatsFromFile_try]; try destruct ok;
      cbn [negb]; eexists; reflexivity.
  - reflexivity.
  - reflexivity.
  - reflexivity.
  - intros text H. unfold CoordinateLoader.loadSeatsFromFile.
    cbn [CoordinateLoader.loadSeatsFromFile_try negb].
    now rewrite (parseAndGenerateSeats_nil _ H).
  - intro st. repeat split.
  - intros st text H. unfold App.importCoordinates, CoordinateImporter.handleImport.
    rewrite H. destruct (Str.trim text); reflexivity.
  - intros st [[|s seats]|]; [left; reflexivity| |left; reflexivity].
    right. exists (s :: seats). repeat split. discriminate.
  - intros st [[|s seats]|]; [left; reflexivity| |left; reflexivity].
    right. exists (s :: seats). repeat split. discriminate.
  - intros st [|s seats]; [left; reflexivity|].
    right. split; [discriminate|reflexivity].
Qed.

(** C10 on the text [no seats here], which holds no record: importing it
    leaves the initial state as it is. *)
Lemma C10_empty_import_witness :
  App.importCoordinates (Str.str "no seats here") App.initial = App.initial
  /\ CoordinateLoader.loadSeatsFromFile
       (CoordinateLoader.Response true (Some (Str.str "no seats here")))
     = CoordinateLoader.Resolved [].
Proof.
  split.
  - apply (proj1 (proj2 (proj2 (proj2 (proj2 (proj2 (proj2
      C10_empty_import_keeps_seats))))))). vm_compute. reflexivity.
  - apply (proj1 (proj2 (proj2 (proj2 (proj2 C10_empty_import_keeps_seats))))).
    vm_compute. reflexivity.
Defined.

(** ** Superseded model loads *)

Section Supersession.

Import ModelContext.

Lemma cleanup_flags (flags : list bool) :
  older_unmounted flags -> all_unmounted (isMounted (cleanup (mkProvider None true None flags))).
Proof.
  unfold cleanup; cbn [isMounted].
  destruct flags as [|b flags] using rev_ind; intros H run.
  - destruct run; reflexivity.
  - rewrite rev_app_distr; cbn [rev app]. rewrite rev_involutive.
    destruct (Nat.lt_ge_cases run (List.length flags)) as [Hlt|Hge].
    + rewrite app_nth1 by assumption.
      specialize (H run). rewrite length_app, app_nth1 in H by assumption.
      apply H. cbn [List.length]. lia.
    + rewrite app_nth2 by assumption.
      destruct (run - List.length flags)%nat as [|[|k]]; reflexivity.
Qed.

Lemma cleanup_isMounted (p : Provider) :
  isMounted (cleanup p) = isMounted (cleanup (mkProvider None true None (isMounted p))).
Proof. reflexivity. Qed.

Lemma all_unmounted_older (flags : list bool) :
  all_unmounted flags -> older_unmounted flags.
Proof. intros H run _. apply H. Qed.

Lemma step_older_unmounted (p : Provider) (ev : Event) :
  older_unmounted (isMounted p) -> older_unmounted (isMounted (step p ev)).
Proof.
  intros H. destruct ev as [| |run c]; cbn [step].
  - unfold runEffect; cbn [isMounted]. rewrite cleanup_isMounted.
    pose proof (cleanup_flags _ H) as Hall.
    intros run Hrun. rewrite length_app in Hrun; cbn [List.length] in Hrun.
    rewrite app_nth1 by lia. apply Hall.
  - rewrite cleanup_isMounted. apply all_unmounted_older, (cleanup_flags _ H).
  - unfold complete. destruct (nth run (isMounted p) false); [destruct c|]; exact H.
Qed.

Lemma run_older_unmounted (events : list Event) :
  older_unmounted (isMounted (run events)).
Proof.
  unfold run. induction events as [|ev events IH] using rev_ind.
  - intros n Hn. cbn in Hn. lia.
  - rewrite fold_left_app. cbn [fold_left]. apply step_older_unmounted, IH.
Qed.

End Supersession.

(** C2: in every state the provider can reach, the completion of a run of the
    loading effect that a later run has superseded changes nothing.  With two
    requests, the second made before the first completes, whatever the order
    and number of the completions, a consumer sees the loading state or the
    result of the second request, and the completion of the second gives its
    result whether or not the first has completed before. *)
Theorem C2_superseded_completion_is_discarded :
  (forall (events : list ModelContext.Event) (run : nat) (c : ModelContext.Completion),
      let p := ModelContext.run events in
      (S run < List.length (ModelContext.isMounted p))%nat ->
      ModelContext.complete run c p = p)
  /\ (forall (c2 : ModelContext.Completion) (completions : list ModelContext.Event),
         let p2 := ModelContext.run
                     [ModelContext.LoadRequested; ModelContext.LoadRequested] in
         Forall (fun ev => (exists c1, ev = ModelContext.Completed 0 c1)
                           \/ ev = ModelContext.Completed 1 c2) completions ->
         let seen := ModelContext.visible
                       (fold_left ModelContext.step completions p2) in
         seen = (None, true, None)
         \/ seen = match c2 with
                   | ModelContext.Ready m => (Some m, false, None)
                   | ModelContext.Failed e => (None, false, Some e)
                   end)
  /\ (forall c1 c2 : ModelContext.Completion,
         let p2 := ModelContext.run
                     [ModelContext.LoadRequested; ModelContext.LoadRequested] in
         ModelContext.visible (ModelContext.complete 0 c1 p2)
         = ModelContext.visible p2
         /\ ModelContext.visible
              (ModelContext.complete 1 c2 (ModelContext.complete 0 c1 p2))
            = ModelContext.visible (ModelContext.complete 1 c2 p2)
         /\ ModelContext.visible
              (ModelContext.complete 0 c1 (ModelContext.complete 1 c2 p2))
            = ModelContext.visible (ModelContext.complete 1 c2 p2)).
Proof.
  split; [|split].
  - intros events run c p Hrun. subst p. unfold ModelContext.complete.
    now rewrite (run_older_unmounted events run Hrun).
  - intros c2 completions p2 Hall seen. subst seen.
    assert (Hgen : forall p,
               ModelContext.isMounted p = [false; true] ->
               (ModelContext.visible p = (None, true, None)
                \/ ModelContext.visible p
                   = match c2 with
                     | ModelContext.Ready m => (Some m, false, None)
                     | ModelContext.Failed e => (None, false, Some e)
                     end) ->
               ModelContext.visible (fold_left ModelContext.step completions p)
               = (None, true, None)
               \/ ModelContext.visible (fold_left ModelContext.step completions p)
                  = match c2 with
                    | ModelContext.Ready m => (Some m, false, None)
                    | ModelContext.Failed e => (None, false, Some e)
                    end).
    { induction Hall as [|ev evs Hev _ IH]; intros p Hflags Hvis.
      - exact Hvis.
      - cbn [fold_left]. apply IH.
        + destruct Hev as [[c1 ->]| ->]; cbn [ModelContext.step];
            unfold ModelContext.complete; rewrite Hflags; cbn [nth];
            [assumption|]. destruct c2; reflexivity.
        + destruct Hev as [[c1 ->]| ->]; cbn [ModelContext.step];
            unfold ModelContext.complete; rewrite Hflags; cbn [nth];
            [assumption|].
          destruct Hvis as [Hvis|Hvis]; unfold ModelContext.visible in *;
            destruct c2; cbn; inversion Hvis; subst; right; reflexivity. }
    apply Hgen; [reflexivity|left; reflexivity].
  - intros c1 c2 p2. repeat split; destruct c2; reflexivity.
Qed.

(** C2 on two requests: the completion of run 0 after run 1 has started
    leaves the provider as it is. *)
Lemma C2_superseded_completion_witness :
  ModelContext.complete 0 (ModelContext.Failed ModelContext.noModelError)
    (ModelContext.run [ModelContext.LoadRequested; ModelContext.LoadRequested])
  = ModelContext.run [ModelContext.LoadRequested; ModelContext.LoadRequested].
Proof.
  apply (proj1 C2_superseded_completion_is_discarded
           [ModelContext.LoadRequested; ModelContext.LoadRequested] 0%nat
           (ModelContext.Failed ModelContext.noModelError)).
  vm_compute. lia.
Defined.

(** ** Models without geometry *)

(** A decoded model whose scene holds a group that holds an empty group: no
    node carries geometry. *)
Lemma hollow_model_has_no_primitive :
  GeometrySpec.primitivesOf
    (ModelContext.mkLoadedModel
       (Some (ModelContext.Node "Scene" false
                (Some [ModelContext.Node "Group" false
                         (Some [ModelContext.Node "Group" false (Some [])])])))
       false false false false None) = 0%nat.
Proof. reflexivity. Qed.




(** ** Validation of binary model files *)

Lemma testbit_above (a n i : Z) :
  (0 <= a < 2 ^ n)%Z -> (n <= i)%Z -> Z.testbit a i = false.
Proof.
  intros [Ha Hlt] Hi.
  destruct (Z.eq_dec a 0) as [->|Hne]; [apply Z.bits_0|].
  apply Z.bits_above_log2; [assumption|].
  assert (0 <= n)%Z.
  { destruct (Z.lt_ge_cases n 0) as [Hn|Hn]; [|assumption].
    rewrite Z.pow_neg_r in Hlt by assumption. lia. }
  apply Z.lt_le_trans with n; [|assumption].
  apply Z.log2_lt_pow2; lia.
Qed.

(** Below [2 ^ n], a bitwise or with a value shifted by [n] is a sum. *)
Lemma lor_shiftl_add (a b n : Z) :
  (0 <= a < 2 ^ n)%Z -> (0 <= n)%Z ->
  Z.lor a (Z.shiftl b n) = (a + b * 2 ^ n)%Z.
Proof.
  intros Ha Hn.
  rewrite <- Z.lxor_lor, <- Z.add_nocarry_lxor, Z.shiftl_mul_pow2;
    try reflexivity; try assumption.
  all: apply Z.bits_inj'; intros i Hi; rewrite Z.land_spec, Z.bits_0;
    destruct (Z.lt_ge_cases i n) as [Hlt|Hge];
    [ rewrite Z.shiftl_spec_low by assumption; apply andb_false_r
    | rewrite (testbit_above a n i) by assumption; reflexivity ].
Qed.

Lemma byteAt_range (buffer : list byte) (i : nat) :
  (0 <= ModelLoader.byteAt buffer i < 256)%Z.
Proof.
  unfold ModelLoader.byteAt. destruct (nth_error buffer i) as [b|]; [|lia].
  pose proof (Byte.to_N_bounded b). lia.
Qed.

Lemma byte_of_value (b : byte) (n : N) (c : byte) :
  Byte.of_N n = Some c -> Z.of_N (Byte.to_N b) = Z.of_N n -> b = c.
Proof.
  intros Hc Hb. apply N2Z.inj in Hb. rewrite <- Hb, Byte.of_to_N in Hc.
  now inversion Hc.
Qed.

Lemma lor_disjoint_add (a b c n : Z) :
  (0 <= a < 2 ^ n)%Z -> (0 <= n)%Z -> b = (c * 2 ^ n)%Z ->
  Z.lor a b = (a + b)%Z.
Proof.
  intros Ha Hn ->. rewrite <- Z.shiftl_mul_pow2 by assumption.
  rewrite lor_shiftl_add by assumption. now rewrite Z.shiftl_mul_pow2.
Qed.

(** The value of a big-endian read, in arithmetic. *)
Lemma getUint32_big_endian (buffer : list byte) (offset : nat) :
  (offset + 4 <= List.length buffer)%nat ->
  ModelLoader.getUint32 buffer offset false
  = Some (ModelLoader.byteAt buffer offset * 16777216
          + ModelLoader.byteAt buffer (offset + 1) * 65536
          + ModelLoader.byteAt buffer (offset + 2) * 256
          + ModelLoader.byteAt buffer (offset + 3))%Z.
Proof.
  intros Hlen. unfold ModelLoader.getUint32.
  apply Nat.leb_le in Hlen. rewrite Hlen. f_equal.
  pose proof (byteAt_range buffer offset) as H0.
  pose proof (byteAt_range buffer (offset + 1)) as H1.
  pose proof (byteAt_range buffer (offset + 2)) as H2.
  pose proof (byteAt_range buffer (offset + 3)) as H3.
  set (b0 := ModelLoader.byteAt buffer offset) in *.
  set (b1 := ModelLoader.byteAt buffer (offset + 1)) in *.
  set (b2 := ModelLoader.byteAt buffer (offset + 2)) in *.
  set (b3 := ModelLoader.byteAt buffer (offset + 3)) in *.
  rewrite !Z.shiftl_mul_pow2 by lia.
  change (2 ^ 8)%Z with 256%Z. change (2 ^ 16)%Z with 65536%Z.
  change (2 ^ 24)%Z with 16777216%Z.
  rewrite (lor_disjoint_add (b1 * 65536) (b0 * 16777216) b0 24)
    by (try reflexivity; lia).
  rewrite (lor_disjoint_add (b2 * 256) _ (b1 + b0 * 256) 16)
    by (try lia; change (2 ^ 16)%Z with 65536%Z; lia).
  rewrite (lor_disjoint_add b3 _ (b2 + b1 * 256 + b0 * 65536) 8)
    by (try lia; change (2 ^ 8)%Z with 256%Z; lia).
  lia.
Qed.

(** The magic number is read exactly from the bytes 67 6C 54 46. *)
Lemma magic_bytes (buffer : list byte) :
  ModelLoader.getUint32 buffer 0 false = Some ModelLoader.magic_glTF
  <-> firstn 4 buffer = [x67; x6c; x54; x46].
Proof.
  split.
  - intros H.
    destruct buffer as [|b0 [|b1 [|b2 [|b3 rest]]]]; try discriminate H.
    rewrite getUint32_big_endian in H by (cbn; lia).
    injection H as H. unfold ModelLoader.byteAt in H. cbn [nth_error Nat.add] in H.
    pose proof (Byte.to_N_bounded b0). pose proof (Byte.to_N_bounded b1).
    pose proof (Byte.to_N_bounded b2). pose proof (Byte.to_N_bounded b3).
    unfold ModelLoader.magic_glTF in H.
    cbn [firstn]. repeat f_equal.
    + apply (byte_of_value b0 0x67 x67); [reflexivity|lia].
    + apply (byte_of_value b1 0x6c x6c); [reflexivity|lia].
    + apply (byte_of_value b2 0x54 x54); [reflexivity|lia].
    + apply (byte_of_value b3 0x46 x46); [reflexivity|lia].
  - intros H.
    destruct buffer as [|b0 [|b1 [|b2 [|b3 rest]]]]; try discriminate H.
    cbn [firstn] in H. injection H as -> -> -> ->. reflexivity.
Qed.

Lemma validateGlbFile_glb (name : Str.t) (contents : option (list byte)) :
  ModelLoader.extensionOf name = Str.str "glb" ->
  ModelLoader.validateGlbFile (ModelLoader.mkFile name contents)
  = match ModelLoader.validateGlb (ModelLoader.mkFile name contents) with
    | Some validation => validation
    | None => ModelLoader.mkValidation false ModelLoader.ErrorValidating
    end.
Proof.
  intros Hext. unfold ModelLoader.validateGlbFile.
  cbn [ModelLoader.name]. rewrite Hext. reflexivity.
Qed.

(** C3, as stated, fails: a 20-byte [.glb] buffer with the magic bytes,
    version 2 and a length field of 20 is refused, because the four bytes at
    offset 16 are not the chunk type [JSON]; and a 12-byte buffer with the
    same three fields is refused because the read at offset 16 does not
    fit. *)
Lemma C3_counterexample :
  let header := [x67; x6c; x54; x46; x02; x00; x00; x00] in
  let b20 := (header ++ [x14; x00; x00; x00; x00; x00; x00; x00;
                         x00; x00; x00; x00])%list in
  let b12 := (header ++ [x0c; x00; x00; x00])%list in
  (firstn 4 b20 = [x67; x6c; x54; x46]
   /\ ModelLoader.getUint32 b20 4 true = Some 2%Z
   /\ ModelLoader.getUint32 b20 8 true = Some 20%Z
   /\ List.length b20 = 20%nat
   /\ ModelLoader.validateGlbFile (ModelLoader.mkFile (Str.str "stadium.glb") (Some b20))
      = ModelLoader.mkValidation false ModelLoader.MissingJsonChunk)
  /\ (firstn 4 b12 = [x67; x6c; x54; x46]
      /\ ModelLoader.getUint32 b12 4 true = Some 2%Z
      /\ ModelLoader.getUint32 b12 8 true = Some 12%Z
      /\ List.length b12 = 12%nat
      /\ ModelLoader.validateGlbFile (ModelLoader.mkFile (Str.str "stadium.glb") (Some b12))
         = ModelLoader.mkValidation false ModelLoader.ErrorValidating).
Proof. vm_compute. repeat split. Qed.

(** C3, amended: for every buffer of a [.glb] file, validation passes exactly
    when the first four bytes are 67 6C 54 46, the little-endian integer at
    offset 4 is 2, the little-endian length at offset 8 does not exceed the
    length of the buffer, and the little-endian integer at offset 16 is the
    chunk type [0x4E4F534A]; a wrong value in any of the four fields, or a
    buffer too short for a read, gives [valid: false] with the message of
    the first check that fails, and [saveModelFile] then returns before the
    file is handed on to be loaded. *)
Theorem C3_glb_validation :
  forall (name : Str.t) (buffer : list byte),
    ModelLoader.extensionOf name = Str.str "glb" ->
    let file := ModelLoader.mkFile name (Some buffer) in
    let result := ModelLoader.validateGlbFile file in
    (ModelLoader.valid result = true
     <-> firstn 4 buffer = [x67; x6c; x54; x46]
         /\ ModelLoader.getUint32 buffer 4 true = Some 2%Z
         /\ (exists fileLength,
                ModelLoader.getUint32 buffer 8 true = Some fileLength
                /\ (fileLength <= Z.of_nat (List.length buffer))%Z)
         /\ ModelLoader.getUint32 buffer 16 true = Some ModelLoader.chunk_JSON)
    /\ (forall magic,
           ModelLoader.getUint32 buffer 0 false = Some magic ->
           magic <> ModelLoader.magic_glTF ->
           result = ModelLoader.mkValidation false ModelLoader.MissingMagic)
    /\ (forall version,
           ModelLoader.getUint32 buffer 0 false = Some ModelLoader.magic_glTF ->
           ModelLoader.getUint32 buffer 4 true = Some version ->
           version <> 2%Z ->
           result = ModelLoader.mkValidation false
                      (ModelLoader.UnsupportedVersion version))
    /\ (forall fileLength,
           ModelLoader.getUint32 buffer 0 false = Some ModelLoader.magic_glTF ->
           ModelLoader.getUint32 buffer 4 true = Some 2%Z ->
           ModelLoader.getUint32 buffer 8 true = Some fileLength ->
           (fileLength > Z.of_nat (List.length buffer))%Z ->
           result = ModelLoader.mkValidation false
                      (ModelLoader.LengthExceedsSize fileLength (List.length buffer)))
    /\ (forall fileLength chunkType,
           ModelLoader.getUint32 buffer 0 false = Some ModelLoader.magic_glTF ->
           ModelLoader.getUint32 buffer 4 true = Some 2%Z ->
           ModelLoader.getUint32 buffer 8 true = Some fileLength ->
           (fileLength <= Z.of_nat (List.length buffer))%Z ->
           ModelLoader.getUint32 buffer 16 true = Some chunkType ->
           chunkType <> ModelLoader.chunk_JSON ->
           result = ModelLoader.mkValidation false ModelLoader.MissingJsonChunk)
    /\ ((List.length buffer < 20)%nat -> ModelLoader.valid result = false)
    /\ (ModelLoader.valid result = false ->
        ModelUploader.saveModelFile file
        = ModelUploader.Refused (ModelLoader.message result)).
Proof.
  intros name buffer Hext file result.
  assert (Hres : result
                 = match ModelLoader.validateGlb file with
                   | Some validation => validation
                   | None => ModelLoader.mkValidation false ModelLoader.ErrorValidating
                   end) by (apply validateGlbFile_glb, Hext).
  unfold ModelLoader.validateGlb in Hres. cbn [ModelLoader.arrayBuffer file] in Hres.
  repeat match goal with |- _ /\ _ => split end.
  - rewrite <- magic_bytes. rewrite Hres.
    destruct (ModelLoader.getUint32 buffer 0 false) as [magic|].
    2:{ split; [discriminate|]. intros [H _]. discriminate H. }
    destruct (magic =? ModelLoader.magic_glTF)%Z eqn:Hm; cbn [negb].
    2:{ split; [discriminate|]. intros [H _]. injection H as ->.
        rewrite Z.eqb_refl in Hm. discriminate Hm. }
    apply Z.eqb_eq in Hm. subst magic.
    destruct (ModelLoader.getUint32 buffer 4 true) as [version|].
    2:{ split; [discriminate|]. intros (_ & H & _). discriminate H. }
    destruct (version =? 2)%Z eqn:Hv; cbn [negb].
    2:{ split; [discriminate|]. intros (_ & H & _). injection H as ->.
        discriminate Hv. }
    apply Z.eqb_eq in Hv. subst version.
    destruct (ModelLoader.getUint32 buffer 8 true) as [fileLength|].
    2:{ split; [discriminate|]. intros (_ & _ & (l & H & _) & _). discriminate H. }
    destruct (fileLength >? Z.of_nat (List.length buffer))%Z eqn:Hl.
    { split; [discriminate|]. intros (_ & _ & (l & H & Hle) & _).
      injection H as ->. apply Z.gtb_lt in Hl. lia. }
    destruct (ModelLoader.getUint32 buffer 16 true) as [chunkType|].
    2:{ split; [discriminate|]. intros (_ & _ & _ & H). discriminate H. }
    destruct (chunkType =? ModelLoader.chunk_JSON)%Z eqn:Hc; cbn [negb].
    2:{ split; [discriminate|]. intros (_ & _ & _ & H). injection H as ->.
        rewrite Z.eqb_refl in Hc. discriminate Hc. }
    apply Z.eqb_eq in Hc. subst chunkType.
    split; [|reflexivity]. intros _. repeat split.
    exists fileLength. split; [reflexivity|].
    destruct (Z.gtb_spec fileLength (Z.of_nat (List.length buffer))); [discriminate|lia].
  - intros magic H0 Hne. rewrite Hres, H0.
    apply Z.eqb_neq in Hne. now rewrite Hne.
  - intros version H0 H4 Hne. rewrite Hres, H0, Z.eqb_refl, H4.
    apply Z.eqb_neq in Hne. now rewrite Hne.
  - intros fileLength H0 H4 H8 Hgt. rewrite Hres, H0, Z.eqb_refl, H4, H8.
    cbn [Z.eqb Pos.eqb negb].
    destruct (Z.gtb_spec fileLength (Z.of_nat (List.length buffer))); [reflexivity|lia].
  - intros fileLength chunkType H0 H4 H8 Hle H16 Hne.
    rewrite Hres, H0, Z.eqb_refl, H4, H8, H16. cbn [Z.eqb Pos.eqb negb].
    destruct (Z.gtb_spec fileLength (Z.of_nat (List.length buffer))); [lia|].
    apply Z.eqb_neq in Hne. now rewrite Hne.
  - intros Hshort. rewrite Hres.
    assert (H16 : ModelLoader.getUint32 buffer 16 true = None).
    { unfold ModelLoader.getUint32.
      destruct (Nat.leb_spec (16 + 4) (List.length buffer)); [lia|reflexivity]. }
    rewrite H16.
    destruct (ModelLoader.getUint32 buffer 0 false) as [magic|]; [|reflexivity].
    destruct (negb (magic =? ModelLoader.magic_glTF)%Z); [reflexivity|].
    destruct (ModelLoader.getUint32 buffer 4 true) as [version|]; [|reflexivity].
    destruct (negb (version =? 2)%Z); [reflexivity|].
    destruct (ModelLoader.getUint32 buffer 8 true) as [fileLength|]; [|reflexivity].
    destruct (fileLength >? Z.of_nat (List.length buffer))%Z; reflexivity.
  - intros Hv. unfold ModelUploader.saveModelFile. fold result. now rewrite Hv.
Qed.

(** The amended C3 on a 20-byte buffer whose four fields are right. *)
Lemma C3_glb_validation_witness :
  let buffer := [x67; x6c; x54; x46; x02; x00; x00; x00; x14; x00; x00; x00;
                 x00; x00; x00; x00; x4a; x53; x4f; x4e] in
  ModelLoader.valid
    (ModelLoader.validateGlbFile
       (ModelLoader.mkFile (Str.str "stadium.glb") (Some buffer))) = true.
Proof.
  intro buffer.
  apply (proj1 (C3_glb_validation (Str.str "stadium.glb") buffer
                  ltac:(vm_compute; reflexivity))).
  repeat split; try (vm_compute; reflexivity).
  exists 20%Z. split; vm_compute; [reflexivity|discriminate].
Defined.

(** ** Conversion of decimal numerals *)

Section Rounding.

Let prec := FloatOps.prec.
Let emax := FloatOps.emax.

Lemma shr_1_nonneg (mrs : shr_record) :
  (0 <= shr_m mrs)%Z -> (0 <= shr_m (shr_1 mrs))%Z.
Proof.
  destruct mrs as [m r s]. destruct m as [|p|p]; cbn [shr_m]; intros H.
  - cbn. lia.
  - destruct p; cbn; lia.
  - lia.
Qed.

Lemma iter_shr_1_nonneg (p : positive) :
  forall mrs, (0 <= shr_m mrs)%Z -> (0 <= shr_m (iter_pos shr_1 p mrs))%Z.
Proof.
  induction p as [p IH|p IH|]; intros mrs H; cbn [iter_pos].
  - apply IH, IH, shr_1_nonneg, H.
  - apply IH, IH, H.
  - apply shr_1_nonneg, H.
Qed.

Lemma shr_fexp_nonneg (m e : Z) (l : location) :
  (0 <= m)%Z -> (0 <= shr_m (fst (shr_fexp prec emax m e l)))%Z.
Proof.
  intros H. unfold shr_fexp, shr.
  assert (H0 : (0 <= shr_m (shr_record_of_loc m l))%Z)
    by (destruct l as [|[| |]]; exact H).
  destruct (fexp prec emax (Zdigits2 m + e) - e)%Z; cbn [fst]; try exact H0.
  apply iter_shr_1_nonneg, H0.
Qed.

Lemma round_nearest_even_nonneg (m : Z) (l : location) :
  (0 <= m)%Z -> (0 <= round_nearest_even m l)%Z.
Proof.
  intros H. destruct l as [|[| |]]; cbn [round_nearest_even]; try lia.
  destruct (Z.even m); lia.
Qed.

(** Rounding a non-negative mantissa never gives [NaN]. *)
Lemma binary_round_aux_not_nan (sx : bool) (mx ex : Z) (lx : location) :
  (0 <= mx)%Z -> JS.isNaN (binary_round_aux prec emax sx mx ex lx) = false.
Proof.
  intros H. unfold binary_round_aux.
  pose proof (shr_fexp_nonneg mx ex lx H) as H1.
  destruct (shr_fexp prec emax mx ex lx) as [mrs' e']. cbn [fst] in H1.
  pose proof (shr_fexp_nonneg
                (round_nearest_even (shr_m mrs') (loc_of_shr_record mrs')) e'
                loc_Exact (round_nearest_even_nonneg _ _ H1)) as H2.
  destruct (shr_fexp prec emax _ e' loc_Exact) as [mrs'' e'']. cbn [fst] in H2.
  destruct (shr_m mrs'') as [|m|m]; [reflexivity| |lia].
  destruct (e'' <=? emax - prec)%Z; reflexivity.
Qed.

Lemma decimalValue_not_nan (neg : bool) (n : N) (k : Z) :
  JS.isNaN (ParseFloat.decimalValue neg n k) = false.
Proof.
  unfold ParseFloat.decimalValue. destruct n as [|m]; [reflexivity|].
  destruct k as [|d|d].
  - unfold binary_normalize. 
    destruct (cond_Zopp neg (Z.pos m * 10 ^ 0)) as [|q|q]; [reflexivity| |];
      unfold binary_round;
      destruct (shl_align q 0 _) as [mz ez];
      now apply binary_round_aux_not_nan.
  - unfold binary_normalize.
    destruct (cond_Zopp neg (Z.pos m * 10 ^ Z.pos d)) as [|q|q]; [reflexivity| |];
      unfold binary_round;
      destruct (shl_align q 0 _) as [mz ez];
      now apply binary_round_aux_not_nan.
  - unfold SFdiv, SFdiv_core_binary.
    set (m' := match (0 - 0 - _)%Z with Z.pos _ => _ | _ => _ end).
    assert (Hm' : (0 <= m')%Z).
    { subst m'. destruct (0 - 0 - _)%Z; try lia. apply Z.shiftl_nonneg. lia. }
    pose proof (Z.div_eucl_eq m' (Z.pos (10 ^ d)) ltac:(lia)) as Heq.
    pose proof (Z.mod_pos_bound m' (Z.pos (10 ^ d)) ltac:(lia)) as Hr.
    pose proof (Z.div_pos m' (Z.pos (10 ^ d)) Hm' ltac:(lia)) as Hq.
    unfold Z.modulo in Hr. unfold Z.div in Hq.
    destruct (Z.div_eucl m' (Z.pos (10 ^ d))) as [q r].
    now apply binary_round_aux_not_nan.
Qed.

End Rounding.

Lemma digits_head (s : Str.t) :
  match s with
  | c :: _ => if Str.is_digit c then fst (ParseFloat.digits s) <> []
              else ParseFloat.digits s = ([], s)
  | [] => ParseFloat.digits s = ([], [])
  end.
Proof.
  destruct s as [|c s]; [reflexivity|]. cbn [ParseFloat.digits].
  destruct (Str.is_digit c); [|reflexivity].
  destruct (ParseFloat.digits s). discriminate.
Qed.

(** The digits of a literal are found exactly where a numeral starts. *)
Lemma mantissa_none (u : Str.t) :
  Str.stripPrefix (Str.str "Infinity") u = None ->
  (ParseFloat.mantissa u = None <-> VectorSyntax.unsignedNumeral u = false).
Proof.
  intros Hinf. unfold VectorSyntax.unsignedNumeral, ParseFloat.mantissa.
  rewrite Hinf. cbn [RegExp.isSome orb].
  pose proof (digits_head u) as Hu.
  destruct u as [|c u'].
  - rewrite Hu. split; reflexivity.
  - destruct (Str.is_digit c) eqn:Hc; cbn [orb].
    + destruct (ParseFloat.digits (c :: u')) as [int rest]. cbn [fst] in Hu.
      split; [|discriminate]. intros H. exfalso.
      destruct rest as [|r rest']; [destruct int; [congruence|discriminate]|].
      destruct (Ascii.eqb r ".").
      * destruct (ParseFloat.digits rest') as [frac rest''].
        destruct int; [congruence|discriminate].
      * destruct int; [congruence|discriminate].
    + rewrite Hu. destruct (Ascii.eqb c ".") eqn:Hp; cbn [andb]; [|tauto].
      pose proof (digits_head u') as Hu'. cbn [app].
      destruct u' as [|d u''].
      * rewrite Hu'. split; reflexivity.
      * destruct (Str.is_digit d).
        -- destruct (ParseFloat.digits (d :: u'')) as [frac rest'']. cbn [fst] in Hu'.
           destruct frac; [congruence|]. split; discriminate.
        -- rewrite Hu'. split; reflexivity.
Qed.

Lemma unsignedLiteral_nan (neg : bool) (u : Str.t) :
  JS.isNaN (ParseFloat.unsignedLiteral neg u) = negb (VectorSyntax.unsignedNumeral u).
Proof.
  unfold ParseFloat.unsignedLiteral.
  destruct (Str.stripPrefix (Str.str "Infinity") u) as [r|] eqn:Hinf.
  - unfold VectorSyntax.unsignedNumeral. rewrite Hinf. reflexivity.
  - pose proof (mantissa_none u Hinf) as Hm.
    destruct (ParseFloat.mantissa u) as [[ds k]|].
    + rewrite decimalValue_not_nan.
      destruct (VectorSyntax.unsignedNumeral u); [reflexivity|].
      destruct Hm as [_ Hm]. discriminate (Hm eq_refl).
    + destruct Hm as [Hm _]. now rewrite (Hm eq_refl).
Qed.

(** [parseFloat] gives [NaN] exactly on the strings that do not start with a
    numeral. *)
Lemma parseFloat_nan (s : Str.t) :
  JS.isNaN (ParseFloat.parseFloat s) = negb (VectorSyntax.startsWithNumeral s).
Proof.
  unfold ParseFloat.parseFloat, VectorSyntax.startsWithNumeral.
  destruct (Str.trimStart s) as [|c s']; [reflexivity|].
  destruct (Ascii.eqb c "-"); cbn [orb]; [apply unsignedLiteral_nan|].
  destruct (Ascii.eqb c "+"); apply unsignedLiteral_nan.
Qed.

(** ** Strings and the matcher *)

Lemma stripPrefix_app (prefix rest : Str.t) :
  Str.stripPrefix prefix (prefix ++ rest) = Some rest.
Proof.
  induction prefix as [|p prefix IH]; [reflexivity|].
  cbn. now rewrite Ascii.eqb_refl.
Qed.

Lemma stripPrefix_some (prefix s rest : Str.t) :
  Str.stripPrefix prefix s = Some rest -> s = (prefix ++ rest)%list.
Proof.
  revert s. induction prefix as [|p prefix IH]; intros s H.
  - now injection H as ->.
  - destruct s as [|c s]; [discriminate|]. cbn in H.
    destruct (Ascii.eqb p c) eqn:E; [|discriminate].
    apply Ascii.eqb_eq in E. subst c. cbn. f_equal. now apply IH.
Qed.

Lemma includes_app (needle before rest : Str.t) :
  Str.includes needle (before ++ needle ++ rest) = true.
Proof.
  induction before as [|c before IH].
  - cbn [app]. destruct (needle ++ rest)%list eqn:E;
      cbn [Str.includes]; rewrite <- ?E, stripPrefix_app; reflexivity.
  - cbn [app Str.includes].
    destruct (Str.stripPrefix needle (c :: before ++ needle ++ rest));
      [reflexivity|exact IH].
Qed.

(** A literal prefix of a pattern matches by comparison. *)
Lemma matchHere_literal (lit : Str.t) (pat : RegExp.pattern) (s : Str.t) :
  RegExp.matchHere (map RegExp.Chr lit ++ pat) s
  = match Str.stripPrefix lit s with
    | Some rest => RegExp.matchHere pat rest
    | None => None
    end.
Proof.
  revert s. induction lit as [|c lit IH]; intros s; [reflexivity|].
  cbn [map app RegExp.matchHere Str.stripPrefix].
  destruct s as [|x s]; [reflexivity|].
  rewrite (Ascii.eqb_sym c x). destruct (Ascii.eqb x c); [apply IH|reflexivity].
Qed.

Lemma star_sound {A : Type} (p : ascii -> bool) (k : Str.t -> option A)
  (s : Str.t) (r : A) :
  RegExp.star p k s = Some r ->
  exists run rest, s = (run ++ rest)%list /\ forallb p run = true /\ k rest = Some r.
Proof.
  induction s as [|c s IH]; cbn [RegExp.star]; intros H.
  - now exists [], [].
  - destruct (p c) eqn:Hc; [|now exists [], (c :: s)].
    destruct (RegExp.star p k s) as [r'|]; [|now exists [], (c :: s)].
    destruct (IH H) as (run & rest & -> & Hrun & Hk).
    exists (c :: run), rest. cbn. now rewrite Hc.
Qed.

(** A run that ends where the class ends is taken whole when the
    continuation accepts what follows it. *)
Lemma star_complete {A : Type} (p : ascii -> bool) (k : Str.t -> option A)
  (run rest : Str.t) (r : A) :
  forallb p run = true ->
  match rest with c :: _ => p c = false | [] => True end ->
  k rest = Some r ->
  RegExp.star p k (run ++ rest) = Some r.
Proof.
  intros Hrun Hrest Hk. induction run as [|c run IH]; cbn [app].
  - destruct rest as [|c rest]; cbn [RegExp.star]; [exact Hk|].
    now rewrite Hrest.
  - cbn in Hrun. apply andb_true_iff in Hrun. destruct Hrun as [Hc Hrun].
    cbn [RegExp.star]. rewrite Hc, (IH Hrun). reflexivity.
Qed.

Lemma starCapture_sound (p : ascii -> bool) (k : Str.t -> bool) (s run : Str.t) :
  RegExp.starCapture p k s = Some run ->
  exists rest, s = (run ++ rest)%list /\ forallb p run = true /\ k rest = true.
Proof.
  revert run. induction s as [|c s IH]; cbn [RegExp.starCapture]; intros run H.
  - destruct (k []) eqn:Hk; [|discriminate]. injection H as <-. now exists [].
  - destruct (p c) eqn:Hc.
    + destruct (RegExp.starCapture p k s) as [run'|].
      * injection H as <-. destruct (IH run' eq_refl) as (rest & -> & Hrun & Hk).
        exists rest. cbn. now rewrite Hc.
      * destruct (k (c :: s)) eqn:Hk; [|discriminate]. injection H as <-.
        now exists (c :: s).
    + destruct (k (c :: s)) eqn:Hk; [|discriminate]. injection H as <-.
      now exists (c :: s).
Qed.

Lemma starCapture_complete (p : ascii -> bool) (k : Str.t -> bool)
  (run rest : Str.t) :
  forallb p run = true ->
  match rest with c :: _ => p c = false | [] => True end ->
  k rest = true ->
  RegExp.starCapture p k (run ++ rest) = Some run.
Proof.
  intros Hrun Hrest Hk. induction run as [|c run IH]; cbn [app].
  - destruct rest as [|c rest]; cbn [RegExp.starCapture]; [now rewrite Hk|].
    now rewrite Hrest, Hk.
  - cbn in Hrun. apply andb_true_iff in Hrun. destruct Hrun as [Hc Hrun].
    cbn [RegExp.starCapture]. rewrite Hc, (IH Hrun). reflexivity.
Qed.

(** ** The vector pattern *)

Lemma matchHere_vectorPattern (s : Str.t) :
  RegExp.matchHere SeatCoordinateParser.vectorPattern s
  = match Str.stripPrefix (Str.str "<Vector") s with
    | Some rest =>
        RegExp.star Str.is_space
          (RegExp.matchHere
             [RegExp.Chr "("; RegExp.GroupPlus SeatCoordinateParser.inClass;
              RegExp.Chr ")"; RegExp.Chr ">"]) rest
    | None => None
    end.
Proof.
  unfold SeatCoordinateParser.vectorPattern, RegExp.literal.
  rewrite matchHere_literal. reflexivity.
Qed.

(** The pattern matches at the start of [s] only if a record starts there. *)
Lemma matchHere_sound (s group : Str.t) :
  RegExp.matchHere SeatCoordinateParser.vectorPattern s = Some group ->
  VectorSyntax.recordAt s group.
Proof.
  rewrite matchHere_vectorPattern.
  destruct (Str.stripPrefix (Str.str "<Vector") s) as [r1|] eqn:Hp; [|discriminate].
  apply stripPrefix_some in Hp. intros H.
  apply star_sound in H. destruct H as (ws & t & -> & Hws & H).
  cbn [RegExp.matchHere] in H.
  destruct t as [|x t']; [discriminate|].
  destruct (Ascii.eqb x "(") eqn:Hx; [|discriminate].
  apply Ascii.eqb_eq in Hx. subst x.
  destruct t' as [|y t'']; [discriminate|].
  destruct (SeatCoordinateParser.inClass y) eqn:Hy; [|discriminate].
  destruct (RegExp.starCapture _ _ t'') as [run|] eqn:Hc; [|discriminate].
  injection H as <-.
  apply starCapture_sound in Hc. destruct Hc as (rest & -> & Hrun & Hk).
  destruct rest as [|c1 rest]; [discriminate|].
  destruct (Ascii.eqb c1 ")") eqn:H1; [|discriminate].
  apply Ascii.eqb_eq in H1. subst c1.
  destruct rest as [|c2 rest]; [discriminate|].
  destruct (Ascii.eqb c2 ">") eqn:H2; [|discriminate].
  apply Ascii.eqb_eq in H2. subst c2.
  exists ws, rest. repeat split.
  - exact Hp.
  - exact Hws.
  - discriminate.
  - cbn. now rewrite Hy.
Qed.

(** The pattern matches wherever a record starts, and captures its group. *)
Lemma matchHere_complete (s group : Str.t) :
  VectorSyntax.recordAt s group ->
  RegExp.matchHere SeatCoordinateParser.vectorPattern s = Some group.
Proof.
  intros (ws & rest & -> & Hws & Hne & Hg).
  rewrite matchHere_vectorPattern, stripPrefix_app.
  apply star_complete; [exact Hws|reflexivity|].
  destruct group as [|y run]; [contradiction|].
  cbn in Hg. apply andb_true_iff in Hg. destruct Hg as [Hy Hrun].
  cbn [RegExp.matchHere app]. rewrite Ascii.eqb_refl, Hy.
  rewrite starCapture_complete; [reflexivity|exact Hrun|reflexivity|reflexivity].
Qed.

Lemma search_none (s : Str.t) :
  RegExp.search SeatCoordinateParser.vectorPattern s = None ->
  VectorSyntax.noRecord s.
Proof.
  induction s as [|c s IH]; cbn [RegExp.search]; intros H before after group Heq Hrec.
  - destruct before; [|discriminate]. cbn in Heq. subst after.
    apply matchHere_complete in Hrec. rewrite Hrec in H. discriminate.
  - destruct (RegExp.matchHere _ (c :: s)) as [g|] eqn:Hm; [discriminate|].
    destruct before as [|b before]; cbn in Heq.
    + subst after. apply matchHere_complete in Hrec. congruence.
    + injection Heq as -> ->. exact (IH H before after group eq_refl Hrec).
Qed.

Lemma search_some (s group : Str.t) :
  RegExp.search SeatCoordinateParser.vectorPattern s = Some group ->
  VectorSyntax.firstRecord s group.
Proof.
  induction s as [|c s IH]; cbn [RegExp.search]; intros H.
  - destruct (RegExp.matchHere _ []) as [g|] eqn:Hm; [|discriminate].
    injection H as ->. exists [], []. repeat split.
    + now apply matchHere_sound.
    + intros b a g _ Hlt. cbn in Hlt. lia.
  - destruct (RegExp.matchHere _ (c :: s)) as [g|] eqn:Hm.
    + injection H as ->. exists [], (c :: s). repeat split.
      * now apply matchHere_sound.
      * intros b a g _ Hlt. cbn in Hlt. lia.
    + destruct (IH H) as (before & after & -> & Hrec & Hmin).
      exists (c :: before), after. repeat split; [exact Hrec|].
      intros b a g Heq Hlt Hr. destruct b as [|b0 b]; cbn in Heq.
      * subst a. apply matchHere_complete in Hr. congruence.
      * injection Heq as -> Heq. apply (Hmin b a g Heq); [|exact Hr].
        cbn in Hlt. lia.
Qed.

(** The search finds the leftmost record. *)
Lemma search_first (s group : Str.t) :
  VectorSyntax.firstRecord s group ->
  RegExp.search SeatCoordinateParser.vectorPattern s = Some group.
Proof.
  intros (before & after & -> & Hrec & Hmin).
  induction before as [|c before IH].
  - cbn [app]. apply matchHere_complete in Hrec.
    destruct after; cbn [RegExp.search]; now rewrite Hrec.
  - cbn [app RegExp.search].
    destruct (RegExp.matchHere _ (c :: before ++ after)) as [g|] eqn:Hm.
    + apply matchHere_sound in Hm. exfalso.
      apply (Hmin [] (c :: before ++ after)%list g eq_refl); [cbn; lia|exact Hm].
    + apply IH. intros b a g Heq Hlt.
      apply (Hmin (c :: b) a g); [cbn; now rewrite Heq|cbn; lia].
Qed.

Lemma noRecord_search (s : Str.t) :
  VectorSyntax.noRecord s ->
  RegExp.search SeatCoordinateParser.vectorPattern s = None.
Proof.
  intros H. destruct (RegExp.search _ s) as [g|] eqn:Hs; [|reflexivity].
  apply search_some in Hs. destruct Hs as (before & after & Heq & Hrec & _).
  exfalso. exact (H before after g Heq Hrec).
Qed.

(** ** The coordinate parser *)

Lemma split_nonempty (sep : ascii) (s : Str.t) : Str.split sep s <> [].
Proof.
  destruct s as [|c s]; cbn [Str.split]; [discriminate|].
  destruct (Ascii.eqb c sep); [discriminate|].
  destruct (Str.split sep s); discriminate.
Qed.

(** Splitting distributes over a separator. *)
Lemma split_app (sep : ascii) (a b : Str.t) :
  Str.split sep (a ++ sep :: b) = (Str.split sep a ++ Str.split sep b)%list.
Proof.
  induction a as [|c a IH]; cbn [app Str.split].
  - now rewrite Ascii.eqb_refl.
  - destruct (Ascii.eqb c sep); [now rewrite IH|].
    rewrite IH. pose proof (split_nonempty sep a) as Hne.
    destruct (Str.split sep a) as [|piece pieces]; [contradiction|reflexivity].
Qed.

Lemma fold_push (lines : list Str.t) :
  forall coordinates : list Point3,
    fold_left
      (fun coordinates line =>
         match SeatCoordinateParser.lineCoordinates line with
         | Some coord => (coordinates ++ [coord])%list
         | None => coordinates
         end) lines coordinates
    = (coordinates ++ flat_map VectorSyntax.contribution lines)%list.
Proof.
  induction lines as [|line lines IH]; intros coordinates; cbn [fold_left flat_map].
  - now rewrite app_nil_r.
  - rewrite IH. unfold VectorSyntax.contribution at 2.
    destruct (SeatCoordinateParser.lineCoordinates line);
      [now rewrite <- app_assoc|reflexivity].
Qed.

(** The parser is the concatenation, in line order, of what the lines
    contribute. *)
Lemma parse_lines (text : Str.t) :
  SeatCoordinateParser.parseVectorCoordinates text
  = flat_map VectorSyntax.contribution (Str.split Str.newline text).
Proof.
  unfold SeatCoordinateParser.parseVectorCoordinates.
  destruct text as [|c text]; [reflexivity|]. now rewrite fold_push.
Qed.

Lemma line_without_record (line : Str.t) :
  VectorSyntax.noRecord (Str.trim line) ->
  SeatCoordinateParser.lineCoordinates line = None.
Proof.
  intros H. unfold SeatCoordinateParser.lineCoordinates.
  rewrite (noRecord_search _ H).
  destruct (Str.trim line); [reflexivity|].
  destruct (negb _); reflexivity.
Qed.

Lemma line_with_record (line group : Str.t) :
  VectorSyntax.firstRecord (Str.trim line) group ->
  SeatCoordinateParser.lineCoordinates line
  = match VectorSyntax.fieldsOf group with
    | [p0; p1; p2] => Some {| px := p0; py := p1; pz := p2 |}
    | _ => None
    end.
Proof.
  intros H. unfold SeatCoordinateParser.lineCoordinates.
  rewrite (search_first _ _ H).
  destruct H as (before & after & Heq & (ws & rest & -> & _ & Hne & _) & _).
  assert (Hinc : Str.includes (Str.str "<Vector") (Str.trim line) = true)
    by (rewrite Heq; apply includes_app).
  rewrite Hinc. cbn [negb].
  destruct (Str.trim line) as [|c l]; [destruct before; discriminate|].
  destruct group as [|g0 group]; [contradiction|]. reflexivity.
Qed.

Lemma line_result (line : Str.t) (p : Point3) :
  SeatCoordinateParser.lineCoordinates line = Some p ->
  exists group a b c,
    VectorSyntax.firstRecord (Str.trim line) group
    /\ Str.split "," group = [a; b; c]
    /\ p = {| px := ParseFloat.parseFloat (Str.trim a);
              py := ParseFloat.parseFloat (Str.trim b);
              pz := ParseFloat.parseFloat (Str.trim c) |}.
Proof.
  unfold SeatCoordinateParser.lineCoordinates. intros H.
  destruct (Str.trim line) as [|c0 l] eqn:Ht; [discriminate|].
  destruct (negb _); [discriminate|].
  destruct (RegExp.search _ (c0 :: l)) as [group|] eqn:Hs; [|discriminate].
  apply search_some in Hs. exists group.
  destruct group as [|g0 group]; [discriminate|].
  destruct (Str.split "," (g0 :: group)) as [|a [|b [|c [|d parts]]]];
    try discriminate.
  cbn [map] in H. injection H as <-. now exists a, b, c.
Qed.

(** Every string holds a leftmost record or none. *)
Lemma record_or_none (s : Str.t) :
  VectorSyntax.noRecord s \/ exists group, VectorSyntax.firstRecord s group.
Proof.
  destruct (RegExp.search SeatCoordinateParser.vectorPattern s) as [g|] eqn:H.
  - right. exists g. now apply search_some.
  - left. now apply search_none.
Qed.

(** What the parser returns, in terms of what its pattern accepts: in the
    order of the lines, what each line contributes; a line whose trimmed
    text holds no accepted run contributes nothing; a line that holds one
    contributes the triple of [parseFloat] of the fields of the leftmost run
    when it has three comma-separated fields, and nothing when it has
    another number of fields; every line is of one of the two kinds; a text
    without any accepted run, the empty text among them, gives the empty
    sequence; and the scenario text gives its two coordinates, in order. *)
Lemma parser_extracts_accepted_runs :
  (forall text,
      SeatCoordinateParser.parseVectorCoordinates text
      = flat_map VectorSyntax.contribution (Str.split Str.newline text))
  /\ (forall line,
         VectorSyntax.noRecord (Str.trim line) ->
         VectorSyntax.contribution line = [])
  /\ (forall line group,
         VectorSyntax.firstRecord (Str.trim line) group ->
         VectorSyntax.contribution line
         = match VectorSyntax.fieldsOf group with
           | [x; y; z] => [{| px := x; py := y; pz := z |}]
           | _ => []
           end)
  /\ (forall line,
         VectorSyntax.noRecord (Str.trim line)
         \/ exists group, VectorSyntax.firstRecord (Str.trim line) group)
  /\ (forall t1 t2,
         SeatCoordinateParser.parseVectorCoordinates (t1 ++ Str.newline :: t2)
         = (SeatCoordinateParser.parseVectorCoordinates t1
            ++ SeatCoordinateParser.parseVectorCoordinates t2)%list)
  /\ (forall text,
         (forall line, In line (Str.split Str.newline text) ->
                       VectorSyntax.noRecord (Str.trim line)) ->
         SeatCoordinateParser.parseVectorCoordinates text = [])
  /\ SeatCoordinateParser.parseVectorCoordinates [] = []
  /\ SeatCoordinateParser.parseVectorCoordinates VectorSyntax.scenario
     = [ {| px := JS.lit (-0.4); py := JS.lit (-0.5); pz := JS.lit (-0.3) |};
         {| px := JS.lit 0.2; py := JS.lit 0.1; pz := JS.lit 0.4 |} ].
Proof.
  repeat match goal with |- _ /\ _ => split end.
  - exact parse_lines.
  - intros line H. unfold VectorSyntax.contribution.
    now rewrite (line_without_record _ H).
  - intros line group H. unfold VectorSyntax.contribution.
    rewrite (line_with_record _ _ H).
    destruct (VectorSyntax.fieldsOf group) as [|x [|y [|z [|w l]]]]; reflexivity.
  - intro line. apply record_or_none.
  - intros t1 t2. rewrite !parse_lines, split_app. apply flat_map_app.
  - intros text H. rewrite parse_lines.
    induction (Str.split Str.newline text) as [|line lines IH]; [reflexivity|].
    cbn [flat_map]. unfold VectorSyntax.contribution at 1.
    rewrite (line_without_record line (H line (or_introl eq_refl))).
    apply IH. intros l Hl. apply H. now right.
  - reflexivity.
  - vm_compute. reflexivity.
Qed.


(** *** Lines that are not records *)

Lemma forallb_rev {A : Type} (f : A -> bool) (l : list A) :
  forallb f (rev l) = forallb f l.
Proof.
  induction l as [|a l IH]; [reflexivity|].
  cbn [rev forallb]. rewrite forallb_app, IH. cbn [forallb].
  rewrite andb_true_r. apply andb_comm.
Qed.

Lemma split_without_separator (sep : ascii) (s : Str.t) :
  forallb (fun c => negb (Ascii.eqb c sep)) s = true -> Str.split sep s = [s].
Proof.
  induction s as [|c s IH]; [reflexivity|]. cbn [forallb Str.split].
  intros H. apply andb_true_iff in H. destruct H as [Hc Hs].
  apply negb_true_iff in Hc. rewrite Hc, (IH Hs). reflexivity.
Qed.

Lemma forallb_trimStart {P : ascii -> bool} (s : Str.t) :
  (forall c, Str.is_space c = true -> P c = true) ->
  forallb P (Str.trimStart s) = true -> forallb P s = true.
Proof.
  intros Hsp. induction s as [|c s IH]; [reflexivity|].
  cbn [Str.trimStart forallb]. destruct (Str.is_space c) eqn:Hc.
  - intros H. rewrite (Hsp c Hc). exact (IH H).
  - cbn [forallb]. tauto.
Qed.

Lemma forallb_trim {P : ascii -> bool} (s : Str.t) :
  (forall c, Str.is_space c = true -> P c = true) ->
  forallb P (Str.trim s) = true -> forallb P s = true.
Proof.
  intros Hsp H. unfold Str.trim, Str.trimEnd in H.
  apply (forallb_trimStart s Hsp).
  rewrite <- (rev_involutive (Str.trimStart s)).
  rewrite forallb_rev. apply (forallb_trimStart _ Hsp).
  now rewrite forallb_rev in H.
Qed.

Lemma signedDecimal_no_comma (s : Str.t) :
  RecordSpec.signedDecimal s = true ->
  forallb (fun c => negb (Ascii.eqb c ",")) s = true.
Proof.
  unfold RecordSpec.signedDecimal. intros H.
  apply andb_true_iff in H. destruct H as [H _].
  apply andb_true_iff in H. destruct H as [H _].
  assert (Hu : forall u,
             forallb (fun c => Str.is_digit c || Ascii.eqb c ".") u = true ->
             forallb (fun c => negb (Ascii.eqb c ",")) u = true).
  { induction u as [|c u IH]; [reflexivity|]. cbn [forallb].
    intros K. apply andb_true_iff in K. destruct K as [Kc Ku].
    rewrite (IH Ku), andb_true_r.
    destruct (Ascii.eqb_spec c ",") as [->|_]; [discriminate Kc|reflexivity]. }
  destruct s as [|c s]; [reflexivity|].
  destruct (Ascii.eqb c "-" || Ascii.eqb c "+") eqn:Hs; [|exact (Hu _ H)].
  cbn [forallb]. rewrite (Hu _ H), andb_true_r.
  destruct (Ascii.eqb_spec c ",") as [->|_]; [discriminate Hs|reflexivity].
Qed.

Lemma field_no_comma (f : Str.t) :
  RecordSpec.field f = true ->
  forallb (fun c => negb (Ascii.eqb c ",")) f = true.
Proof.
  intros H. apply forallb_trim; [|now apply signedDecimal_no_comma].
  intros c Hc. destruct (Ascii.eqb_spec c ",") as [->|_];
    [discriminate Hc|reflexivity].
Qed.

(** A line with a record of three numbers has the second number as one of
    its comma-separated pieces, with a piece before it and a piece behind. *)
Lemma numeric_record_middle_field (line : Str.t) :
  RecordSpec.holdsNumericRecord line ->
  exists l1 y l3,
    Str.split "," line = (l1 ++ y :: l3)%list
    /\ l1 <> [] /\ l3 <> [] /\ RecordSpec.field y = true.
Proof.
  intros (before & ws & x & y & z & rest & -> & _ & _ & Hy & _).
  exists (Str.split "," (before ++ Str.str "<Vector" ++ ws ++ "("%char :: x)), y,
    (Str.split "," (z ++ ")"%char :: ">"%char :: rest)).
  repeat split; try apply split_nonempty; [|exact Hy].
  replace (before ++ Str.str "<Vector" ++ ws
           ++ "("%char :: x ++ ","%char :: y ++ ","%char :: z
           ++ ")"%char :: ">"%char :: rest)%list
    with ((before ++ Str.str "<Vector" ++ ws ++ "("%char :: x)
          ++ ","%char :: (y ++ ","%char :: z ++ ")"%char :: ">"%char :: rest))%list
    by (rewrite <- !app_assoc; reflexivity).
  rewrite !split_app.
  now rewrite (split_without_separator "," y (field_no_comma y Hy)).
Qed.

Lemma three_pieces_middle (a b c y : Str.t) (l1 l3 : list Str.t) :
  [a; b; c] = (l1 ++ y :: l3)%list -> l1 <> [] -> l3 <> [] -> y = b.
Proof.
  intros H H1 H3. destruct l1 as [|p [|q l1]]; [contradiction| |].
  - cbn in H. now injection H.
  - cbn in H. injection H as _ _ H. destruct l1 as [|r l1]; cbn in H.
    + injection H as _ H. subst l3. contradiction.
    + injection H as _ H. destruct l1; discriminate H.
Qed.

(** C8: the line [<Vector (,,)>] is not of the form [<Vector (x, y, z)>] with
    three numbers, and the parser does not skip it: it returns one
    coordinate, whose three components are [NaN].  Likewise the line
    [<Vector (1 2, 3-4, 5.6.7)>] holds no record of three numbers and gives
    the coordinate [(1, 3, 5.6)]. *)
Theorem C8_garbled_record_is_not_skipped :
  ~ RecordSpec.holdsNumericRecord (Str.str "<Vector (,,)>")
  /\ SeatCoordinateParser.parseVectorCoordinates (Str.str "<Vector (,,)>")
     = [ {| px := JS.NaN; py := JS.NaN; pz := JS.NaN |} ]
  /\ ~ RecordSpec.holdsNumericRecord (Str.str "<Vector (1 2, 3-4, 5.6.7)>")
  /\ SeatCoordinateParser.parseVectorCoordinates
       (Str.str "<Vector (1 2, 3-4, 5.6.7)>")
     = [ {| px := Lit.n1; py := JS.lit 3; pz := JS.lit 5.6 |} ].
Proof.
  split; [|split; [vm_compute; reflexivity|split; [|vm_compute; reflexivity]]].
  - intros H. apply numeric_record_middle_field in H.
    destruct H as (l1 & y & l3 & Hs & H1 & H3 & Hy).
    vm_compute in Hs. rewrite (three_pieces_middle _ _ _ _ _ _ Hs H1 H3) in Hy.
    vm_compute in Hy. discriminate Hy.
  - intros H. apply numeric_record_middle_field in H.
    destruct H as (l1 & y & l3 & Hs & H1 & H3 & Hy).
    vm_compute in Hs. rewrite (three_pieces_middle _ _ _ _ _ _ Hs H1 H3) in Hy.
    vm_compute in Hy. discriminate Hy.
Qed.

(** ** Non-finite coordinates *)

(** C9: the parser returns components that are not finite: the line
    [<Vector (1, , 3)>] gives a point whose [y] is [NaN], and a line whose
    first field is 1 followed by 309 zeros gives a point whose [x] is
    [Infinity]. *)
Theorem C9_non_finite_component_is_returned :
  SeatCoordinateParser.parseVectorCoordinates (Str.str "<Vector (1, , 3)>")
  = [ {| px := Lit.n1; py := JS.NaN; pz := JS.lit 3 |} ]
  /\ JS.isFinite JS.NaN = false
  /\ SeatCoordinateParser.parseVectorCoordinates
       (Str.str "<Vector (1" ++ repeat "0"%char 309 ++ Str.str ", 2, 3)>")%list
     = [ {| px := JS.Infinity; py := Lit.n2; pz := JS.lit 3 |} ]
  /\ JS.isFinite JS.Infinity = false.
Proof. vm_compute. repeat split. Qed.

(** Where the components come from: every point the parser returns comes
    from a line of the text whose leftmost accepted run has three fields,
    and its components are [parseFloat] of the trimmed fields; a component
    is [NaN] exactly when its field does not start with a decimal numeral (an
    optional sign, then a digit, a point followed by a digit, or
    [Infinity]). *)
Lemma components_are_parsed_fields :
  (forall text p,
      In p (SeatCoordinateParser.parseVectorCoordinates text) ->
      exists line group a b c,
        In line (Str.split Str.newline text)
        /\ VectorSyntax.firstRecord (Str.trim line) group
        /\ Str.split "," group = [a; b; c]
        /\ p = {| px := ParseFloat.parseFloat (Str.trim a);
                  py := ParseFloat.parseFloat (Str.trim b);
                  pz := ParseFloat.parseFloat (Str.trim c) |})
  /\ (forall field,
         JS.isNaN (ParseFloat.parseFloat field)
         = negb (VectorSyntax.startsWithNumeral field)).
Proof.
  split; [|exact parseFloat_nan].
  intros text p Hin. rewrite parse_lines in Hin.
  apply in_flat_map in Hin. destruct Hin as (line & Hline & Hp).
  unfold VectorSyntax.contribution in Hp.
  destruct (SeatCoordinateParser.lineCoordinates line) as [q|] eqn:Hq;
    [|destruct Hp].
  destruct Hp as [<-|[]].
  destruct (line_result _ _ Hq) as (group & a & b & c & Hrec & Hsplit & Heq).
  now exists line, group, a, b, c.
Qed.

(** * Further properties of the code *)

(** ** Axis remaps *)

(** X1: the bulk remap swaps [y] and [z]: applied twice it gives the list back,
    and it keeps length and order. *)
Theorem convertToThreeCoordinates_involution :
  forall coordinates : list Point3,
    SeatCoordinateParser.convertToThreeCoordinates
      (SeatCoordinateParser.convertToThreeCoordinates coordinates) = coordinates
    /\ List.length (SeatCoordinateParser.convertToThreeCoordinates coordinates)
       = List.length coordinates
    /\ forall i c,
        nth_error coordinates i = Some c ->
        nth_error (SeatCoordinateParser.convertToThreeCoordinates coordinates) i
        = Some {| px := px c; py := pz c; pz := py c |}.
Proof.
  intro coordinates. unfold SeatCoordinateParser.convertToThreeCoordinates.
  repeat split.
  - rewrite map_map. cbn [px py pz].
    induction coordinates as [|[x y z] l IH]; [reflexivity|].
    cbn [map px py pz]. now rewrite IH.
  - apply length_map.
  - intros i c H. now rewrite nth_error_map, H.
Qed.

Lemma neg_involutive (a : JS.number) : - (- a) = a.
Proof. destruct a as [s|s| |s m e]; cbn; now rewrite ?negb_involutive. Qed.

(** X2: the Blender remap [(x, y, z) -> (x, z, -y)] is a quarter turn about the
    [x] axis: applied twice it negates [y] and [z], applied four times it is
    the identity.  Beside the bulk remap [(x, y, z) -> (x, z, y)] it gives
    the same [x] and [y], and a [z] that is [===] to the bulk remap's
    exactly when the [y] of the point is [+0] or [-0]: for every other [y],
    [NaN] included, the two remaps disagree. *)
Theorem convertBlenderToThreeCoordinates_quarter_turn :
  forall p : Point3,
    let f := ModelLoader.convertBlenderToThreeCoordinates in
    f (f p) = {| px := px p; py := - py p; pz := - pz p |}
    /\ f (f (f (f p))) = p
    /\ (forall q,
          SeatCoordinateParser.convertToThreeCoordinates [p] = [q] ->
          px (f p) = px q /\ py (f p) = py q
          /\ JS.strict_eq (pz (f p)) (pz q) = JS.is_zero (py p)).
Proof.
  intros [x y z] f. subst f. unfold ModelLoader.convertBlenderToThreeCoordinates.
  cbn [px py pz]. repeat split.
  - now rewrite !neg_involutive.
  - cbn in H. now injection H as <-.
  - cbn in H. now injection H as <-.
  - cbn in H. injection H as <-. cbn [pz]. unfold JS.strict_eq, SFeqb.
    destruct y as [s|s| |s m e]; try reflexivity; destruct s; reflexivity.
Qed.

Lemma convertBlender_witness :
  JS.strict_eq
    (pz (ModelLoader.convertBlenderToThreeCoordinates
           {| px := Lit.n1; py := Lit.n2; pz := Lit.n10 |}))
    Lit.n2 = false
  /\ JS.strict_eq
       (pz (ModelLoader.convertBlenderToThreeCoordinates
              {| px := Lit.n1; py := Lit.n0; pz := Lit.n10 |}))
       Lit.n0 = true.
Proof.
  split.
  - apply (proj2 (proj2 (proj2 (proj2 (convertBlenderToThreeCoordinates_quarter_turn
             {| px := Lit.n1; py := Lit.n2; pz := Lit.n10 |}))
             {| px := Lit.n1; py := Lit.n10; pz := Lit.n2 |} eq_refl))).
  - apply (proj2 (proj2 (proj2 (proj2 (convertBlenderToThreeCoordinates_quarter_turn
             {| px := Lit.n1; py := Lit.n0; pz := Lit.n10 |}))
             {| px := Lit.n1; py := Lit.n10; pz := Lit.n0 |} eq_refl))).
Defined.

(** ** From text to seats *)

Lemma coordinates_mapIndexed (seats : list Seat) :
  forall start,
    map coordinates (CoordinateLoader.mapIndexed CoordinateLoader.enhanceSeat start seats)
    = map coordinates seats.
Proof.
  induction seats as [|s seats IH]; intro start; [reflexivity|].
  cbn [CoordinateLoader.mapIndexed map]. now rewrite IH.
Qed.

Lemma originalIndex_mapIndexed (seats : list Seat) :
  forall start,
    map originalIndex
        (CoordinateLoader.mapIndexed CoordinateLoader.enhanceSeat start seats)
    = map JS.Defined (seq start (List.length seats)).
Proof.
  induction seats as [|s seats IH]; intro start; [reflexivity|].
  cbn [CoordinateLoader.mapIndexed map List.length seq]. now rewrite IH.
Qed.

Lemma coordinates_generated (coords : list Point3) :
  map coordinates (SeatCoordinateParser.generateSeatsFromCoordinates coords) = coords.
Proof.
  unfold SeatCoordinateParser.generateSeatsFromCoordinates. rewrite map_map.
  cbn [coordinates SeatCoordinateParser.generateSeat]. apply map_id.
Qed.

(** X3: both paths make one seat of every parsed coordinate, in order, at the
    axis-swapped coordinate; the file loader numbers its seats by position in
    [originalIndex], the bulk import leaves that property unset. *)
Theorem seats_follow_parsed_coordinates :
  forall text : Str.t,
    let parsed := SeatCoordinateParser.convertToThreeCoordinates
                    (SeatCoordinateParser.parseVectorCoordinates text) in
    (exists seats,
        CoordinateLoader.loadSeatsFromFile (CoordinateLoader.Response true (Some text))
        = CoordinateLoader.Resolved seats
        /\ map coordinates seats = parsed
        /\ map originalIndex seats
           = map JS.Defined (seq 0 (List.length parsed)))
    /\ map coordinates (SeatCoordinateParser.parseAndGenerateSeats text) = parsed
    /\ Forall (fun s => originalIndex s = JS.Undefined)
              (SeatCoordinateParser.parseAndGenerateSeats text).
Proof.
  intros text parsed. repeat split.
  - eexists. split; [reflexivity|]. unfold CoordinateLoader.enhanceSeats. split.
    + rewrite coordinates_mapIndexed. apply coordinates_generated.
    + rewrite originalIndex_mapIndexed. f_equal. f_equal.
      unfold SeatCoordinateParser.parseAndGenerateSeats,
        SeatCoordinateParser.generateSeatsFromCoordinates.
      now rewrite length_map.
  - apply coordinates_generated.
  - unfold SeatCoordinateParser.parseAndGenerateSeats,
      SeatCoordinateParser.generateSeatsFromCoordinates.
    apply Forall_map, Forall_forall. reflexivity.
Qed.

(** X4: [enhanceSeats] reads nothing but the coordinates of the seats it is
    given: the section, row, number and price that the basic generation
    computed never reach a seat loaded from the file. *)
Theorem enhanceSeats_reads_coordinates_only :
  forall basic1 basic2 : list Seat,
    map coordinates basic1 = map coordinates basic2 ->
    CoordinateLoader.enhanceSeats basic1 = CoordinateLoader.enhanceSeats basic2.
Proof.
  unfold CoordinateLoader.enhanceSeats. generalize 0%nat as start.
  intros start basic1. revert start.
  induction basic1 as [|s1 l1 IH]; intros start [|s2 l2] H; try discriminate H.
  - reflexivity.
  - cbn [map] in H. injection H as Hc Hl.
    cbn [CoordinateLoader.mapIndexed]. f_equal; [|now apply IH].
    unfold CoordinateLoader.enhanceSeat. now rewrite Hc.
Qed.

Lemma enhanceSeats_reads_coordinates_witness :
  CoordinateLoader.enhanceSeats
    [App.seat "A" Lit.n1 Lit.n1 Lit.n150 Lit.n1 Lit.n2 Lit.n10]
  = CoordinateLoader.enhanceSeats
      [App.seat "B" Lit.n2 Lit.n2 Lit.n100 Lit.n1 Lit.n2 Lit.n10].
Proof.
  apply enhanceSeats_reads_coordinates_only. reflexivity.
Defined.

(** ** Attributes of loaded seats *)

Lemma index_In {A : Type} (array : list A) (i : JS.number) (a : A) :
  CoordinateLoader.index array i = JS.Defined a -> In a array.
Proof.
  unfold CoordinateLoader.index. destruct i as [s|s| |s m e]; try discriminate.
  - destruct array as [|a0 l]; [discriminate|]. intros H. injection H as <-. now left.
  - destruct s; [discriminate|].
    destruct (JS.strict_eq _ _); [|discriminate].
    destruct (nth_error array _) as [a0|] eqn:Hn; [|discriminate].
    intros H. injection H as <-. eapply nth_error_In, Hn.
Qed.

(** X5: whatever the coordinates, [NaN] and infinities included, a seat loaded
    from the file costs 250, 200, 150, 120 or 100, and its section, when it
    has one, is a letter of the list of the quadrant that the signs of [x]
    and [y] select. *)
Theorem enhanced_seat_price_and_section :
  forall (seat : Seat) (i : nat),
    let s := CoordinateLoader.enhanceSeat seat i in
    let c := coordinates seat in
    In (price s) [Lit.n250; Lit.n200; Lit.n150; Lit.n120; Lit.n100]
    /\ forall letter,
        section s = JS.Defined letter ->
        In letter
           (CoordinateLoader.sectionMap
              (if px c <? Lit.n0
               then (if py c <? Lit.n0 then CoordinateLoader.bottomLeft
                     else CoordinateLoader.topLeft)
               else (if py c <? Lit.n0 then CoordinateLoader.bottomRight
                     else CoordinateLoader.topRight))).
Proof.
  intros seat i s c. split.
  - subst s. unfold CoordinateLoader.enhanceSeat. cbn [price].
    unfold CoordinateLoader.priceFor, CoordinateLoader.find,
      CoordinateLoader.priceTiers. cbn [List.find CoordinateLoader.maxDistance].
    repeat match goal with
           | |- context [if ?b then _ else _] => destruct b
           end; cbn; tauto.
  - intros letter H. subst s. unfold CoordinateLoader.enhanceSeat in H.
    cbn [section] in H. apply index_In in H. exact H.
Qed.

Lemma enhanced_seat_section_witness :
  In "H"%string
     (CoordinateLoader.sectionMap CoordinateLoader.bottomLeft).
Proof.
  apply (proj2 (enhanced_seat_price_and_section
                  (App.seat "A" Lit.n1 Lit.n1 Lit.n150
                     (JS.lit (-0.4)) (JS.lit (-0.3)) Lit.n0) 0) "H"%string).
  vm_compute. reflexivity.
Defined.

Lemma add_nan_r (a : JS.number) : a + JS.NaN = JS.NaN.
Proof. destruct a as [s|s| |s m e]; reflexivity. Qed.

Lemma sub_nan_r (a : JS.number) : a - JS.NaN = JS.NaN.
Proof. destruct a as [s|s| |s m e]; reflexivity. Qed.

Lemma mul_nan_r (a : JS.number) : a * JS.NaN = JS.NaN.
Proof. destruct a as [s|s| |s m e]; reflexivity. Qed.

Lemma isNaN_eq (a : JS.number) : JS.isNaN a = true -> a = JS.NaN.
Proof. destruct a; try discriminate. reflexivity. Qed.

(** X6: a coordinate that is [NaN], which the parser can return, gives seats
    without usable attributes: the row is [NaN] when [y] is and the number
    when [x] is, on both paths; the bulk import prices the seat [NaN] when
    [z] is; and the file loader leaves the section undefined and charges 100
    when [x] or [y] is. *)
Theorem nan_coordinates_give_nan_attributes :
  forall (c : Point3) (i : nat),
    let basic := SeatCoordinateParser.generateSeat c in
    let loaded := CoordinateLoader.enhanceSeat basic i in
    (JS.isNaN (py c) = true ->
     JS.isNaN (row basic) = true /\ JS.isNaN (row loaded) = true)
    /\ (JS.isNaN (px c) = true ->
        JS.isNaN (number basic) = true /\ JS.isNaN (number loaded) = true)
    /\ (JS.isNaN (pz c) = true -> JS.isNaN (price basic) = true)
    /\ (JS.isNaN (px c) = true \/ JS.isNaN (py c) = true ->
        section loaded = JS.Undefined /\ price loaded = Lit.n100).
Proof.
  intros [x y z] i basic loaded. subst basic loaded. cbn [px py pz].
  assert (Hd : JS.isNaN x = true \/ JS.isNaN y = true ->
               CoordinateLoader.distance {| px := x; py := y; pz := z |} = JS.NaN).
  { intros H. unfold CoordinateLoader.distance, JS.Math.pow2. cbn [px py].
    destruct H as [H|H]; apply isNaN_eq in H; subst.
    - destruct (y * y) as [s|s| |s m e]; reflexivity.
    - now rewrite mul_nan_r, add_nan_r. }
  split; [|split; [|split]].
  - intros H. apply isNaN_eq in H. subst y. split; reflexivity.
  - intros H. apply isNaN_eq in H. subst x. split; reflexivity.
  - intros H. apply isNaN_eq in H. subst z. reflexivity.
  - intros H. specialize (Hd H).
    unfold CoordinateLoader.enhanceSeat.
    cbn [section price coordinates SeatCoordinateParser.generateSeat].
    rewrite Hd. split; [|reflexivity].
    now destruct (_ : CoordinateLoader.Quadrant).
Qed.

Lemma nan_coordinates_witness :
  exists s,
    nth_error (CoordinateLoader.enhanceSeats
                 (SeatCoordinateParser.parseAndGenerateSeats
                    (Str.str "<Vector (1, 2, )>"))) 0 = Some s
    /\ section s = JS.Undefined /\ price s = Lit.n100.
Proof.
  eexists. split; [vm_compute; reflexivity|].
  apply (proj2 (proj2 (proj2 (nan_coordinates_give_nan_attributes
           {| px := Lit.n1; py := JS.NaN; pz := Lit.n2 |} 0)))).
  right. reflexivity.
Defined.

(** ** One unreadable coordinate and the whole map *)

Lemma add_nan_l (a : JS.number) : JS.NaN + a = JS.NaN.
Proof. destruct a as [s|s| |s m e]; reflexivity. Qed.

Lemma sub_nan_l (a : JS.number) : JS.NaN - a = JS.NaN.
Proof. destruct a as [s|s| |s m e]; reflexivity. Qed.

Lemma mul_nan_l (a : JS.number) : JS.NaN * a = JS.NaN.
Proof. destruct a as [s|s| |s m e]; reflexivity. Qed.

Lemma min_nan_l (a : JS.number) : JS.Math.min JS.NaN a = JS.NaN.
Proof. reflexivity. Qed.

Lemma min_nan_r (a : JS.number) : JS.Math.min a JS.NaN = JS.NaN.
Proof. unfold JS.Math.min. now rewrite orb_true_r. Qed.

Lemma max_nan_r (a : JS.number) : JS.Math.max a JS.NaN = JS.NaN.
Proof. unfold JS.Math.max. now rewrite orb_true_r. Qed.

Lemma neg_nan : - JS.NaN = JS.NaN.
Proof. reflexivity. Qed.

Ltac nan_simpl :=
  repeat first
    [ rewrite add_nan_l | rewrite add_nan_r | rewrite sub_nan_l | rewrite sub_nan_r
    | rewrite mul_nan_l | rewrite mul_nan_r | rewrite neg_nan ].

Lemma bounds_step_nan (coordinates : list StadiumMap.Coord2) :
  forall b : StadiumMap.Bounds,
    let b' := fold_left StadiumMap.bounds_step coordinates b in
    (StadiumMap.minX b = JS.NaN /\ StadiumMap.maxX b = JS.NaN ->
     StadiumMap.minX b' = JS.NaN /\ StadiumMap.maxX b' = JS.NaN)
    /\ (StadiumMap.minZ b = JS.NaN /\ StadiumMap.maxZ b = JS.NaN ->
        StadiumMap.minZ b' = JS.NaN /\ StadiumMap.maxZ b' = JS.NaN).
Proof.
  induction coordinates as [|c l IH]; intros b; cbn [fold_left].
  - tauto.
  - destruct (IH (StadiumMap.bounds_step b c)) as [IHx IHz]. split.
    + intros [Hn Hx]. apply IHx. cbn [StadiumMap.bounds_step StadiumMap.minX StadiumMap.maxX].
      now rewrite Hn, Hx.
    + intros [Hn Hx]. apply IHz. cbn [StadiumMap.bounds_step StadiumMap.minZ StadiumMap.maxZ].
      now rewrite Hn, Hx.
Qed.

Lemma bounds_nan (coordinates : list StadiumMap.Coord2) :
  forall b : StadiumMap.Bounds,
    let b' := fold_left StadiumMap.bounds_step coordinates b in
    (Exists (fun c => JS.isNaN (StadiumMap.cx c) = true) coordinates ->
     StadiumMap.minX b' = JS.NaN /\ StadiumMap.maxX b' = JS.NaN)
    /\ (Exists (fun c => JS.isNaN (StadiumMap.cz c) = true) coordinates ->
        StadiumMap.minZ b' = JS.NaN /\ StadiumMap.maxZ b' = JS.NaN).
Proof.
  induction coordinates as [|c l IH]; intros b; cbn [fold_left].
  - split; intros H; inversion H.
  - destruct (IH (StadiumMap.bounds_step b c)) as [IHx IHz].
    destruct (bounds_step_nan l (StadiumMap.bounds_step b c)) as [Kx Kz].
    split; intros H; inversion H as [? ? H0|? ? H0]; subst.
    + apply Kx. cbn [StadiumMap.bounds_step StadiumMap.minX StadiumMap.maxX].
      apply isNaN_eq in H0. rewrite H0. now rewrite min_nan_r, max_nan_r.
    + now apply IHx.
    + apply Kz. cbn [StadiumMap.bounds_step StadiumMap.minZ StadiumMap.maxZ].
      apply isNaN_eq in H0. rewrite H0. now rewrite min_nan_r, max_nan_r.
    + now apply IHz.
Qed.

(** X7: one seat whose [x] is [NaN] makes the offset along [x] [NaN], and one
    whose [z] is [NaN] the offset along [z]; with either, every seat of the
    set, whatever its own coordinates and whatever the rotation, scale and
    translation, is drawn at a position whose [x] and [z] are both [NaN]. *)
Theorem nan_coordinate_spoils_every_position :
  forall (cos sin : JS.number -> JS.number) (seats : list Seat)
         (prev : StadiumMap.Transformations) (position : StadiumMap.Vec3),
    let t := StadiumMap.updateBase seats prev in
    let '(x, _, z) := StadiumMap.Seat_transformedPosition cos sin position t in
    (Exists (fun s => JS.isNaN (px (coordinates s)) = true) seats ->
     StadiumMap.ox (StadiumMap.baseOffset t) = JS.NaN
     /\ JS.isNaN x = true /\ JS.isNaN z = true)
    /\ (Exists (fun s => JS.isNaN (pz (coordinates s)) = true) seats ->
        StadiumMap.oz (StadiumMap.baseOffset t) = JS.NaN
        /\ JS.isNaN x = true /\ JS.isNaN z = true).
Proof.
  intros cos sin seats prev [[p0 p1] p2] t.
  assert (Hx : Exists (fun s => JS.isNaN (px (coordinates s)) = true) seats ->
               StadiumMap.ox (StadiumMap.baseOffset t) = JS.NaN).
  { intros H. subst t. unfold StadiumMap.updateBase.
    cbn [StadiumMap.baseOffset StadiumMap.ox].
    destruct seats as [|s0 l]; [inversion H|].
    set (cs := map _ (s0 :: l)).
    assert (He : Exists (fun c => JS.isNaN (StadiumMap.cx c) = true) cs).
    { subst cs. apply Exists_exists in H. destruct H as [s [Hin Hs]].
      apply Exists_exists. eexists. split; [apply in_map, Hin|exact Hs]. }
    destruct (proj1 (bounds_nan cs StadiumMap.bounds_init) He) as [Hn Hm].
    unfold StadiumMap.calcScalingFactors. subst cs. cbn [map].
    cbn [StadiumMap.f_xOffset]. fold (StadiumMap.bounds) in Hn, Hm.
    cbn [map] in Hn, Hm. unfold StadiumMap.bounds. rewrite Hn, Hm. reflexivity. }
  assert (Hz : Exists (fun s => JS.isNaN (pz (coordinates s)) = true) seats ->
               StadiumMap.oz (StadiumMap.baseOffset t) = JS.NaN).
  { intros H. subst t. unfold StadiumMap.updateBase.
    cbn [StadiumMap.baseOffset StadiumMap.oz].
    destruct seats as [|s0 l]; [inversion H|].
    set (cs := map _ (s0 :: l)).
    assert (He : Exists (fun c => JS.isNaN (StadiumMap.cz c) = true) cs).
    { subst cs. apply Exists_exists in H. destruct H as [s [Hin Hs]].
      apply Exists_exists. eexists. split; [apply in_map, Hin|exact Hs]. }
    destruct (proj2 (bounds_nan cs StadiumMap.bounds_init) He) as [Hn Hm].
    unfold StadiumMap.calcScalingFactors. subst cs. cbn [map].
    cbn [StadiumMap.f_zOffset]. cbn [map] in Hn, Hm.
    unfold StadiumMap.bounds. rewrite Hn, Hm. reflexivity. }
  unfold StadiumMap.Seat_transformedPosition.
  split; intros H.
  - specialize (Hx H). split; [exact Hx|]. rewrite Hx.
    nan_simpl. split; reflexivity.
  - specialize (Hz H). split; [exact Hz|]. rewrite Hz.
    nan_simpl. split; reflexivity.
Qed.

Lemma nan_coordinate_witness :
  let seats := SeatCoordinateParser.parseAndGenerateSeats
                 (Str.str "<Vector (1, 2, 3)>" ++ Str.newline :: Str.str "<Vector (-, 5, 6)>")%list in
  Exists (fun s => JS.isNaN (px (coordinates s)) = true) seats
  /\ StadiumMap.ox (StadiumMap.baseOffset
       (StadiumMap.updateBase seats StadiumMap.defaultTransformations)) = JS.NaN.
Proof.
  intros seats.
  assert (H : Exists (fun s => JS.isNaN (px (coordinates s)) = true) seats).
  { vm_compute. apply Exists_cons_tl, Exists_cons_hd. reflexivity. }
  split; [exact H|].
  pose proof (nan_coordinate_spoils_every_position (fun a => a) (fun a => a) seats
                StadiumMap.defaultTransformations (Lit.n0, Lit.n0, Lit.n0)) as K.
  cbv beta zeta in K.
  destruct (StadiumMap.Seat_transformedPosition _ _ _ _) as [[x y] z].
  exact (proj1 (proj1 K H)).
Defined.

(** ** The provider and the view that reads it *)

Section ProviderStates.

Import ModelContext.

Lemma loadModel_ready (modelPath : Str.t) (a : Answers) (m : LoadedModel) :
  loadModel modelPath a = Ready m -> isValidModel (Some m) = true.
Proof.
  unfold loadModel. destruct (loadModel_fetchAndDecode modelPath a) as [[m'|]|e];
    try discriminate.
  destruct (isValidModel (Some m')) eqn:Hv; [|discriminate].
  intros H. injection H as <-. exact Hv.
Qed.

Lemma cleanup_length (p : Provider) :
  List.length (isMounted (cleanup p)) = List.length (isMounted p).
Proof.
  unfold cleanup; cbn [isMounted].
  destruct (isMounted p) as [|b flags] using rev_ind; [reflexivity|].
  rewrite rev_app_distr; cbn [rev app]. rewrite rev_involutive.
  now rewrite !length_app.
Qed.

Lemma complete_unmounted (p : Provider) (r : nat) (c : Completion) :
  nth r (isMounted p) false = false -> complete r c p = p.
Proof. intros H. unfold complete. now rewrite H. Qed.

Lemma completions_unmounted (later : list Event) :
  forall p : Provider,
    all_unmounted (isMounted p) ->
    forallb isCompletion later = true ->
    fold_left step later p = p.
Proof.
  induction later as [|ev later IH]; intros p Hp Hl; [reflexivity|].
  cbn [forallb] in Hl. apply andb_true_iff in Hl. destruct Hl as [Hev Hl].
  destruct ev as [| |r c]; try discriminate.
  cbn [fold_left step]. rewrite complete_unmounted by apply Hp. now apply IH.
Qed.



End ProviderStates.

Lemma run_produced_invariant :
  forall events : list ModelContext.Event,
    Forall ModelContext.produced events ->
    let p := ModelContext.run events in
    (forall m, ModelContext.model p = Some m ->
               ModelContext.isValidModel (Some m) = true)
    /\ (ModelContext.isLoading p = true -> ModelContext.error p = None).
Proof.
  intros events. unfold ModelContext.run.
  induction events as [|ev events IH] using rev_ind; intros Hall.
  - split; [discriminate|reflexivity].
  - apply Forall_app in Hall. destruct Hall as [Hall Hev].
    inversion Hev as [|? ? Hp _]; subst. specialize (IH Hall). cbv zeta in IH.
    destruct IH as [IHm IHe]. rewrite fold_left_app. cbn [fold_left].
    set (q := fold_left ModelContext.step events ModelContext.initial) in *.
    destruct ev as [| |r c]; cbn [ModelContext.step].
    + split; [exact IHm|reflexivity].
    + split; [exact IHm|exact IHe].
    + unfold ModelContext.complete.
      destruct (nth r (ModelContext.isMounted q) false); [|split; assumption].
      destruct c as [m'|e]; cbn [ModelContext.model ModelContext.isLoading
                                   ModelContext.error].
      * split; [|reflexivity]. intros m Hm. injection Hm as <-.
        destruct Hp as [modelPath [a Hc]]. symmetry in Hc.
        eapply loadModel_ready, Hc.
      * split; [exact IHm|discriminate].
Qed.

(** X8: whatever events occur, as long as every completion carries what a run of
    [loadModel] ended with: a model the provider holds has passed
    [isValidModel], and while the provider is loading it holds no error. *)
Theorem provider_holds_validated_models :
  forall events : list ModelContext.Event,
    Forall ModelContext.produced events ->
    let p := ModelContext.run events in
    (forall m, ModelContext.model p = Some m ->
               ModelContext.isValidModel (Some m) = true)
    /\ (ModelContext.isLoading p = true -> ModelContext.error p = None).
Proof. exact run_produced_invariant. Qed.

Lemma provider_holds_validated_witness :
  let stadium :=
    ModelContext.mkLoadedModel
      (Some (ModelContext.Node "Group" false
               (Some [ModelContext.Node "Mesh" true None])))
      false false false false None in
  let answers :=
    ModelContext.mkAnswers
      (ModelContext.Fulfilled (ModelContext.mkResponse true 200 (Str.str "OK")))
      (ModelContext.Fulfilled tt)
      (ModelContext.Fulfilled (Some stadium)) in
  let events :=
    [ModelContext.LoadRequested;
     ModelContext.Completed 0
       (ModelContext.loadModel ModelLoader.getStadiumModelPath answers)] in
  Forall ModelContext.produced events
  /\ ModelContext.model (ModelContext.run events) = Some stadium
  /\ ModelContext.isValidModel (Some stadium) = true.
Proof.
  intros stadium answers events.
  assert (H : Forall ModelContext.produced events).
  { repeat constructor. exists ModelLoader.getStadiumModelPath, answers. reflexivity. }
  split; [exact H|]. split; [vm_compute; reflexivity|].
  apply (proj1 (provider_holds_validated_models events H) stadium).
  vm_compute. reflexivity.
Defined.

(** X9: once the provider is unmounted, no completion of any run, in any number
    and order, changes anything: consumers keep seeing the state of the
    moment of unmounting. *)
Theorem completions_after_unmount_change_nothing :
  forall (events later : list ModelContext.Event),
    forallb ModelContext.isCompletion later = true ->
    let unmounted := ModelContext.step (ModelContext.run events) ModelContext.Unmounted in
    fold_left ModelContext.step later unmounted = unmounted
    /\ ModelContext.visible (fold_left ModelContext.step later unmounted)
       = ModelContext.visible (ModelContext.run events).
Proof.
  intros events later Hl unmounted.
  assert (H : fold_left ModelContext.step later unmounted = unmounted).
  { apply completions_unmounted; [|exact Hl]. subst unmounted.
    cbn [ModelContext.step]. rewrite cleanup_isMounted.
    apply cleanup_flags, run_older_unmounted. }
  split; [exact H|]. rewrite H. reflexivity.
Qed.

Lemma completions_after_unmount_witness :
  ModelContext.visible
    (ModelContext.run
       [ModelContext.LoadRequested; ModelContext.Unmounted;
        ModelContext.Completed 0 (ModelContext.Failed ModelContext.noModelError)])
  = (None, true, None).
Proof.
  apply (proj2 (completions_after_unmount_change_nothing
                  [ModelContext.LoadRequested]
                  [ModelContext.Completed 0
                     (ModelContext.Failed ModelContext.noModelError)]
                  eq_refl)).
Defined.

(** X10: from any state the provider can reach, after a new request the
    provider is loading without an error and still holds the model it had;
    completions of earlier runs that arrive meanwhile are ignored, and the
    completion of the new run decides what consumers see: its model if it
    succeeded, and if it failed its error, beside the model held before. *)
Theorem latest_completion_decides :
  forall (events older : list ModelContext.Event) (c : ModelContext.Completion),
    let p := ModelContext.run events in
    let latest := List.length (ModelContext.isMounted p) in
    Forall (fun ev => exists r c', ev = ModelContext.Completed r c' /\ (r < latest)%nat)
           older ->
    ModelContext.visible
      (fold_left ModelContext.step (ModelContext.LoadRequested :: older) p)
    = (ModelContext.model p, true, None)
    /\ ModelContext.visible
         (fold_left ModelContext.step
            (ModelContext.LoadRequested :: older
             ++ [ModelContext.Completed latest c])%list p)
       = match c with
         | ModelContext.Ready m => (Some m, false, None)
         | ModelContext.Failed e => (ModelContext.model p, false, Some e)
         end.
Proof.
  intros events older c p latest Hold.
  assert (Hflags : exists flags,
             ModelContext.isMounted (ModelContext.runEffect p) = (flags ++ [true])%list
             /\ List.length flags = latest
             /\ ModelContext.all_unmounted flags).
  { exists (ModelContext.isMounted (ModelContext.cleanup p)).
    split; [reflexivity|]. split; [apply cleanup_length|].
    rewrite cleanup_isMounted. apply cleanup_flags. subst p.
    apply run_older_unmounted. }
  destruct Hflags as [flags [Hf [Hlen Hun]]].
  assert (Hfold : fold_left ModelContext.step older (ModelContext.runEffect p)
                  = ModelContext.runEffect p).
  { clear c. induction Hold as [|ev evs [r [c' [-> Hr]]] _ IH]; [reflexivity|].
    cbn [fold_left ModelContext.step]. rewrite complete_unmounted; [exact IH|].
    rewrite Hf, app_nth1 by lia. apply Hun. }
  cbn [fold_left ModelContext.step]. rewrite fold_left_app, Hfold.
  split; [reflexivity|].
  cbn [fold_left ModelContext.step]. unfold ModelContext.complete.
  rewrite Hf, app_nth2, <- Hlen, Nat.sub_diag by lia. cbn [nth].
  destruct c; reflexivity.
Qed.

Lemma latest_completion_witness :
  let stadium :=
    ModelContext.mkLoadedModel
      (Some (ModelContext.Node "Group" false
               (Some [ModelContext.Node "Mesh" true None])))
      false false false false None in
  ModelContext.visible
    (ModelContext.run
       [ModelContext.LoadRequested;
        ModelContext.Completed 0 (ModelContext.Ready stadium);
        ModelContext.LoadRequested;
        ModelContext.Completed 0 (ModelContext.Failed ModelContext.validationError);
        ModelContext.Completed 1 (ModelContext.Failed ModelContext.noModelError)])
  = (Some stadium, false, Some ModelContext.noModelError).
Proof.
  intros stadium.
  pose proof (latest_completion_decides
                [ModelContext.LoadRequested;
                 ModelContext.Completed 0 (ModelContext.Ready stadium)]
                [ModelContext.Completed 0
                   (ModelContext.Failed ModelContext.validationError)]
                (ModelContext.Failed ModelContext.noModelError)) as K.
  cbv zeta in K. apply K.
  repeat constructor. exists 0%nat, (ModelContext.Failed ModelContext.validationError).
  split; [reflexivity|]. vm_compute. lia.
Defined.



(** ** Files that are not [.glb] *)

Lemma extensionOf_last_piece (base ext : Str.t) :
  forallb (fun c => negb (Ascii.eqb c ".")) ext = true ->
  ModelLoader.extensionOf (base ++ "."%char :: ext) = Str.toLowerCase ext.
Proof.
  intros H. unfold ModelLoader.extensionOf.
  now rewrite split_app, (split_without_separator _ _ H), last_last.
Qed.

Lemma str_eqb_eq (a b : Str.t) : Str.eqb a b = true <-> a = b.
Proof.
  revert b. induction a as [|x a IH]; intros [|y b]; cbn [Str.eqb];
    try (split; [discriminate|discriminate]); [tauto|].
  rewrite andb_true_iff, Ascii.eqb_eq, IH. split.
  - now intros [-> ->].
  - intros H. now injection H.
Qed.

Lemma includes_occurs (needle s : Str.t) :
  Str.includes needle s = true
  <-> exists before rest, s = (before ++ needle ++ rest)%list.
Proof.
  split.
  - induction s as [|c s IH]; cbn [Str.includes].
    + destruct (Str.stripPrefix needle []) as [rest|] eqn:E; [|discriminate].
      intros _. exists [], rest. cbn [app]. now apply (stripPrefix_some needle).
    + destruct (Str.stripPrefix needle (c :: s)) as [rest|] eqn:E.
      * intros _. exists [], rest. cbn [app]. now apply (stripPrefix_some needle).
      * intros H. destruct (IH H) as [before [rest ->]].
        exists (c :: before), rest. reflexivity.
  - intros [before [rest ->]]. apply includes_app.
Qed.

(** X12: a file whose extension, the part of the name behind the last point in
    lower case, is not [glb]: validation never reads its contents, and
    [saveModelFile] hands it on exactly when the extension occurs somewhere
    inside one of the six format names; it is refused as unsupported
    otherwise.  So [stadium.GLTF] is handed on, and so are [stadium.b] and
    [stadium.], unread. *)
Theorem other_extensions_are_not_inspected :
  forall (base ext : Str.t) (contents : option (list byte)),
    forallb (fun c => negb (Ascii.eqb c ".")) ext = true ->
    Str.toLowerCase ext <> Str.str "glb" ->
    let file := ModelLoader.mkFile (base ++ "."%char :: ext) contents in
    let occurs :=
      exists format before rest,
        In format ModelLoader.SUPPORTED_FORMATS
        /\ format = (before ++ Str.toLowerCase ext ++ rest)%list in
    (forall contents',
        ModelLoader.validateGlbFile file
        = ModelLoader.validateGlbFile
            (ModelLoader.mkFile (base ++ "."%char :: ext) contents'))
    /\ (occurs <-> ModelUploader.saveModelFile file = ModelUploader.Uploaded file)
    /\ (~ occurs <->
        ModelUploader.saveModelFile file
        = ModelUploader.Refused (ModelLoader.NotSupported (Str.toLowerCase ext))).
Proof.
  intros base ext contents Hext Hglb file occurs.
  assert (Hv : forall c,
             ModelLoader.validateGlbFile (ModelLoader.mkFile (base ++ "."%char :: ext) c)
             = if existsb (fun format => Str.includes (Str.toLowerCase ext) format)
                    ModelLoader.SUPPORTED_FORMATS
               then ModelLoader.mkValidation true
                      (ModelLoader.FormatDetected (Str.toLowerCase ext))
               else ModelLoader.mkValidation false
                      (ModelLoader.NotSupported (Str.toLowerCase ext))).
  { intros c. unfold ModelLoader.validateGlbFile. cbn [ModelLoader.name].
    rewrite (extensionOf_last_piece _ _ Hext).
    destruct (existsb _ ModelLoader.SUPPORTED_FORMATS); [|reflexivity].
    cbn [negb]. destruct (Str.eqb _ _) eqn:E; [|reflexivity].
    apply str_eqb_eq in E. contradiction. }
  assert (Ho : occurs
               <-> existsb (fun format => Str.includes (Str.toLowerCase ext) format)
                     ModelLoader.SUPPORTED_FORMATS = true).
  { subst occurs. rewrite existsb_exists. split.
    - intros [format [before [rest [Hin Heq]]]]. exists format. split; [exact Hin|].
      apply includes_occurs. now exists before, rest.
    - intros [format [Hin Hinc]]. apply includes_occurs in Hinc.
      destruct Hinc as [before [rest Heq]]. now exists format, before, rest. }
  split; [|split].
  - intros contents'. subst file. now rewrite !Hv.
  - rewrite Ho. unfold ModelUploader.saveModelFile. subst file. rewrite Hv.
    destruct (existsb _ ModelLoader.SUPPORTED_FORMATS); cbn; split;
      try reflexivity; discriminate.
  - rewrite Ho. unfold ModelUploader.saveModelFile. subst file. rewrite Hv.
    destruct (existsb _ ModelLoader.SUPPORTED_FORMATS); cbn; split;
      try reflexivity; try discriminate; intros H; now elim H.
Qed.

Lemma other_extensions_witness :
  let file := ModelLoader.mkFile (Str.str "stadium.b") None in
  ModelUploader.saveModelFile file = ModelUploader.Uploaded file.
Proof.
  intros file.
  apply (proj1 (proj2 (other_extensions_are_not_inspected
                         (Str.str "stadium") (Str.str "b") None eq_refl
                         ltac:(discriminate)))).
  exists (Str.str ".glb"), (Str.str ".gl"), []. split; [now left|reflexivity].
Defined.

(** ** Turning the view *)

Lemma binary_normalize_not_nan (m e : Z) (szero : bool) :
  JS.isNaN (binary_normalize prec emax m e szero) = false.
Proof.
  unfold binary_normalize, binary_round.
  destruct m as [|m|m]; [reflexivity| |];
    destruct (shl_align m e _) as [mz ez]; now apply binary_round_aux_not_nan.
Qed.

Lemma sub_not_nan (a b : JS.number) :
  JS.isFinite a = true -> JS.isNaN b = false -> JS.isNaN (a - b) = false.
Proof.
  destruct a as [sa|sa| |sa ma ea]; try discriminate;
    destruct b as [sb|sb| |sb mb eb]; try discriminate; intros _ _;
    try reflexivity.
  - now destruct sa, sb.
  - apply binary_normalize_not_nan.
Qed.

Lemma mul_finite_not_nan (a : JS.number) (s : bool) (m : positive) (e : Z) :
  JS.isNaN a = false -> JS.isNaN (a * S754_finite s m e) = false.
Proof.
  destruct a as [sa|sa| |sa ma ea]; try discriminate; intros _; try reflexivity.
  apply binary_round_aux_not_nan. lia.
Qed.

Lemma lt_le (a b : JS.number) : (a <? b) = true -> (a <=? b) = true.
Proof.
  unfold JS.lt, JS.le, SFltb, SFleb.
  now destruct (SFcompare a b) as [[| |]|].
Qed.

Lemma withinQuarterTurn_finite (a : JS.number) :
  MiniSeatView.withinQuarterTurn a = true -> JS.isFinite a = true.
Proof.
  destruct a as [s|[|]| |s m e]; try reflexivity; vm_compute; intros H; exact H.
Qed.

(** The clamp of [handleMouseMove]. *)
Lemma clamp_withinQuarterTurn (x : JS.number) :
  let clamped :=
    JS.Math.max (- JS.Math.PI / Lit.n2) (JS.Math.min (JS.Math.PI / Lit.n2) x) in
  if JS.isNaN x then clamped = JS.NaN
  else MiniSeatView.withinQuarterTurn clamped = true.
Proof.
  intros clamped. subst clamped. unfold MiniSeatView.withinQuarterTurn.
  set (up := JS.Math.PI / Lit.n2). set (down := - JS.Math.PI / Lit.n2).
  assert (Hud : (up <? down) = false) by (vm_compute; reflexivity).
  assert (Hdu : (down <? up) = true) by (vm_compute; reflexivity).
  assert (Hdd : (down <=? down) = true) by (vm_compute; reflexivity).
  assert (Huu : (up <=? up) = true) by (vm_compute; reflexivity).
  assert (Hnu : JS.isNaN up = false) by (vm_compute; reflexivity).
  assert (Hnd : JS.isNaN down = false) by (vm_compute; reflexivity).
  assert (Hzu : JS.is_zero up = false) by (vm_compute; reflexivity).
  assert (Hzd : JS.is_zero down = false) by (vm_compute; reflexivity).
  destruct (JS.isNaN x) eqn:Hx.
  - apply isNaN_eq in Hx. subst x. rewrite min_nan_r. apply max_nan_r.
  - unfold JS.Math.min. rewrite Hnu, Hx, Hzu. cbn [orb andb].
    destruct (up <? x) eqn:H1.
    + unfold JS.Math.max. rewrite Hnd, Hnu, Hud, Hdu. cbn [orb].
      now rewrite (lt_le _ _ Hdu), Huu.
    + destruct (x <? up) eqn:H2.
      * unfold JS.Math.max. rewrite Hnd, Hx, Hzd. cbn [orb andb].
        destruct (x <? down) eqn:H3; [now rewrite Hdd, (lt_le _ _ Hdu)|].
        destruct (down <? x) eqn:H4; [|now rewrite Hdd, (lt_le _ _ Hdu)].
        now rewrite (lt_le _ _ H4), (lt_le _ _ H2).
      * unfold JS.Math.max. rewrite Hnd, Hnu, Hud, Hdu. cbn [orb].
        now rewrite (lt_le _ _ Hdu), Huu.
Qed.

(** X13: whatever the pointer does, the vertical rotation of the view is [NaN] or
    lies between a quarter turn down and a quarter turn up; and when all the
    coordinates of the events are finite it is never [NaN], so the view never
    flips over. *)
Theorem vertical_rotation_stays_within_quarter_turn :
  forall events : list MiniSeatView.MouseEvent,
    let c := fold_left MiniSeatView.handle events MiniSeatView.initialControls in
    (JS.isNaN (MiniSeatView.rotationX c) = true
     \/ MiniSeatView.withinQuarterTurn (MiniSeatView.rotationX c) = true)
    /\ (forallb MiniSeatView.finiteCoordinates events = true ->
        MiniSeatView.withinQuarterTurn (MiniSeatView.rotationX c) = true).
Proof.
  intros events c. subst c. split.
  - induction events as [|ev events IH] using rev_ind.
    + right. vm_compute. reflexivity.
    + rewrite fold_left_app. cbn [fold_left].
      set (c := fold_left MiniSeatView.handle events MiniSeatView.initialControls) in *.
      destruct ev as [x y| |x y]; cbn [MiniSeatView.handle]; try exact IH.
      unfold MiniSeatView.handleMouseMove.
      destruct (MiniSeatView.isDragging c); cbn [negb]; [|exact IH].
      cbn [MiniSeatView.rotationX].
      match goal with
      | |- context [JS.Math.min _ ?x] =>
          pose proof (clamp_withinQuarterTurn x) as K; cbv zeta in K;
            destruct (JS.isNaN x)
      end.
      * left. now rewrite K.
      * right. exact K.
  - intros Hall.
    assert (Hinv : JS.isFinite
                     (MiniSeatView.lastMouseY
                        (fold_left MiniSeatView.handle events
                           MiniSeatView.initialControls)) = true
                   /\ MiniSeatView.withinQuarterTurn
                        (MiniSeatView.rotationX
                           (fold_left MiniSeatView.handle events
                              MiniSeatView.initialControls)) = true).
    { induction events as [|ev events IH] using rev_ind.
      - split; vm_compute; reflexivity.
      - rewrite forallb_app in Hall. apply andb_true_iff in Hall.
        destruct Hall as [Hall Hev]. cbn [forallb] in Hev.
        rewrite andb_true_r in Hev. specialize (IH Hall).
        rewrite fold_left_app. cbn [fold_left].
        set (c := fold_left MiniSeatView.handle events MiniSeatView.initialControls) in *.
        destruct IH as [IHl IHr].
        destruct ev as [x y| |x y]; cbn [MiniSeatView.handle];
          cbn [MiniSeatView.finiteCoordinates] in Hev;
          try (apply andb_true_iff in Hev; destruct Hev as [Hfx Hfy]).
        + split; [exact Hfy|exact IHr].
        + split; [exact IHl|exact IHr].
        + unfold MiniSeatView.handleMouseMove.
          destruct (MiniSeatView.isDragging c); cbn [negb]; [|split; assumption].
          cbn [MiniSeatView.lastMouseY MiniSeatView.rotationX].
          split; [exact Hfy|].
          match goal with
          | |- context [JS.Math.min _ ?x] =>
              pose proof (clamp_withinQuarterTurn x) as K; cbv zeta in K;
                assert (Hn : JS.isNaN x = false)
          end.
          { apply sub_not_nan; [now apply withinQuarterTurn_finite|].
            apply mul_finite_not_nan. apply sub_not_nan; [exact Hfy|].
            now destruct (MiniSeatView.lastMouseY c). }
          rewrite Hn in K. exact K. }
    exact (proj2 Hinv).
Qed.

Lemma vertical_rotation_witness :
  MiniSeatView.rotationX
    (fold_left MiniSeatView.handle
       [MiniSeatView.MouseDown Lit.n100 Lit.n100;
        MiniSeatView.MouseMove Lit.n100 (JS.of_Z 5000)]
       MiniSeatView.initialControls)
  = - JS.Math.PI / Lit.n2
  /\ MiniSeatView.withinQuarterTurn (- JS.Math.PI / Lit.n2) = true.
Proof.
  split; [vm_compute; reflexivity|].
  apply (proj2 (vertical_rotation_stays_within_quarter_turn
                  [MiniSeatView.MouseDown Lit.n100 Lit.n100;
                   MiniSeatView.MouseMove Lit.n100 (JS.of_Z 5000)]) eq_refl).
Defined.

(** ** The purchase form *)

Lemma trimStart_nil (s : Str.t) :
  Str.trimStart s = [] <-> forallb Str.is_space s = true.
Proof.
  induction s as [|c s IH]; cbn [Str.trimStart forallb]; [tauto|].
  destruct (Str.is_space c); cbn [andb]; [exact IH|].
  split; discriminate.
Qed.

Lemma trimStart_spaces (s : Str.t) :
  forallb Str.is_space (Str.trimStart s) = true <-> forallb Str.is_space s = true.
Proof.
  induction s as [|c s IH]; cbn [Str.trimStart]; [tauto|].
  destruct (Str.is_space c) eqn:Hc; cbn [forallb]; rewrite Hc; cbn [andb];
    [exact IH|tauto].
Qed.

(** [!s.trim()] holds exactly of the strings of white space. *)
Lemma blank_spaces (s : Str.t) :
  TicketForm.blank s = true <-> forallb Str.is_space s = true.
Proof.
  unfold TicketForm.blank, Str.trim, Str.trimEnd.
  rewrite <- trimStart_spaces, <- (forallb_rev _ (Str.trimStart s)), <- trimStart_nil.
  destruct (Str.trimStart (rev (Str.trimStart s))) as [|c t] eqn:E;
    [cbn; tauto|].
  destruct (rev (c :: t)) eqn:Er; [|split; discriminate].
  apply (f_equal (@rev ascii)) in Er. rewrite rev_involutive in Er. discriminate.
Qed.

Lemma digit_not_space (c : ascii) : Str.is_digit c = true -> Str.is_space c = false.
Proof.
  unfold Str.is_digit, Str.is_space. cbv zeta. intros H.
  apply andb_true_iff in H. destruct H as [H1 H2].
  apply N.leb_le in H1. apply N.leb_le in H2.
  apply orb_false_iff. split; [apply orb_false_iff; split|].
  - apply andb_false_iff. right. apply N.leb_gt. lia.
  - apply N.eqb_neq. lia.
  - apply N.eqb_neq. lia.
Qed.

Lemma digitsOnly_digits (value : Str.t) :
  forallb Str.is_digit (TicketForm.digitsOnly value) = true.
Proof.
  apply forallb_forall. intros c Hc. now apply filter_In in Hc.
Qed.

Lemma digitsOnly_fixed (digits : Str.t) :
  forallb Str.is_digit digits = true -> TicketForm.digitsOnly digits = digits.
Proof.
  unfold TicketForm.digitsOnly. induction digits as [|c l IH]; [reflexivity|].
  cbn [forallb filter]. intros H. apply andb_true_iff in H. destruct H as [Hc Hl].
  now rewrite Hc, (IH Hl).
Qed.

Lemma forallb_firstn {A : Type} (f : A -> bool) (n : nat) (l : list A) :
  forallb f l = true -> forallb f (firstn n l) = true.
Proof.
  revert n. induction l as [|a l IH]; intros [|n]; try reflexivity.
  cbn [forallb firstn]. intros H. apply andb_true_iff in H. destruct H as [Ha Hl].
  now rewrite Ha, (IH n Hl).
Qed.

Lemma forallb_skipn {A : Type} (f : A -> bool) (n : nat) (l : list A) :
  forallb f l = true -> forallb f (skipn n l) = true.
Proof.
  revert n. induction l as [|a l IH]; intros [|n]; try reflexivity; [tauto|].
  cbn [forallb skipn]. intros H. apply andb_true_iff in H. now apply IH.
Qed.

Lemma firstn_plus {A : Type} (a b : nat) (l : list A) :
  firstn (a + b) l = (firstn a l ++ firstn b (skipn a l))%list.
Proof.
  revert l. induction a as [|a IH]; intros l; [reflexivity|].
  destruct l as [|x l]; [now rewrite !firstn_nil|].
  cbn [Nat.add firstn skipn app]. now rewrite IH.
Qed.

(** The three shapes of a formatted phone number. *)
Lemma formatPhoneNumber_shape (value : Str.t) :
  let phoneNumber := TicketForm.digitsOnly value in
  TicketForm.formatPhoneNumber value
  = if (List.length phoneNumber <? 4)%nat then phoneNumber
    else if (List.length phoneNumber <? 7)%nat then
      (Str.str "(" ++ firstn 3 phoneNumber ++ Str.str ") "
       ++ skipn 3 phoneNumber)%list
    else
      (Str.str "(" ++ firstn 3 phoneNumber ++ Str.str ") "
       ++ firstn 3 (skipn 3 phoneNumber) ++ Str.str "-"
       ++ firstn 4 (skipn 6 phoneNumber))%list.
Proof.
  destruct value as [|c value]; reflexivity.
Qed.

Lemma formatPhoneNumber_digits (value : Str.t) :
  TicketForm.digitsOnly (TicketForm.formatPhoneNumber value)
  = firstn 10 (TicketForm.digitsOnly value).
Proof.
  rewrite formatPhoneNumber_shape. cbv zeta.
  pose proof (digitsOnly_digits value) as Hd.
  set (d := TicketForm.digitsOnly value) in *.
  destruct (List.length d <? 4)%nat eqn:H4.
  - apply Nat.ltb_lt in H4. rewrite digitsOnly_fixed by exact Hd.
    symmetry. apply firstn_all2. lia.
  - apply Nat.ltb_ge in H4. destruct (List.length d <? 7)%nat eqn:H7.
    + apply Nat.ltb_lt in H7. unfold TicketForm.digitsOnly.
      rewrite !filter_app.
      fold (TicketForm.digitsOnly (firstn 3 d)).
      fold (TicketForm.digitsOnly (skipn 3 d)).
      rewrite (digitsOnly_fixed (firstn 3 d)), (digitsOnly_fixed (skipn 3 d))
        by (first [apply forallb_firstn | apply forallb_skipn]; exact Hd).
      cbn [Str.str list_ascii_of_string filter app]. 
      change (Str.is_digit "(") with false. change (Str.is_digit ")") with false.
      change (Str.is_digit " ") with false. cbn [app].
      rewrite firstn_skipn. symmetry. apply firstn_all2. lia.
    + unfold TicketForm.digitsOnly.
      rewrite !filter_app.
      fold (TicketForm.digitsOnly (firstn 3 d)).
      fold (TicketForm.digitsOnly (firstn 3 (skipn 3 d))).
      fold (TicketForm.digitsOnly (firstn 4 (skipn 6 d))).
      rewrite (digitsOnly_fixed (firstn 3 d)),
        (digitsOnly_fixed (firstn 3 (skipn 3 d))),
        (digitsOnly_fixed (firstn 4 (skipn 6 d)))
        by (repeat first [apply forallb_firstn | apply forallb_skipn]; exact Hd).
      cbn [Str.str list_ascii_of_string filter app]. 
      change (Str.is_digit "(") with false. change (Str.is_digit ")") with false.
      change (Str.is_digit " ") with false. change (Str.is_digit "-") with false.
      cbn [app].
      change 10%nat with (3 + (3 + 4))%nat.
      rewrite (firstn_plus 3 (3 + 4)), (firstn_plus 3 4), skipn_skipn.
      reflexivity.
Qed.

Lemma spaces_no_digits (s : Str.t) :
  forallb Str.is_space s = true -> TicketForm.digitsOnly s = [].
Proof.
  unfold TicketForm.digitsOnly. induction s as [|c s IH]; [reflexivity|].
  cbn [forallb filter]. intros H. apply andb_true_iff in H. destruct H as [Hc Hs].
  destruct (Str.is_digit c) eqn:Hd; [|exact (IH Hs)].
  apply digit_not_space in Hd. congruence.
Qed.

Lemma formatPhoneNumber_blank (value : Str.t) :
  TicketForm.blank (TicketForm.formatPhoneNumber value) = true
  <-> TicketForm.digitsOnly value = [].
Proof.
  rewrite blank_spaces. split.
  - intros H. apply spaces_no_digits in H. rewrite formatPhoneNumber_digits in H.
    destruct (TicketForm.digitsOnly value); [reflexivity|discriminate].
  - intros H. rewrite formatPhoneNumber_shape. cbv zeta. rewrite H. reflexivity.
Qed.

(** X15: typing into the phone field: the stored text holds the first ten digits
    typed and nothing else of what was typed, has at most fourteen
    characters, and formatting it again changes nothing.  Validation then
    passes for the phone exactly when at least ten digits were typed (digits
    after the tenth are dropped), and asks for a phone number exactly when
    none was. *)
Theorem phone_field_keeps_ten_digits :
  forall (value : Str.t) (before : TicketForm.FormData),
    let d := TicketForm.handleChange TicketForm.PhoneField value before in
    TicketForm.digitsOnly (TicketForm.phone d)
    = firstn 10 (TicketForm.digitsOnly value)
    /\ TicketForm.formatPhoneNumber (TicketForm.phone d) = TicketForm.phone d
    /\ (List.length (TicketForm.phone d) <= 14)%nat
    /\ (TicketForm.phoneError (TicketForm.newErrors d) = None
        <-> (10 <= List.length (TicketForm.digitsOnly value))%nat)
    /\ (TicketForm.phoneError (TicketForm.newErrors d)
        = Some TicketForm.PhoneRequired
        <-> TicketForm.digitsOnly value = []).
Proof.
  intros value before d. subst d. cbn [TicketForm.handleChange TicketForm.phone].
  split; [apply formatPhoneNumber_digits|]. split; [|split; [|split]].
  - rewrite (formatPhoneNumber_shape (TicketForm.formatPhoneNumber value)).
    cbv zeta. rewrite formatPhoneNumber_digits.
    rewrite (formatPhoneNumber_shape value). cbv zeta.
    set (digits := TicketForm.digitsOnly value).
    destruct (List.length digits <? 7)%nat eqn:H7.
    + pose proof H7 as H7'. apply Nat.ltb_lt in H7'.
      rewrite (firstn_all2 (n := 10)) by lia.
      rewrite H7. reflexivity.
    + apply Nat.ltb_ge in H7.
      assert (H4 : (List.length digits <? 4)%nat = false) by (apply Nat.ltb_ge; lia).
      assert (H4' : (List.length (firstn 10 digits) <? 4)%nat = false)
        by (apply Nat.ltb_ge; rewrite length_firstn; lia).
      assert (H7' : (List.length (firstn 10 digits) <? 7)%nat = false)
        by (apply Nat.ltb_ge; rewrite length_firstn; lia).
      rewrite H4, H4', H7'.
      rewrite firstn_firstn, !skipn_firstn_comm, !firstn_firstn. reflexivity.
  - rewrite formatPhoneNumber_shape. cbv zeta.
    set (digits := TicketForm.digitsOnly value).
    destruct (List.length digits <? 4)%nat eqn:H4;
      [apply Nat.ltb_lt in H4; lia|].
    destruct (List.length digits <? 7)%nat eqn:H7.
    + apply Nat.ltb_lt in H7. rewrite !length_app, length_firstn, length_skipn.
      cbn [Str.str list_ascii_of_string List.length]. lia.
    + rewrite !length_app, !length_firstn.
      cbn [Str.str list_ascii_of_string List.length]. lia.
  - unfold TicketForm.newErrors. cbn [TicketForm.phoneError TicketForm.phone].
    rewrite formatPhoneNumber_digits, length_firstn.
    destruct (TicketForm.blank (TicketForm.formatPhoneNumber value)) eqn:Hb.
    + apply formatPhoneNumber_blank in Hb. rewrite Hb. cbn [List.length].
      split; [discriminate|lia].
    + destruct (Nat.eqb (Nat.min 10 (List.length (TicketForm.digitsOnly value))) 10)
        eqn:He; cbn [negb].
      * apply Nat.eqb_eq in He. split; [lia|reflexivity].
      * apply Nat.eqb_neq in He. split; [discriminate|lia].
  - unfold TicketForm.newErrors. cbn [TicketForm.phoneError TicketForm.phone].
    destruct (TicketForm.blank (TicketForm.formatPhoneNumber value)) eqn:Hb.
    + apply formatPhoneNumber_blank in Hb. split; [intros _; exact Hb|reflexivity].
    + split.
      * destruct (negb _); discriminate.
      * intros H. apply formatPhoneNumber_blank in H. congruence.
Qed.

Lemma starCapture_isSome (p : ascii -> bool) (k : Str.t -> bool) (s : Str.t) :
  RegExp.isSome (RegExp.starCapture p k s) = true
  <-> exists run rest, s = (run ++ rest)%list /\ forallb p run = true /\ k rest = true.
Proof.
  split.
  - destruct (RegExp.starCapture p k s) as [run|] eqn:E; [|discriminate].
    intros _. apply starCapture_sound in E. destruct E as [rest E].
    now exists run, rest.
  - intros (run & rest & -> & Hrun & Hk). induction run as [|c run IH]; cbn [app].
    + destruct rest as [|c rest]; cbn [RegExp.starCapture]; [now rewrite Hk|].
      destruct (p c); [|now rewrite Hk].
      destruct (RegExp.starCapture p k rest); [reflexivity|now rewrite Hk].
    + cbn [forallb] in Hrun. apply andb_true_iff in Hrun. destruct Hrun as [Hc Hrun].
      cbn [RegExp.starCapture]. rewrite Hc.
      specialize (IH Hrun). now destruct (RegExp.starCapture p k (run ++ rest)).
Qed.

Lemma groupPlus_isSome (p : ascii -> bool) (pat : RegExp.pattern) (s : Str.t) :
  RegExp.isSome (RegExp.matchHere (RegExp.GroupPlus p :: pat) s) = true
  <-> exists run rest,
        s = (run ++ rest)%list /\ run <> [] /\ forallb p run = true
        /\ RegExp.isSome (RegExp.matchHere pat rest) = true.
Proof.
  cbn [RegExp.matchHere]. split.
  - destruct s as [|x s]; [discriminate|]. destruct (p x) eqn:Hx; [|discriminate].
    destruct (RegExp.starCapture p _ s) as [run|] eqn:E; [|discriminate].
    intros _. apply starCapture_sound in E. destruct E as (rest & -> & Hrun & Hk).
    exists (x :: run), rest. repeat split; [discriminate| |exact Hk].
    cbn [forallb]. now rewrite Hx.
  - intros (run & rest & -> & Hne & Hrun & Hk).
    destruct run as [|x run]; [contradiction|]. cbn [app forallb] in *.
    apply andb_true_iff in Hrun. destruct Hrun as [Hx Hrun]. rewrite Hx.
    assert (H : RegExp.isSome
                  (RegExp.starCapture p
                     (fun rest => RegExp.isSome (RegExp.matchHere pat rest))
                     (run ++ rest)) = true).
    { apply starCapture_isSome. now exists run, rest. }
    now destruct (RegExp.starCapture p _ (run ++ rest)).
Qed.

Lemma chr_isSome (c : ascii) (pat : RegExp.pattern) (s : Str.t) :
  RegExp.isSome (RegExp.matchHere (RegExp.Chr c :: pat) s) = true
  <-> exists rest, s = c :: rest /\ RegExp.isSome (RegExp.matchHere pat rest) = true.
Proof.
  cbn [RegExp.matchHere]. split.
  - destruct s as [|x s]; [discriminate|].
    destruct (Ascii.eqb x c) eqn:E; [|discriminate].
    apply Ascii.eqb_eq in E. subst x. intros H. now exists s.
  - intros (rest & -> & H). now rewrite Ascii.eqb_refl.
Qed.

Lemma search_isSome (pat : RegExp.pattern) (s : Str.t) :
  RegExp.isSome (RegExp.search pat s) = true
  <-> exists before rest,
        s = (before ++ rest)%list
        /\ RegExp.isSome (RegExp.matchHere pat rest) = true.
Proof.
  split.
  - induction s as [|c s IH]; cbn [RegExp.search].
    + destruct (RegExp.matchHere pat []) eqn:E; [|discriminate].
      intros _. exists [], []. now rewrite E.
    + destruct (RegExp.matchHere pat (c :: s)) eqn:E.
      * intros _. exists [], (c :: s). now rewrite E.
      * intros H. destruct (IH H) as (before & rest & -> & Hm).
        now exists (c :: before), rest.
  - intros (before & rest & -> & Hm). induction before as [|c before IH]; cbn [app].
    + destruct rest; cbn [RegExp.search];
        now destruct (RegExp.matchHere pat _).
    + cbn [RegExp.search].
      now destruct (RegExp.matchHere pat (c :: before ++ rest)).
Qed.

(** What [/\S+@\S+\.\S+/.test] accepts. *)
Lemma emailPattern_hasAddress (s : Str.t) :
  TicketForm.test TicketForm.emailPattern s = true <-> TextSpec.hasAddress s.
Proof.
  unfold TicketForm.test, TicketForm.emailPattern, TextSpec.hasAddress.
  rewrite search_isSome. split.
  - intros (before & r0 & -> & H).
    apply groupPlus_isSome in H. destruct H as (a & r1 & -> & Ha & Hsa & H).
    apply chr_isSome in H. destruct H as (r2 & -> & H).
    apply groupPlus_isSome in H. destruct H as (b & r3 & -> & Hb & Hsb & H).
    apply chr_isSome in H. destruct H as (r4 & -> & H).
    apply groupPlus_isSome in H. destruct H as (c & after & -> & Hc & Hsc & _).
    now exists before, a, b, c, after.
  - intros (before & a & b & c & after & -> & Ha & Hb & Hc & Hsa & Hsb & Hsc).
    exists before, (a ++ "@"%char :: b ++ "."%char :: c ++ after)%list.
    split; [reflexivity|].
    apply groupPlus_isSome. exists a, ("@"%char :: b ++ "."%char :: c ++ after)%list.
    repeat split; try assumption.
    apply chr_isSome. eexists. split; [reflexivity|].
    apply groupPlus_isSome. exists b, ("."%char :: c ++ after)%list.
    repeat split; try assumption.
    apply chr_isSome. eexists. split; [reflexivity|].
    apply groupPlus_isSome. exists c, after. repeat split; assumption.
Qed.

Lemma blank_false (s : Str.t) :
  TicketForm.blank s = false <-> existsb TicketForm.nonSpace s = true.
Proof.
  rewrite <- not_true_iff_false, blank_spaces, not_true_iff_false.
  unfold TicketForm.nonSpace. induction s as [|c s IH]; cbn [forallb existsb].
  - split; discriminate.
  - destruct (Str.is_space c); cbn [andb orb negb]; [exact IH|tauto].
Qed.

(** X16: the form goes through, and [onPurchase] is called, exactly when the
    name holds a character that is not white space, the e-mail text holds
    somewhere a run without white space, an at sign, a second run, a point
    and a third run, and the phone text holds exactly ten digits.  Nothing
    anchors the e-mail pattern, so text before and after the address,
    white space included, is accepted. *)
Theorem form_is_accepted_iff :
  forall d : TicketForm.FormData,
    TicketForm.handleSubmit d = true
    <-> (existsb TicketForm.nonSpace (TicketForm.name d) = true
         /\ TextSpec.hasAddress (TicketForm.email d)
         /\ List.length (TicketForm.digitsOnly (TicketForm.phone d)) = 10%nat).
Proof.
  intros d. unfold TicketForm.handleSubmit, TicketForm.validateForm,
    TicketForm.newErrors.
  rewrite <- blank_false, <- emailPattern_hasAddress.
  assert (He : TicketForm.test TicketForm.emailPattern (TicketForm.email d) = true ->
               TicketForm.blank (TicketForm.email d) = false).
  { intros H. apply emailPattern_hasAddress in H.
    destruct H as (before & a & b & c & after & Heq & Ha & _ & _ & Hsa & _).
    apply blank_false. rewrite Heq, !existsb_app.
    destruct a as [|x a]; [contradiction|]. cbn [forallb] in Hsa.
    apply andb_true_iff in Hsa. destruct Hsa as [Hx _].
    cbn [existsb]. rewrite Hx. now rewrite orb_true_r. }
  assert (Hp : List.length (TicketForm.digitsOnly (TicketForm.phone d)) = 10%nat ->
               TicketForm.blank (TicketForm.phone d) = false).
  { intros H. apply not_true_iff_false. intros Hb.
    apply blank_spaces, spaces_no_digits in Hb. rewrite Hb in H. discriminate. }
  destruct (TicketForm.blank (TicketForm.name d));
    [split; [discriminate|intros [H _]; discriminate]|].
  destruct (TicketForm.test TicketForm.emailPattern (TicketForm.email d)) eqn:Ht.
  - rewrite (He eq_refl). cbn [negb].
    destruct (Nat.eqb (List.length (TicketForm.digitsOnly (TicketForm.phone d))) 10)
      eqn:Hl.
    + apply Nat.eqb_eq in Hl. rewrite (Hp Hl). cbn [negb]. tauto.
    + apply Nat.eqb_neq in Hl. cbn [negb].
      destruct (TicketForm.blank (TicketForm.phone d)); split; try discriminate;
        intros (_ & _ & H); contradiction.
  - destruct (TicketForm.blank (TicketForm.email d)); cbn [negb];
      split; try discriminate; intros (_ & H & _); discriminate.
Qed.

(** ** Lines of the coordinate text *)

Lemma trimStart_app_spaces (ws s : Str.t) :
  forallb Str.is_space ws = true -> Str.trimStart (ws ++ s) = Str.trimStart s.
Proof.
  induction ws as [|c ws IH]; [reflexivity|]. cbn [forallb app Str.trimStart].
  intros H. apply andb_true_iff in H. destruct H as [Hc Hws]. now rewrite Hc, IH.
Qed.

Lemma trimStart_app_text (s ws : Str.t) :
  forallb Str.is_space s = false ->
  Str.trimStart (s ++ ws) = (Str.trimStart s ++ ws)%list.
Proof.
  induction s as [|c s IH]; [discriminate|]. cbn [forallb app Str.trimStart].
  destruct (Str.is_space c); cbn [andb]; [exact IH|reflexivity].
Qed.

Lemma trim_padding (ws line ws' : Str.t) :
  forallb Str.is_space ws = true -> forallb Str.is_space ws' = true ->
  Str.trim (ws ++ line ++ ws') = Str.trim line.
Proof.
  intros Hws Hws'. unfold Str.trim, Str.trimEnd.
  rewrite (trimStart_app_spaces _ _ Hws).
  destruct (forallb Str.is_space line) eqn:Hl.
  - assert (H1 : Str.trimStart (line ++ ws') = []).
    { apply trimStart_nil. rewrite forallb_app, Hl, Hws'. reflexivity. }
    assert (H2 : Str.trimStart line = []) by now apply trimStart_nil.
    now rewrite H1, H2.
  - rewrite (trimStart_app_text _ _ Hl), rev_app_distr.
    rewrite trimStart_app_spaces by now rewrite forallb_rev.
    reflexivity.
Qed.

Lemma lineCoordinates_trim (line line' : Str.t) :
  Str.trim line = Str.trim line' ->
  SeatCoordinateParser.lineCoordinates line
  = SeatCoordinateParser.lineCoordinates line'.
Proof.
  intros H. unfold SeatCoordinateParser.lineCoordinates. now rewrite H.
Qed.

(** A character behind the last line stays on the last line. *)
Lemma split_snoc (sep c : ascii) (s : Str.t) :
  Ascii.eqb c sep = false ->
  exists lines line,
    Str.split sep s = (lines ++ [line])%list
    /\ Str.split sep (s ++ [c]) = (lines ++ [(line ++ [c])%list])%list.
Proof.
  intros Hc. induction s as [|x s IH]; cbn [app Str.split].
  - exists [], []. rewrite Hc. split; reflexivity.
  - destruct IH as (lines & line & H1 & H2). rewrite H1, H2.
    destruct (Ascii.eqb x sep).
    + exists ([] :: lines), line. split; reflexivity.
    + destruct lines as [|l0 lines]; cbn [app].
      * exists [], (x :: line). split; reflexivity.
      * exists ((x :: l0) :: lines), line. split; reflexivity.
Qed.

Lemma contribution_length (line : Str.t) :
  (List.length (VectorSyntax.contribution line) <= 1)%nat.
Proof.
  unfold VectorSyntax.contribution.
  destruct (SeatCoordinateParser.lineCoordinates line); cbn; lia.
Qed.

(** X17: the parser works line by line: the result for two texts joined by a
    line feed, or by a carriage return and a line feed, is the result for the
    first followed by the result for the second; white space around a line
    changes nothing of what the line gives; and the result never has more
    coordinates than the text has lines. *)
Theorem parser_works_line_by_line :
  (forall a b : Str.t,
      SeatCoordinateParser.parseVectorCoordinates (a ++ Str.newline :: b)
      = (SeatCoordinateParser.parseVectorCoordinates a
         ++ SeatCoordinateParser.parseVectorCoordinates b)%list)
  /\ (forall a b : Str.t,
         SeatCoordinateParser.parseVectorCoordinates
           (a ++ "013"%char :: Str.newline :: b)
         = (SeatCoordinateParser.parseVectorCoordinates a
            ++ SeatCoordinateParser.parseVectorCoordinates b)%list)
  /\ (forall ws line ws' : Str.t,
         forallb Str.is_space ws = true -> forallb Str.is_space ws' = true ->
         SeatCoordinateParser.lineCoordinates (ws ++ line ++ ws')
         = SeatCoordinateParser.lineCoordinates line)
  /\ (forall text : Str.t,
         (List.length (SeatCoordinateParser.parseVectorCoordinates text)
          <= List.length (Str.split Str.newline text))%nat).
Proof.
  assert (Hnl : forall a b : Str.t,
             SeatCoordinateParser.parseVectorCoordinates (a ++ Str.newline :: b)
             = (SeatCoordinateParser.parseVectorCoordinates a
                ++ SeatCoordinateParser.parseVectorCoordinates b)%list).
  { intros a b. now rewrite !parse_lines, split_app, flat_map_app. }
  assert (Hpad : forall ws line ws' : Str.t,
             forallb Str.is_space ws = true -> forallb Str.is_space ws' = true ->
             SeatCoordinateParser.lineCoordinates (ws ++ line ++ ws')
             = SeatCoordinateParser.lineCoordinates line).
  { intros ws line ws' Hws Hws'. apply lineCoordinates_trim.
    now apply trim_padding. }
  split; [exact Hnl|]. split; [|split; [exact Hpad|]].
  - intros a b.
    change (a ++ "013"%char :: Str.newline :: b)%list
      with (a ++ ["013"%char] ++ Str.newline :: b)%list.
    rewrite app_assoc, Hnl. f_equal. rewrite !parse_lines.
    destruct (split_snoc Str.newline "013"%char a eq_refl)
      as (lines & line & H1 & H2).
    rewrite H1, H2, !flat_map_app. f_equal. cbn [flat_map]. f_equal.
    unfold VectorSyntax.contribution.
    pose proof (Hpad [] line ["013"%char] eq_refl eq_refl) as Hcr.
    cbn [app] in Hcr. now rewrite Hcr.
  - intros text. rewrite parse_lines.
    induction (Str.split Str.newline text) as [|line lines IH]; [cbn; lia|].
    cbn [flat_map List.length]. rewrite length_app.
    pose proof (contribution_length line). lia.
Qed.

Lemma parser_line_by_line_witness :
  SeatCoordinateParser.lineCoordinates (Str.str "   <Vector (1, 2, 3)>  ")
  = SeatCoordinateParser.lineCoordinates (Str.str "<Vector (1, 2, 3)>").
Proof.
  apply (proj1 (proj2 (proj2 parser_works_line_by_line))
           (Str.str "   ") (Str.str "<Vector (1, 2, 3)>") (Str.str "  ")
           eq_refl eq_refl).
Defined.

(** ** The seat list of the application *)

(** X18: whatever is loaded, imported or reset, in any order and with any
    results, the application never ends up with an empty seat list, and no
    call leaves it in the loading state. *)
Theorem seat_list_is_never_empty :
  forall actions : list App.Action,
    let st := fold_left App.dispatch actions App.initial in
    App.availableSeats st <> [] /\ App.isLoadingSeats st = false.
Proof.
  intros actions.
  induction actions as [|a actions IH] using rev_ind; cbv zeta.
  - split; [discriminate|reflexivity].
  - rewrite fold_left_app. cbn [fold_left].
    set (st := fold_left App.dispatch actions App.initial) in *.
    cbv zeta in IH. destruct IH as [Hs Hl].
    destruct a as [settled|seats|text|settled|]; cbn [App.dispatch].
    + unfold App.loadSeats.
      destruct settled as [[|s seats]|]; split; cbn; try assumption;
        try reflexivity; discriminate.
    + unfold App.handleSeatsImported.
      destruct seats as [|s seats]; split; cbn; try assumption; discriminate.
    + unfold App.importCoordinates, CoordinateImporter.handleImport.
      destruct (Str.trim text); [split; assumption|].
      destruct (SeatCoordinateParser.parseAndGenerateSeats text) as [|s seats];
        [split; assumption|].
      split; cbn; [discriminate|assumption].
    + unfold App.resetToFileSeats.
      destruct settled as [[|s seats]|]; split; cbn; try assumption;
        try reflexivity; discriminate.
    + split; [discriminate|exact Hl].
Qed.

(** ** Where the camera is put *)

Lemma orElse_usable (a d : JS.number) :
  JS.truthy d = true ->
  JS.truthy (JS.orElse a d) = true
  /\ (JS.truthy a = true -> JS.orElse a d = a)
  /\ (JS.truthy a = false -> JS.orElse a d = d).
Proof.
  intros Hd. unfold JS.orElse. destruct (JS.truthy a) eqn:Ha.
  - repeat split; [exact Ha|discriminate].
  - repeat split; [exact Hd|discriminate].
Qed.

(** X14: the camera of the seat view is never put on a [NaN] coordinate, and never
    at height 0 or depth 0: a seat whose [y] is 0 or [NaN] is viewed from
    height 2 and one whose [z] is 0 or [NaN] from [z = 10], while a seat with
    three non-zero numbers is viewed from its own coordinates.  The helper
    [positionCameraAtSeat] and the view agree on this. *)
Theorem camera_is_never_on_zero_height :
  forall (camera : ModelLoader.Camera) (c : Point3),
    let placed := MiniSeatView.cameraPosition (Some c) in
    ModelLoader.positionCameraAtSeat (Some camera) (Some c)
    = Some {| ModelLoader.position := placed;
              ModelLoader.lookedAt :=
                Some {| px := Lit.n0; py := Lit.n0; pz := Lit.n0 |} |}
    /\ JS.isNaN (px placed) = false
    /\ JS.truthy (py placed) = true
    /\ JS.truthy (pz placed) = true
    /\ (JS.truthy (py c) = false -> py placed = Lit.n2)
    /\ (JS.truthy (pz c) = false -> pz placed = Lit.n10)
    /\ (JS.truthy (px c) = true -> JS.truthy (py c) = true ->
        JS.truthy (pz c) = true -> placed = c).
Proof.
  intros camera [x y z] placed. subst placed.
  cbn [MiniSeatView.cameraPosition ModelLoader.positionCameraAtSeat px py pz].
  destruct (orElse_usable y Lit.n2 eq_refl) as (Hy1 & Hy2 & Hy3).
  destruct (orElse_usable z Lit.n10 eq_refl) as (Hz1 & Hz2 & Hz3).
  repeat split; try assumption.
  - unfold JS.orElse, JS.truthy. now destruct x.
  - intros Hx Hy Hz. rewrite (Hy2 Hy), (Hz2 Hz). unfold JS.orElse. now rewrite Hx.
Qed.

Lemma camera_witness :
  py (MiniSeatView.cameraPosition
        (Some {| px := Lit.n1; py := Lit.n0; pz := Lit.n1 |})) = Lit.n2.
Proof.
  apply (proj1 (proj2 (proj2 (proj2 (proj2
           (camera_is_never_on_zero_height
              (ModelLoader.mkCamera
                 {| px := Lit.n0; py := Lit.n0; pz := Lit.n0 |} None)
              {| px := Lit.n1; py := Lit.n0; pz := Lit.n1 |})))))).
  reflexivity.
Defined.

(** ** Instances *)

Lemma convertToThreeCoordinates_witness :
  nth_error
    (SeatCoordinateParser.convertToThreeCoordinates
       [{| px := Lit.n1; py := Lit.n2; pz := Lit.n10 |}]) 0
  = Some {| px := Lit.n1; py := Lit.n10; pz := Lit.n2 |}.
Proof.
  apply (proj2 (proj2 (convertToThreeCoordinates_involution
                         [{| px := Lit.n1; py := Lit.n2; pz := Lit.n10 |}]))
           0%nat {| px := Lit.n1; py := Lit.n2; pz := Lit.n10 |}).
  reflexivity.
Defined.

Lemma phone_field_witness :
  TicketForm.phoneError
    (TicketForm.newErrors
       (TicketForm.handleChange TicketForm.PhoneField
          (Str.str "555-123-4567 ext. 89") TicketForm.initialFormData))
  = None.
Proof.
  apply (proj1 (proj2 (proj2 (proj2
           (phone_field_keeps_ten_digits (Str.str "555-123-4567 ext. 89")
              TicketForm.initialFormData))))).
  vm_compute. lia.
Defined.

Lemma form_is_accepted_witness :
  TicketForm.handleSubmit
    {| TicketForm.name := Str.str "Ada";
       TicketForm.email := Str.str "write to ada@example.org today";
       TicketForm.phone := Str.str "(555) 123-4567";
       TicketForm.paymentMethod := Str.str "credit" |} = true.
Proof.
  apply form_is_accepted_iff. cbn [TicketForm.name TicketForm.email TicketForm.phone].
  split; [reflexivity|]. split; [|reflexivity].
  exists (Str.str "write to "), (Str.str "ada"), (Str.str "example"),
    (Str.str "org"), (Str.str " today").
  repeat split; try reflexivity; discriminate.
Defined.

(** ** Sections shown above the map *)

Lemma keys_setOwn (key : string) (value : StadiumMap.CountValue)
  (counts : StadiumMap.Counts) :
  StadiumMap.keys (StadiumMap.setOwn key value counts)
  = if existsb (String.eqb key) (StadiumMap.keys counts)
    then StadiumMap.keys counts
    else (StadiumMap.keys counts ++ [key])%list.
Proof.
  unfold StadiumMap.keys. induction counts as [|[k v] counts IH]; [reflexivity|].
  cbn [StadiumMap.setOwn map fst existsb]. rewrite (String.eqb_sym key k).
  destruct (String.eqb k key) eqn:E; [reflexivity|].
  cbn [map fst orb app]. rewrite IH.
  now destruct (existsb (String.eqb key) (map fst counts)).
Qed.

Lemma existsb_eqb_In (key : string) (l : list string) :
  existsb (String.eqb key) l = true <-> In key l.
Proof.
  rewrite existsb_exists. split.
  - intros [k [Hin Hk]]. apply String.eqb_eq in Hk. now subst k.
  - intros H. exists key. split; [exact H|apply String.eqb_refl].
Qed.

Lemma keys_countSeat (counts : StadiumMap.Counts) (seat : Seat) :
  let key := StadiumMap.propertyKey (section seat) in
  let ks := StadiumMap.keys counts in
  let ks' := StadiumMap.keys (StadiumMap.countSeat counts seat) in
  (NoDup ks -> NoDup ks')
  /\ (forall k, In k ks' <-> In k ks \/ (k = key /\ k <> "__proto__"%string))
  /\ (List.length ks <= List.length ks' <= S (List.length ks))%nat.
Proof.
  intros key ks ks'. subst ks'. unfold StadiumMap.countSeat, StadiumMap.setCount.
  fold key. destruct (String.eqb_spec key "__proto__") as [Ep|Ep].
  { fold ks. repeat split; try tauto; try lia.
    intros [H|[-> H]]; [exact H|contradiction]. }
  rewrite keys_setOwn. fold ks.
  destruct (existsb (String.eqb key) ks) eqn:E.
  - apply existsb_eqb_In in E. repeat split; try tauto; try lia.
    intros [H|[-> _]]; assumption.
  - assert (Hn : ~ In key ks).
    { intros H. apply existsb_eqb_In in H. congruence. }
    repeat split.
    + intros Hnd. apply NoDup_app; [exact Hnd|repeat constructor; intros []|].
      intros k Hk [<-|[]]. contradiction.
    + intros H. apply in_app_or in H. destruct H as [H|[<-|[]]]; tauto.
    + intros [H|[-> _]]; apply in_or_app; [now left|right; now left].
    + rewrite length_app. cbn. lia.
    + rewrite length_app. cbn. lia.
Qed.

(** X19: the number of sections shown above the map is the number of distinct
    property keys of [seat.section] among the seats, the key [__proto__]
    left out and the seats without a section counting together as one
    section named [undefined]: the keys of the counting object are pairwise
    distinct, they are exactly the property keys of the sections of the seats
    other than [__proto__], for which the assignment makes no property, and
    there are no more of them than seats; none is shown exactly when every
    seat, if there is one, has the section [__proto__]. *)
Theorem section_count_is_number_of_distinct_sections :
  forall seats : list Seat,
    let shown := StadiumMap.keys (StadiumMap.sectionCounts seats) in
    let sectionKeys :=
      map (fun seat => StadiumMap.propertyKey (section seat)) seats in
    NoDup shown
    /\ (forall k, In k shown <-> In k sectionKeys /\ k <> "__proto__"%string)
    /\ (List.length shown <= List.length seats)%nat
    /\ (shown = [] <-> forall k, In k sectionKeys -> k = "__proto__"%string).
Proof.
  intros seats shown sectionKeys. subst shown sectionKeys.
  unfold StadiumMap.sectionCounts.
  assert (H : NoDup (StadiumMap.keys (fold_left StadiumMap.countSeat seats []))
              /\ (forall k,
                    In k (StadiumMap.keys (fold_left StadiumMap.countSeat seats []))
                    <-> In k (map (fun seat => StadiumMap.propertyKey (section seat))
                                seats)
                        /\ k <> "__proto__"%string)
              /\ (List.length (StadiumMap.keys
                                 (fold_left StadiumMap.countSeat seats []))
                  <= List.length seats)%nat).
  { induction seats as [|seat seats IH] using rev_ind.
    - repeat split; try constructor; cbn; tauto.
    - rewrite fold_left_app. cbn [fold_left].
      destruct IH as (IH1 & IH2 & IH3).
      destruct (keys_countSeat (fold_left StadiumMap.countSeat seats []) seat)
        as (K1 & K2 & K3).
      split; [now apply K1|]. split.
      + intros k. rewrite K2, IH2, map_app, in_app_iff. cbn [map In].
        split.
        * intros [[H1 H2]|[-> H2]]; split; auto.
        * intros [[H1|[<-|[]]] H2]; auto.
      + rewrite length_app. cbn [List.length]. lia. }
  destruct H as (H1 & H2 & H3).
  split; [exact H1|]. split; [exact H2|]. split; [exact H3|]. split.
  - intros Hk k Hin.
    destruct (String.eqb_spec k "__proto__") as [E|E]; [exact E|].
    exfalso. assert (Hin' : In k (StadiumMap.keys
                                    (fold_left StadiumMap.countSeat seats [])))
      by (apply H2; now split).
    rewrite Hk in Hin'. exact Hin'.
  - intros Hall.
    destruct (StadiumMap.keys (fold_left StadiumMap.countSeat seats []))
      as [|k ks] eqn:Ek; [reflexivity|].
    exfalso. assert (Hin : In k (k :: ks)) by now left.
    apply H2 in Hin. destruct Hin as [Hin Hne]. exact (Hne (Hall k Hin)).
Qed.

Lemma section_count_witness :
  StadiumMap.keys
    (StadiumMap.sectionCounts
       [App.seat "__proto__" Lit.n1 Lit.n1 Lit.n100 Lit.n0 Lit.n0 Lit.n0]) = []
  /\ StadiumMap.keys
       (StadiumMap.sectionCounts
          [App.seat "constructor" Lit.n1 Lit.n1 Lit.n100 Lit.n0 Lit.n0 Lit.n0;
           App.seat "A" Lit.n1 Lit.n1 Lit.n100 Lit.n0 Lit.n0 Lit.n0;
           App.seat "constructor" Lit.n1 Lit.n1 Lit.n100 Lit.n0 Lit.n0 Lit.n0])
     = ["constructor"; "A"]%string.
Proof.
  split; [|vm_compute; reflexivity].
  apply (proj2 (proj2 (proj2 (section_count_is_number_of_distinct_sections
           [App.seat "__proto__" Lit.n1 Lit.n1 Lit.n100 Lit.n0 Lit.n0 Lit.n0])))).
  intros k [<-|[]]. reflexivity.
Defined.

(** ** Prices and distances *)

Lemma le_trans (a b c : JS.number) :
  (a <=? b) = true -> (b <=? c) = true -> (a <=? c) = true.
Proof.
  unfold JS.le, SFleb, SFcompare.
  destruct a as [sa|sa| |sa ma ea], b as [sb|sb| |sb mb eb], c as [sc|sc| |sc mc ec];
    try discriminate; try reflexivity;
    try (destruct sa, sb; try discriminate; try reflexivity; fail);
    try (destruct sa, sc; try discriminate; try reflexivity; fail);
    try (destruct sb, sc; try discriminate; try reflexivity; fail).
  all: destruct sa, sb, sc; try discriminate; try reflexivity.
  all: try (destruct (Z.compare_spec ea eb); try discriminate; try reflexivity; fail).
  all: try (destruct (Z.compare_spec eb ec); try discriminate; try reflexivity; fail).
  all: try (destruct (Z.compare_spec ea ec); try discriminate; try reflexivity; fail).
  all: change (PosDef.Pos.compare_cont Eq) with Pos.compare;
    destruct (Z.compare_spec ea eb), (Z.compare_spec eb ec), (Z.compare_spec ea ec);
    try discriminate; try reflexivity; try lia;
    destruct (Pos.compare_spec ma mb), (Pos.compare_spec mb mc),
      (Pos.compare_spec ma mc);
    cbn; try discriminate; try reflexivity; lia.
Qed.

Lemma le_Infinity (a b : JS.number) : (a <=? b) = true -> (b <=? JS.Infinity) = true.
Proof.
  unfold JS.le, SFleb, SFcompare.
  destruct a as [sa|sa| |sa ma ea], b as [sb|sb| |sb mb eb];
    try discriminate; try reflexivity; now destruct sb.
Qed.

(** X20: of two distances from the centre, the smaller or equal one never
    has the lower price; so of two seats loaded from the file, the one
    nearer the centre never costs less than the other. *)
Theorem nearer_seats_never_cost_less :
  forall (near far : Seat) (i j : nat),
    (CoordinateLoader.distance (coordinates near)
     <=? CoordinateLoader.distance (coordinates far)) = true ->
    (price (CoordinateLoader.enhanceSeat far j)
     <=? price (CoordinateLoader.enhanceSeat near i)) = true.
Proof.
  intros near far i j H. unfold CoordinateLoader.enhanceSeat. cbn [price].
  set (d1 := CoordinateLoader.distance (coordinates near)) in *.
  set (d2 := CoordinateLoader.distance (coordinates far)) in *.
  pose proof (le_Infinity _ _ H) as Hinf.
  unfold CoordinateLoader.priceFor, CoordinateLoader.find,
    CoordinateLoader.priceTiers.
  cbn [List.find CoordinateLoader.maxDistance CoordinateLoader.tierPrice].
  destruct (d2 <=? Lit.n0_2) eqn:H2.
  { rewrite (le_trans _ _ _ H H2). reflexivity. }
  destruct (d2 <=? Lit.n0_4) eqn:H4.
  { rewrite (le_trans _ _ _ H H4). destruct (d1 <=? Lit.n0_2); reflexivity. }
  destruct (d2 <=? Lit.n0_6) eqn:H6.
  { rewrite (le_trans _ _ _ H H6).
    destruct (d1 <=? Lit.n0_2); [reflexivity|].
    destruct (d1 <=? Lit.n0_4); reflexivity. }
  destruct (d2 <=? Lit.n0_8) eqn:H8.
  { rewrite (le_trans _ _ _ H H8).
    destruct (d1 <=? Lit.n0_2); [reflexivity|].
    destruct (d1 <=? Lit.n0_4); [reflexivity|].
    destruct (d1 <=? Lit.n0_6); reflexivity. }
  rewrite Hinf. cbn [CoordinateLoader.tierPrice].
  destruct (d1 <=? Lit.n0_2); [reflexivity|].
  destruct (d1 <=? Lit.n0_4); [reflexivity|].
  destruct (d1 <=? Lit.n0_6); [reflexivity|].
  destruct (d1 <=? Lit.n0_8); [reflexivity|].
  destruct (d1 <=? JS.Infinity); reflexivity.
Qed.

Lemma nearer_seats_witness :
  (price (CoordinateLoader.enhanceSeat
            (App.seat "A" Lit.n1 Lit.n1 Lit.n150 Lit.n0_8 Lit.n0_6 Lit.n0) 1)
   <=? price (CoordinateLoader.enhanceSeat
                (App.seat "A" Lit.n1 Lit.n1 Lit.n150 Lit.n0_2 Lit.n0_2 Lit.n0) 0))
  = true.
Proof.
  apply nearer_seats_never_cost_less. vm_compute. reflexivity.
Defined.

(** ** The bounding box of the seats *)

Lemma le_refl (a : JS.number) : JS.isNaN a = false -> (a <=? a) = true.
Proof.
  unfold JS.le, SFleb, SFcompare.
  destruct a as [s|s| |s m e]; try discriminate; intros _; try reflexivity;
    destruct s; try reflexivity; rewrite Z.compare_refl;
    change (PosDef.Pos.compare_cont Eq) with Pos.compare;
    now rewrite Pos.compare_refl.
Qed.

Lemma not_lt_le (a b : JS.number) :
  JS.isNaN a = false -> JS.isNaN b = false ->
  (a <? b) = false -> (b <=? a) = true.
Proof.
  unfold JS.lt, JS.le, SFltb, SFleb, SFcompare.
  destruct a as [sa|sa| |sa ma ea], b as [sb|sb| |sb mb eb];
    try discriminate; intros _ _; try reflexivity;
    try (destruct sa; try discriminate; reflexivity);
    try (destruct sb; try discriminate; reflexivity);
    try (destruct sa, sb; try discriminate; reflexivity).
  destruct sa, sb; try discriminate; try reflexivity;
    change (PosDef.Pos.compare_cont Eq) with Pos.compare;
    destruct (Z.compare_spec ea eb), (Z.compare_spec eb ea);
    try discriminate; try reflexivity; try lia;
    destruct (Pos.compare_spec ma mb), (Pos.compare_spec mb ma);
    cbn; try discriminate; try reflexivity; lia.
Qed.

Lemma min_below (a b : JS.number) :
  JS.isNaN a = false -> JS.isNaN b = false ->
  JS.isNaN (JS.Math.min a b) = false
  /\ (JS.Math.min a b <=? a) = true /\ (JS.Math.min a b <=? b) = true.
Proof.
  intros Ha Hb. unfold JS.Math.min. rewrite Ha, Hb. cbn [orb].
  destruct (a <? b) eqn:Hab.
  { repeat split; [exact Ha|now apply le_refl|now apply lt_le]. }
  destruct (b <? a) eqn:Hba.
  { repeat split; [exact Hb|now apply lt_le|now apply le_refl]. }
  pose proof (not_lt_le _ _ Ha Hb Hab) as H1.
  pose proof (not_lt_le _ _ Hb Ha Hba) as H2.
  destruct (JS.is_zero a && JS.is_zero b); [destruct (JS.sign_bit a)|];
    repeat split; try assumption; now apply le_refl.
Qed.

Lemma max_above (a b : JS.number) :
  JS.isNaN a = false -> JS.isNaN b = false ->
  JS.isNaN (JS.Math.max a b) = false
  /\ (a <=? JS.Math.max a b) = true /\ (b <=? JS.Math.max a b) = true.
Proof.
  intros Ha Hb. unfold JS.Math.max. rewrite Ha, Hb. cbn [orb].
  destruct (b <? a) eqn:Hba.
  { repeat split; [exact Ha|now apply le_refl|now apply lt_le]. }
  destruct (a <? b) eqn:Hab.
  { repeat split; [exact Hb|now apply lt_le|now apply le_refl]. }
  pose proof (not_lt_le _ _ Ha Hb Hab) as H1.
  pose proof (not_lt_le _ _ Hb Ha Hba) as H2.
  destruct (JS.is_zero a && JS.is_zero b); [destruct (JS.sign_bit a)|];
    repeat split; try assumption; now apply le_refl.
Qed.

Lemma bounds_fold_enclose (coordinates : list StadiumMap.Coord2) :
  Forall (fun c => JS.isNaN (StadiumMap.cx c) = false
                   /\ JS.isNaN (StadiumMap.cz c) = false) coordinates ->
  forall b : StadiumMap.Bounds,
    JS.isNaN (StadiumMap.minX b) = false -> JS.isNaN (StadiumMap.maxX b) = false ->
    JS.isNaN (StadiumMap.minZ b) = false -> JS.isNaN (StadiumMap.maxZ b) = false ->
    let b' := fold_left StadiumMap.bounds_step coordinates b in
    ((StadiumMap.minX b' <=? StadiumMap.minX b) = true
     /\ (StadiumMap.maxX b <=? StadiumMap.maxX b') = true
     /\ (StadiumMap.minZ b' <=? StadiumMap.minZ b) = true
     /\ (StadiumMap.maxZ b <=? StadiumMap.maxZ b') = true)
    /\ forall c, In c coordinates ->
         (StadiumMap.minX b' <=? StadiumMap.cx c) = true
         /\ (StadiumMap.cx c <=? StadiumMap.maxX b') = true
         /\ (StadiumMap.minZ b' <=? StadiumMap.cz c) = true
         /\ (StadiumMap.cz c <=? StadiumMap.maxZ b') = true.
Proof.
  induction 1 as [|c l [Hcx Hcz] _ IH]; intros b Hnx Hxx Hnz Hxz; cbn [fold_left].
  - repeat split; try (now apply le_refl); contradiction.
  - destruct (min_below _ _ Hnx Hcx) as (N1 & L1 & L1').
    destruct (max_above _ _ Hxx Hcx) as (N2 & L2 & L2').
    destruct (min_below _ _ Hnz Hcz) as (N3 & L3 & L3').
    destruct (max_above _ _ Hxz Hcz) as (N4 & L4 & L4').
    destruct (IH (StadiumMap.bounds_step b c) N1 N2 N3 N4)
      as ((I1 & I2 & I3 & I4) & Iin).
    cbn [StadiumMap.bounds_step StadiumMap.minX StadiumMap.maxX StadiumMap.minZ
           StadiumMap.maxZ] in I1, I2, I3, I4.
    split.
    + repeat split; eapply le_trans; eassumption.
    + intros c' [<-|Hin]; [|now apply Iin].
      repeat split; eapply le_trans; eassumption.
Qed.

(** X21: when no [x] and no [z] of the coordinates is [NaN], the four
    accumulators of [calcScalingFactors] enclose every coordinate: each [x]
    lies between [minX] and [maxX] and each [z] between [minZ] and [maxZ]. *)
Theorem bounds_enclose_every_coordinate :
  forall coordinates : list StadiumMap.Coord2,
    Forall (fun c => JS.isNaN (StadiumMap.cx c) = false
                     /\ JS.isNaN (StadiumMap.cz c) = false) coordinates ->
    let b := StadiumMap.bounds coordinates in
    forall c, In c coordinates ->
      (StadiumMap.minX b <=? StadiumMap.cx c) = true
      /\ (StadiumMap.cx c <=? StadiumMap.maxX b) = true
      /\ (StadiumMap.minZ b <=? StadiumMap.cz c) = true
      /\ (StadiumMap.cz c <=? StadiumMap.maxZ b) = true.
Proof.
  intros coordinates Hall b. subst b. unfold StadiumMap.bounds.
  apply (bounds_fold_enclose coordinates Hall StadiumMap.bounds_init);
    reflexivity.
Qed.

Lemma bounds_enclose_witness :
  let coordinates :=
    [StadiumMap.mkCoord2 Lit.n1 Lit.n2; StadiumMap.mkCoord2 Lit.n10 Lit.n0] in
  (StadiumMap.minX (StadiumMap.bounds coordinates) <=? Lit.n10) = true.
Proof.
  intros coordinates.
  assert (H : Forall (fun c => JS.isNaN (StadiumMap.cx c) = false
                               /\ JS.isNaN (StadiumMap.cz c) = false) coordinates)
    by (repeat constructor).
  apply (bounds_enclose_every_coordinate coordinates H
           (StadiumMap.mkCoord2 Lit.n10 Lit.n0)).
  right. left. reflexivity.
Defined.
